(** * The model-gateway layer of the Tribe AI engine

    A shallow embedding of the adapter, retry, error-classification,
    response-extraction and result-cache code of
    [backend/src/ai-engine/src], with the properties the design document
    states about it, followed by further properties read off the code:
    of the request loop and the formatters of the adapter, of the
    preparation of messages and parameters, of the mock adapter, of the
    text cleaning, and of the matching model and the service over it.

    Conventions of the embedding:
    - Python [str] is [string]; characters are the code points below 256.
    - Python [int] is [Z]; Python [float] is the exact rational [Qc]
      (rounding, infinities and NaN are outside the model).
    - A Python [dict] used as a keyed store is a [gmap string _]; a JSON
      object inside a value is an association list, first binding wins.
    - Code that can raise returns a [result]; [Raised e] is the exception.
    - Request ids and the set-up of the HTTP session have no effect on the
      modelled results and are left out; so is logging, except where the
      expression that is logged can itself raise.
    - The asynchronous methods of the adapter and of the service repeat
      the code of the synchronous ones line by line, with [asyncio.sleep]
      for [time.sleep] (which, unlike [time.sleep], takes a negative
      delay); the synchronous ones are modelled. *)

From Stdlib Require Import ZArith QArith Qcanon Qround String Ascii List Bool Lia.
From stdpp Require Import base numbers option list list_numbers sorting strings gmap
  fin_maps pretty.

Set Warnings "-register-all".

Local Open Scope string_scope.
Local Open Scope Z_scope.

(* ===================================================================== *)
(** ** Python values *)
(* ===================================================================== *)

Inductive pyval : Type :=
| PNone
| PBool (b : bool)
| PInt (z : Z)
| PFloat (q : Qc)
| PStr (s : string)
| PList (l : list pyval)
| PDict (d : list (string * pyval)).

(** The empty [str], [list] and [dict]. *)
Definition empty_str : string := EmptyString.
Definition empty_dict : pyval := PDict [].

(** Truth value of an object, as [if x:] and [not x] test it. *)
Definition py_truthy (v : pyval) : bool :=
  match v with
  | PNone => false
  | PBool b => b
  | PInt z => negb (z =? 0)
  | PFloat q => negb (bool_decide (q = 0%Qc))
  | PStr s => negb (bool_decide (s = empty_str))
  | PList l => match l with [] => false | _ :: _ => true end
  | PDict d => match d with [] => false | _ :: _ => true end
  end.

(** First binding of a key in a JSON object. *)
Fixpoint dict_get (d : list (string * pyval)) (k : string) : option pyval :=
  match d with
  | [] => None
  | (k', v) :: d' => if bool_decide (k' = k) then Some v else dict_get d' k
  end.

(** [d[k] = v] on a JSON object: replace in place, or append. *)
Fixpoint dict_set (d : list (string * pyval)) (k : string) (v : pyval)
  : list (string * pyval) :=
  match d with
  | [] => [(k, v)]
  | (k', v') :: d' =>
      if bool_decide (k' = k) then (k, v) :: d' else (k', v') :: dict_set d' k v
  end.

(** The numeric reading of a value in a comparison; [None] where Python
    raises [TypeError]. *)
Definition as_number (v : pyval) : option Qc :=
  match v with
  | PInt z => Some (Qc_of_Z z)
  | PFloat q => Some q
  | PBool b => Some (if b then 1%Qc else 0%Qc)
  | _ => None
  end.

(* ===================================================================== *)
(** ** Exceptions *)
(* ===================================================================== *)

(** What [handle_error] reads from an HTTP response object attached to an
    exception. [None] in a field: the object has no such attribute (this is
    also the reading of [error.response is None]). For [resp_json],
    [Some None] is a [json()] call that raises. *)
Record http_response : Type := {
  resp_status_code : option Z;
  resp_headers : option (gmap string string);
  resp_json : option (option pyval)
}.

(** Classes of the exceptions raised by the two HTTP libraries, as far as
    the [isinstance] tests of [handle_error] tell them apart. *)
Inductive transport_class : Type :=
| RequestsTimeout            (* requests.Timeout, ReadTimeout *)
| RequestsConnectTimeout     (* both a ConnectionError and a Timeout *)
| AsyncioTimeoutError        (* asyncio.TimeoutError *)
| AiohttpClientTimeout       (* aiohttp.client_exceptions, named ClientTimeout *)
| RequestsConnectionError
| AiohttpClientConnectionError
| RequestsHTTPError
| AiohttpClientResponseError
| RequestsOther.             (* any other RequestException *)

(** model_adapter.py: [ModelAdapterError] and its four subclasses, each with
    the fields its constructor stores. *)
Inductive adapter_error : Type :=
| ModelAdapterError (message operation model_name : string)
| ModelTimeoutError (message operation model_name : string) (timeout : Z)
| ModelAuthenticationError (message operation model_name : string)
| ModelRateLimitError (message operation model_name : string) (retry_after : pyval)
| ModelContentFilterError (message operation model_name : string)
    (filter_reason : pyval).

Inductive exn : Type :=
| TransportExn (cls : transport_class) (msg : string)
    (status_code : option Z) (response : option http_response)
| BuiltinExn (name msg : string)          (* ValueError, TypeError, KeyError ... *)
| AdapterExn (e : adapter_error).

Definition adapter_message (e : adapter_error) : string :=
  match e with
  | ModelAdapterError m _ _ | ModelTimeoutError m _ _ _
  | ModelAuthenticationError m _ _ | ModelRateLimitError m _ _ _
  | ModelContentFilterError m _ _ _ => m
  end.

Definition adapter_operation (e : adapter_error) : string :=
  match e with
  | ModelAdapterError _ o _ | ModelTimeoutError _ o _ _
  | ModelAuthenticationError _ o _ | ModelRateLimitError _ o _ _
  | ModelContentFilterError _ o _ _ => o
  end.

Definition adapter_model_name (e : adapter_error) : string :=
  match e with
  | ModelAdapterError _ _ n | ModelTimeoutError _ _ n _
  | ModelAuthenticationError _ _ n | ModelRateLimitError _ _ n _
  | ModelContentFilterError _ _ n _ => n
  end.

(** [str(error)] *)
Definition exn_str (e : exn) : string :=
  match e with
  | TransportExn _ m _ _ => m
  | BuiltinExn _ m => m
  | AdapterExn a => adapter_message a
  end.

(** [type(error).__name__] *)
Definition exn_class_name (e : exn) : string :=
  match e with
  | TransportExn RequestsTimeout _ _ _ => "Timeout"
  | TransportExn RequestsConnectTimeout _ _ _ => "ConnectTimeout"
  | TransportExn AsyncioTimeoutError _ _ _ => "TimeoutError"
  | TransportExn AiohttpClientTimeout _ _ _ => "ClientTimeout"
  | TransportExn RequestsConnectionError _ _ _ => "ConnectionError"
  | TransportExn AiohttpClientConnectionError _ _ _ => "ClientConnectionError"
  | TransportExn RequestsHTTPError _ _ _ => "HTTPError"
  | TransportExn AiohttpClientResponseError _ _ _ => "ClientResponseError"
  | TransportExn RequestsOther _ _ _ => "RequestException"
  | BuiltinExn n _ => n
  | AdapterExn (ModelAdapterError _ _ _) => "ModelAdapterError"
  | AdapterExn (ModelTimeoutError _ _ _ _) => "ModelTimeoutError"
  | AdapterExn (ModelAuthenticationError _ _ _) => "ModelAuthenticationError"
  | AdapterExn (ModelRateLimitError _ _ _ _) => "ModelRateLimitError"
  | AdapterExn (ModelContentFilterError _ _ _ _) => "ModelContentFilterError"
  end.

(** Outcome of a computation that may raise. *)
Inductive result (A : Type) : Type :=
| Returned (a : A)
| Raised (e : exn).
Arguments Returned {A} a.
Arguments Raised {A} e.

Global Instance result_ret : MRet result := fun A a => Returned a.
Global Instance result_bind : MBind result := fun A B f m =>
  match m with
  | Returned a => f a
  | Raised e => Raised e
  end.

(** An exception raised by the interpreter; its message is not modelled. *)
Definition raise_builtin {A} (name : string) : result A :=
  Raised (BuiltinExn name empty_str).

(* ===================================================================== *)
(** ** The operations of Python objects the modelled code applies *)
(* ===================================================================== *)

Definition str_len (s : string) : Z := Z.of_nat (String.length s).

(** [len(v)] *)
Definition py_len (v : pyval) : result Z :=
  match v with
  | PStr s => Returned (str_len s)
  | PList l => Returned (Z.of_nat (length l))
  | PDict d => Returned (Z.of_nat (length d))
  | _ => raise_builtin "TypeError"
  end.

Definition is_str (k : string) (v : pyval) : bool :=
  match v with
  | PStr s => bool_decide (s = k)
  | _ => false
  end.

(** Substring test, for [k in s] on a [str]. *)
Fixpoint str_contains (k s : string) : bool :=
  String.prefix k s ||
  match s with
  | EmptyString => false
  | String _ s' => str_contains k s'
  end.

(** [k in v] for a string [k]. *)
Definition py_contains (k : string) (v : pyval) : result bool :=
  match v with
  | PDict d => Returned (bool_decide (is_Some (dict_get d k)))
  | PList l => Returned (existsb (is_str k) l)
  | PStr s => Returned (str_contains k s)
  | _ => raise_builtin "TypeError"
  end.

(** [v[k]] for a string [k]. *)
Definition py_getitem (v : pyval) (k : string) : result pyval :=
  match v with
  | PDict d =>
      match dict_get d k with
      | Some x => Returned x
      | None => raise_builtin "KeyError"
      end
  | _ => raise_builtin "TypeError"
  end.

(** [v[0]] *)
Definition py_first (v : pyval) : result pyval :=
  match v with
  | PList (x :: _) => Returned x
  | PList [] => raise_builtin "IndexError"
  | PStr (String c _) => Returned (PStr (String c EmptyString))
  | PStr EmptyString => raise_builtin "IndexError"
  | PDict _ => raise_builtin "KeyError"
  | _ => raise_builtin "TypeError"
  end.

(** [v.get(k, default)] *)
Definition py_get (v : pyval) (k : string) (dflt : pyval) : result pyval :=
  match v with
  | PDict d => Returned (default dflt (dict_get d k))
  | _ => raise_builtin "AttributeError"
  end.

(** Ordering of two numbers; [TypeError] when an operand is not a number. *)
Definition py_lt (a b : pyval) : result bool :=
  match as_number a, as_number b with
  | Some x, Some y => Returned (bool_decide (x < y)%Qc)
  | _, _ => raise_builtin "TypeError"
  end.

Definition py_le (a b : pyval) : result bool :=
  match as_number a, as_number b with
  | Some x, Some y => Returned (bool_decide (x ≤ y)%Qc)
  | _, _ => raise_builtin "TypeError"
  end.

(** [min(a, b)] keeps [a] unless [b < a]; [max(a, b)] keeps [a] unless
    [b > a]. *)
Definition py_min (a b : pyval) : result pyval :=
  lt ← py_lt b a; mret (if lt : bool then b else a).

Definition py_max (a b : pyval) : result pyval :=
  gt ← py_lt a b; mret (if gt : bool then b else a).

(** [int(x)] of a float: truncation toward zero. *)
Definition float_to_int (q : Qc) : Z :=
  if bool_decide (0 ≤ q)%Qc then Qfloor q else Qceiling q.

(* ===================================================================== *)
(** ** Text *)
(* ===================================================================== *)

(** Code points below 256 that [str.isspace], [str.strip] and the regular
    expression class [\s] count as white space. *)
Definition is_space (c : ascii) : bool :=
  let n := N_of_ascii c in
  ((9 <=? n) && (n <=? 13) || (28 <=? n) && (n <=? 32)
   || (n =? 133) || (n =? 160))%N.

(** Code points below 256 in the regular expression class [\w]: letters,
    digits, the other alphanumerics of Latin-1, and the underscore. *)
Definition is_word (c : ascii) : bool :=
  let n := N_of_ascii c in
  ((48 <=? n) && (n <=? 57) || (65 <=? n) && (n <=? 90)
   || (97 <=? n) && (n <=? 122) || (n =? 95)
   || (n =? 170) || (n =? 178) || (n =? 179) || (n =? 181)
   || (n =? 185) || (n =? 186) || (188 <=? n) && (n <=? 190)
   || (192 <=? n) && (n <=? 214) || (216 <=? n) && (n <=? 246)
   || (248 <=? n) && (n <=? 255))%N.

Fixpoint str_lstrip (s : string) : string :=
  match s with
  | EmptyString => EmptyString
  | String c s' => if is_space c then str_lstrip s' else s
  end.

Fixpoint str_rstrip (s : string) : string :=
  match s with
  | EmptyString => EmptyString
  | String c s' =>
      match str_rstrip s' with
      | EmptyString => if is_space c then EmptyString else String c EmptyString
      | r => String c r
      end
  end.

(** [s.strip()] *)
Definition str_strip (s : string) : string := str_rstrip (str_lstrip s).

Fixpoint str_take (n : nat) (s : string) : string :=
  match n, s with
  | S n', String c s' => String c (str_take n' s')
  | _, _ => EmptyString
  end.

Fixpoint str_drop (n : nat) (s : string) : string :=
  match n, s with
  | S n', String _ s' => str_drop n' s'
  | _, _ => s
  end.

(** [s[:n]]; a negative bound counts from the end. *)
Definition str_slice_to (s : string) (n : Z) : string :=
  if n <? 0 then str_take (Z.to_nat (str_len s + n)) s
  else str_take (Z.to_nat n) s.

(** [s[a:b]] for bounds that are not negative. *)
Definition str_slice (s : string) (a b : Z) : string :=
  str_take (Z.to_nat (b - a)) (str_drop (Z.to_nat a) s).

(** [s.find(c)] for a one-character needle; [-1] when absent. *)
Fixpoint str_find (c : ascii) (s : string) : Z :=
  match s with
  | EmptyString => -1
  | String c' s' =>
      if bool_decide (c' = c) then 0
      else let i := str_find c s' in if i <? 0 then -1 else 1 + i
  end.

(** [s.rfind(c)] *)
Fixpoint str_rfind (c : ascii) (s : string) : Z :=
  match s with
  | EmptyString => -1
  | String c' s' =>
      let i := str_rfind c s' in
      if 0 <=? i then 1 + i
      else if bool_decide (c' = c) then 0 else -1
  end.

(** [c in s] *)
Fixpoint str_has (c : ascii) (s : string) : bool :=
  match s with
  | EmptyString => false
  | String c' s' => bool_decide (c' = c) || str_has c s'
  end.

Fixpoint str_filter (keep : ascii → bool) (s : string) : string :=
  match s with
  | EmptyString => EmptyString
  | String c s' =>
      if keep c then String c (str_filter keep s') else str_filter keep s'
  end.

(* ===================================================================== *)
(** ** config/settings.py *)
(* ===================================================================== *)

(** The settings read from the process environment when the module is
    imported. *)
Record settings : Type := {
  OPENROUTER_API_KEY : string;
  OPENROUTER_API_URL : string;
  DEFAULT_MODEL : string;
  MODEL_TIMEOUT : Z;
  CACHE_ENABLED : bool;
  CACHE_TTL : Z
}.

(** The values [settings.py] falls back to when the environment is empty. *)
Definition default_settings : settings := {|
  OPENROUTER_API_KEY := EmptyString;
  OPENROUTER_API_URL := "https://openrouter.ai";
  DEFAULT_MODEL := "openai/gpt-4";
  MODEL_TIMEOUT := 30;
  CACHE_ENABLED := true;
  CACHE_TTL := 3600
|}.

Definition all_capabilities : pyval :=
  PList [PStr "matching"; PStr "personality"; PStr "engagement";
         PStr "recommendation"].

Definition float_0_7 : Qc := Q2Qc (7 # 10).
Definition float_0_9 : Qc := Q2Qc (9 # 10).
Definition float_0_01 : Qc := Q2Qc (1 # 100).

Definition MODEL_CONFIGS (env : settings) : gmap string (gmap string pyval) :=
  list_to_map [
    ("openai/gpt-4", list_to_map [
       ("temperature", PFloat float_0_7); ("max_tokens", PInt 1000);
       ("top_p", PFloat 1%Qc); ("frequency_penalty", PFloat 0%Qc);
       ("presence_penalty", PFloat 0%Qc); ("stop", PNone);
       ("timeout", PInt (MODEL_TIMEOUT env)); ("context_window", PInt 8192);
       ("capabilities", all_capabilities)]);
    ("openai/gpt-3.5-turbo", list_to_map [
       ("temperature", PFloat float_0_7); ("max_tokens", PInt 1000);
       ("top_p", PFloat 1%Qc); ("frequency_penalty", PFloat 0%Qc);
       ("presence_penalty", PFloat 0%Qc); ("stop", PNone);
       ("timeout", PInt (MODEL_TIMEOUT env)); ("context_window", PInt 4096);
       ("capabilities", all_capabilities)]);
    ("anthropic/claude-2", list_to_map [
       ("temperature", PFloat float_0_7); ("max_tokens", PInt 1000);
       ("top_p", PFloat 1%Qc); ("stop", PNone);
       ("timeout", PInt (MODEL_TIMEOUT env)); ("context_window", PInt 100000);
       ("capabilities", all_capabilities)]);
    ("anthropic/claude-instant-1", list_to_map [
       ("temperature", PFloat float_0_7); ("max_tokens", PInt 1000);
       ("top_p", PFloat 1%Qc); ("stop", PNone);
       ("timeout", PInt (MODEL_TIMEOUT env)); ("context_window", PInt 100000);
       ("capabilities", PList [PStr "engagement"; PStr "recommendation"])])
  ].

(** [model_name or DEFAULT_MODEL]: [None] and the empty string both give
    the default. *)
Definition model_or_default (env : settings) (model_name : option string) : string :=
  match model_name with
  | Some (String c s) => String c s
  | _ => DEFAULT_MODEL env
  end.

(** [MODEL_CONFIGS.get(model, {})] *)
Definition model_config (env : settings) (model : string) : gmap string pyval :=
  default ∅ (MODEL_CONFIGS env !! model).

(** [model_config.get('context_window', 4096)]; every entry of the table
    is an [int]. *)
Definition context_window (env : settings) (model : string) : Z :=
  match model_config env model !! "context_window" with
  | Some (PInt w) => w
  | _ => 4096
  end.

(* ===================================================================== *)
(** ** adapters/model_adapter.py: preparing a request *)
(* ===================================================================== *)

Definition newline : string := String (ascii_of_nat 10) EmptyString.

Definition prompt_truncation_note : string :=
  newline +:+ "[Note: prompt has been truncated to fit model context window]".

Definition message_truncation_note : string :=
  newline +:+ "[Note: message has been truncated to fit model context window]".

(** [n > context_window * 0.9] *)
Definition exceeds_window (w n : Z) : bool :=
  bool_decide (Qc_of_Z w * float_0_9 < Qc_of_Z n)%Qc.

(** [int(context_window * 0.9)] *)
Definition window_limit (w : Z) : Z := float_to_int (Qc_of_Z w * float_0_9).

Definition prepare_prompt (env : settings) (prompt : string)
    (model_name : option string) : string :=
  let model := model_or_default env model_name in
  let context_window := context_window env model in
  let cleaned_prompt := str_strip prompt in
  if exceeds_window context_window (str_len cleaned_prompt) then
    let truncated_length := window_limit context_window in
    str_slice_to cleaned_prompt truncated_length +:+ prompt_truncation_note
  else cleaned_prompt.

(** The test of the validation loop of [prepare_messages]:
    [isinstance(msg, dict) and 'role' in msg and 'content' in msg]. *)
Definition well_formed_message (msg : pyval) : bool :=
  match msg with
  | PDict d =>
      bool_decide (is_Some (dict_get d "role"))
      && bool_decide (is_Some (dict_get d "content"))
  | _ => false
  end.

(** [msg.get('role') == 'system'], for a [msg] that passed validation. *)
Definition is_system_message (msg : pyval) : bool :=
  match msg with
  | PDict d =>
      match dict_get d "role" with
      | Some r => is_str "system" r
      | None => false
      end
  | _ => false
  end.

(** [len(msg.get('content', ''))] *)
Definition content_len (msg : pyval) : result Z :=
  c ← py_get msg "content" (PStr empty_str); py_len c.

(** [sum(len(msg.get('content', '')) for msg in msgs)] *)
Fixpoint sum_content_len (msgs : list pyval) : result Z :=
  match msgs with
  | [] => mret 0
  | msg :: rest => n ← content_len msg; s ← sum_content_len rest; mret (n + s)
  end.

(** The loop [while other_messages and remaining_length <= 0] that pops the
    oldest message and recomputes the remaining length. *)
Fixpoint drop_oldest (limit system_length : Z) (other_messages : list pyval)
    (remaining_length : Z) : result (list pyval * Z) :=
  match other_messages with
  | [] => mret ([], remaining_length)
  | _ :: rest =>
      if remaining_length <=? 0 then
        s ← sum_content_len rest;
        drop_oldest limit system_length rest (limit - system_length - s)
      else mret (other_messages, remaining_length)
  end.

(** The truncation of the oldest remaining message. The source assigns to
    [oldest_msg['content']] in place, so the dictionary the caller passed
    changes too; the model gives the returned list only. *)
Definition truncate_oldest (other_messages : list pyval) (remaining_length : Z)
  : result (list pyval) :=
  match other_messages with
  | [] => mret []
  | oldest_msg :: rest =>
      total ← sum_content_len other_messages;
      if remaining_length <? total then
        content ← py_getitem oldest_msg "content";
        rest_len ← sum_content_len rest;
        match oldest_msg, content with
        | PDict d, PStr s =>
            let truncated_content := str_slice_to s (remaining_length - rest_len) in
            mret (PDict (dict_set d "content"
                           (PStr (truncated_content +:+ message_truncation_note)))
                  :: rest)
        | _, _ => raise_builtin "TypeError"
        end
      else mret other_messages
  end.

Definition default_system_message : pyval :=
  PDict [("role", PStr "system");
         ("content", PStr "You are a helpful AI assistant for the Tribe platform, which helps people form meaningful local connections.")].

Definition prepare_messages (env : settings) (messages : pyval)
    (model_name : option string) : result (list pyval) :=
  let model := model_or_default env model_name in
  match messages with
  | PList msgs =>
      if negb (forallb well_formed_message msgs) then
        Raised (BuiltinExn "ValueError"
                  "Each message must be a dict with 'role' and 'content' keys")
      else
        let context_window := context_window env model in
        total_length ← sum_content_len msgs;
        optimized_messages ←
          (if exceeds_window context_window total_length then
             let system_messages := List.filter is_system_message msgs in
             let other_messages :=
               List.filter (λ m, negb (is_system_message m)) msgs in
             system_length ← sum_content_len system_messages;
             let limit := window_limit context_window in
             '(other_messages, remaining_length) ←
               drop_oldest limit system_length other_messages
                 (limit - system_length);
             other_messages ← truncate_oldest other_messages remaining_length;
             mret (system_messages ++ other_messages)%list
           else mret msgs);
        let has_system := existsb is_system_message optimized_messages in
        if negb has_system && String.prefix "anthropic/" model then
          mret (default_system_message :: optimized_messages)
        else mret optimized_messages
  | _ => Raised (BuiltinExn "ValueError" "Messages must be a list")
  end.

(** The two range checks at the end of [prepare_parameters]. *)
Definition clamp_temperature (p : gmap string pyval) : result (gmap string pyval) :=
  match p !! "temperature" with
  | None => mret p
  | Some t =>
      lo ← py_le (PInt 0) t;
      hi ← (if lo : bool then py_le t (PInt 2) else mret false);
      if lo && hi then mret p
      else
        m ← py_min t (PInt 2);
        v ← py_max (PInt 0) m;
        mret (<["temperature" := v]> p)
  end.

Definition clamp_top_p (p : gmap string pyval) : result (gmap string pyval) :=
  match p !! "top_p" with
  | None => mret p
  | Some t =>
      lo ← py_lt (PInt 0) t;
      hi ← (if lo : bool then py_le t (PInt 1) else mret false);
      if lo && hi then mret p
      else
        m ← py_min t (PInt 1);
        v ← py_max (PFloat float_0_01) m;
        mret (<["top_p" := v]> p)
  end.

Definition clamp_parameters (p : gmap string pyval) : result (gmap string pyval) :=
  p ← clamp_temperature p; clamp_top_p p.

Definition prepare_parameters (env : settings)
    (parameters : option (gmap string pyval)) (model_name : option string)
  : result (gmap string pyval) :=
  let model := model_or_default env model_name in
  let model_config := model_config env model in
  let prepared_params := delete "capabilities" (delete "context_window" model_config) in
  let prepared_params :=
    match parameters with
    | Some user => if bool_decide (size user = 0%nat) then prepared_params
                   else user ∪ prepared_params
    | None => prepared_params
    end in
  clamp_parameters prepared_params.

(* ===================================================================== *)
(** ** adapters/openrouter_adapter.py *)
(* ===================================================================== *)

(** The configuration dictionary given to the adapter; [None]: key absent. *)
Record adapter_config : Type := {
  cfg_api_key : option string;
  cfg_api_url : option string;
  cfg_timeout : option Z;
  cfg_max_retries : option Z;
  cfg_retry_delay : option Qc
}.

(** The fields [OpenRouterAdapter.__init__] sets from the configuration. *)
Record OpenRouterAdapter : Type := {
  api_key : string;
  api_url : string;
  timeout : Z;
  max_retries : Z;
  retry_delay : Qc
}.

Definition OpenRouterAdapter_init (env : settings) (config : adapter_config)
  : result OpenRouterAdapter :=
  let key := default (OPENROUTER_API_KEY env) (cfg_api_key config) in
  if bool_decide (key = empty_str) then
    Raised (BuiltinExn "ValueError"
      "OpenRouter API key is required. Set OPENROUTER_API_KEY environment variable or provide in config.")
  else mret {|
    api_key := key;
    api_url := default (OPENROUTER_API_URL env) (cfg_api_url config);
    timeout := default (MODEL_TIMEOUT env) (cfg_timeout config);
    max_retries := default 3 (cfg_max_retries config);
    retry_delay := default 1%Qc (cfg_retry_delay config)
  |}.

(** *** handle_error *)

(** [isinstance(error, (requests.Timeout, asyncio.TimeoutError))], or the
    class is [ClientTimeout] of [aiohttp.client_exceptions]. *)
Definition is_timeout (error : exn) : bool :=
  match error with
  | TransportExn (RequestsTimeout | RequestsConnectTimeout
                  | AsyncioTimeoutError | AiohttpClientTimeout) _ _ _ => true
  | _ => false
  end.

(** [isinstance(error, (requests.ConnectionError, aiohttp.ClientConnectionError))] *)
Definition is_connection_error (error : exn) : bool :=
  match error with
  | TransportExn (RequestsConnectTimeout | RequestsConnectionError
                  | AiohttpClientConnectionError) _ _ _ => true
  | _ => false
  end.

(** [isinstance(error, (requests.HTTPError, aiohttp.ClientResponseError))] *)
Definition is_http_error (error : exn) : bool :=
  match error with
  | TransportExn (RequestsHTTPError | AiohttpClientResponseError) _ _ _ => true
  | _ => false
  end.

(** [error.response] when [hasattr(error, 'response')]. *)
Definition exn_response (error : exn) : option http_response :=
  match error with
  | TransportExn _ _ _ r => r
  | _ => None
  end.

(** [getattr(error, 'status_code', None)] *)
Definition exn_status_code (error : exn) : option Z :=
  match error with
  | TransportExn _ _ sc _ => sc
  | _ => None
  end.

Definition is_digit (c : ascii) : bool :=
  let n := N_of_ascii c in ((48 <=? n) && (n <=? 57))%N.

Definition digit_value (c : ascii) : Z := Z.of_N (N_of_ascii c) - 48.

(** Decimal digits, single underscores allowed between digits. *)
Fixpoint parse_digits (s : string) (acc : Z) (after_digit : bool) : option Z :=
  match s with
  | EmptyString => if after_digit then Some acc else None
  | String c s' =>
      if is_digit c then parse_digits s' (10 * acc + digit_value c) true
      else if bool_decide (c = "_"%char) && after_digit then parse_digits s' acc false
      else None
  end.

(** The white space [int] skips around the digits: the ASCII white space
    and, of the other code points below 256, the two Unicode spaces. The
    separators U+001C to U+001F, which [str.strip] removes, are not among
    them. *)
Definition is_int_space (c : ascii) : bool :=
  let n := N_of_ascii c in
  ((9 <=? n) && (n <=? 13) || (n =? 32) || (n =? 133) || (n =? 160))%N.

Fixpoint int_lstrip (s : string) : string :=
  match s with
  | EmptyString => EmptyString
  | String c s' => if is_int_space c then int_lstrip s' else s
  end.

Fixpoint int_rstrip (s : string) : string :=
  match s with
  | EmptyString => EmptyString
  | String c s' =>
      match int_rstrip s' with
      | EmptyString => if is_int_space c then EmptyString else String c EmptyString
      | r => String c r
      end
  end.

(** [int(s)] of a [str]; [None] is [ValueError]. The interpreter's limit on
    the number of digits is not modelled. *)
Definition py_int_of_str (s : string) : option Z :=
  match int_rstrip (int_lstrip s) with
  | String "+" r => parse_digits r 0 false
  | String "-" r => Z.opp <$> parse_digits r 0 false
  | t => parse_digits t 0 false
  end.

(** [str(v)] inside an f-string. The text Python prints for a float, a list
    or a dict is not modelled; no modelled result depends on it. *)
Definition py_str (v : pyval) : string :=
  match v with
  | PNone => "None"
  | PBool true => "True"
  | PBool false => "False"
  | PInt z => pretty z
  | PStr s => s
  | PFloat _ => "<float>"
  | PList _ => "<list>"
  | PDict _ => "<dict>"
  end.

Definition format_status (status_code : option Z) : string :=
  match status_code with
  | Some z => pretty z
  | None => "None"
  end.

(** The value of [retry_after] after the lines that read the header. *)
Definition read_retry_after (error : exn) : pyval :=
  match exn_response error with
  | Some r =>
      match resp_headers r with
      | Some headers =>
          match headers !! "retry-after" with
          | None => PNone
          | Some retry_after =>
              if py_truthy (PStr retry_after) then
                match py_int_of_str retry_after with
                | Some n => PInt n
                | None => PNone          (* except ValueError *)
                end
              else PStr retry_after
          end
      | None => PNone
      end
  | None => PNone
  end.

(** The body of the [try] block of the status-400 branch. *)
Definition content_filter_probe (r : http_response) (operation model_name : string)
  : result unit :=
  match resp_json r with
  | None => mret tt                            (* no json attribute *)
  | Some None => raise_builtin "ValueError"    (* json() raises *)
  | Some (Some response_data) =>
      has_error ← py_contains "error" response_data;
      has_type ← (if has_error : bool
                  then (e ← py_getitem response_data "error"; py_contains "type" e)
                  else mret false);
      if has_error && has_type then
        e ← py_getitem response_data "error";
        ty ← py_getitem e "type";
        if is_str "content_filter" ty then
          filter_reason ← py_get e "message" (PStr "Content filtered");
          Raised (AdapterExn (ModelContentFilterError
                    ("Content filtered: " +:+ py_str filter_reason)
                    operation model_name filter_reason))
        else mret tt
      else mret tt
  end.

(** The condition of the HTTP branch after [isinstance] has failed:
    [hasattr(error, 'response') and hasattr(error.response, 'status_code')]. *)
Definition has_response_status (error : exn) : bool :=
  match exn_response error with
  | Some r => bool_decide (is_Some (resp_status_code r))
  | None => false
  end.

(** The two steps that extract the status code: the attribute of the
    exception, and when that is [None] or 0, the one of its response. *)
Definition read_status_code (error : exn) : option Z :=
  let status_code := exn_status_code error in
  match status_code, exn_response error with
  | Some z, Some r => if z =? 0 then resp_status_code r else status_code
  | None, Some r => resp_status_code r
  | _, None => status_code
  end.

(** [handle_error] never returns: the value is the exception it raises. *)
Definition handle_error (self : OpenRouterAdapter) (error : exn)
    (operation model_name : string) : adapter_error :=
  if is_timeout error then
    ModelTimeoutError (exn_str error) operation model_name (timeout self)
  else if is_connection_error error then
    ModelAdapterError ("Connection error: " +:+ exn_str error) operation model_name
  else if is_http_error error || has_response_status error then
    let status_code := read_status_code error in
    if bool_decide (status_code = Some 401) || bool_decide (status_code = Some 403) then
      ModelAuthenticationError ("Authentication error: " +:+ exn_str error)
        operation model_name
    else if bool_decide (status_code = Some 429) then
      ModelRateLimitError ("Rate limit exceeded: " +:+ exn_str error)
        operation model_name (read_retry_after error)
    else
      let generic :=
        ModelAdapterError
          ("HTTP error " +:+ format_status status_code +:+ ": " +:+ exn_str error)
          operation model_name in
      if bool_decide (status_code = Some 400) then
        match exn_response error with
        | Some r =>
            match content_filter_probe r operation model_name with
            | Returned _ => generic
            | Raised _ => generic        (* except Exception: pass *)
            end
        | None => generic
        end
      else generic
  else ModelAdapterError (exn_str error) operation model_name.

(** The kinds of the error taxonomy, and the kind of each exception class. *)
Inductive error_kind : Type :=
| Timeout | Authentication | RateLimit | ContentFilter | Generic.

Definition kind_of (e : adapter_error) : error_kind :=
  match e with
  | ModelAdapterError _ _ _ => Generic
  | ModelTimeoutError _ _ _ _ => Timeout
  | ModelAuthenticationError _ _ _ => Authentication
  | ModelRateLimitError _ _ _ _ => RateLimit
  | ModelContentFilterError _ _ _ _ => ContentFilter
  end.

(** A [requests.HTTPError] raised by [raise_for_status]: it has a response
    and no status code of its own. *)
Definition requests_HTTPError (msg : string) (r : http_response) : exn :=
  TransportExn RequestsHTTPError msg None (Some r).

(** *** The request loop *)

(** What the adapter does to the outside world, in order. *)
Inductive event : Type :=
| Post (url : string) (payload : gmap string pyval)   (* session.post *)
| Sleep (seconds : Qc).                               (* time.sleep *)

(** The provider: for the attempt with a given index (from 0), the URL and
    the payload, either the decoded JSON body or the exception raised by
    [session.post], [raise_for_status] or [response.json]. *)
Definition transport : Type := nat → string → gmap string pyval → result pyval.

(** [model_name or "default"] *)
Definition model_or (dflt : string) (model_name : option string) : string :=
  match model_name with
  | Some (String c s) => String c s
  | _ => dflt
  end.

Definition model_field (model_name : option string) : pyval :=
  match model_name with
  | Some m => PStr m
  | None => PNone
  end.

(** [v[:50]], evaluated for the debug log line: only the failure matters. *)
Definition py_sliceable (v : pyval) : result unit :=
  match v with
  | PStr _ | PList _ => mret tt
  | _ => raise_builtin "TypeError"
  end.

(** [time.sleep(seconds)]: a negative length is refused with a
    [ValueError], and nothing is slept. *)
Definition time_sleep (seconds : Qc) : result unit :=
  if bool_decide (seconds < 0)%Qc then
    Raised (BuiltinExn "ValueError" "sleep length must be non-negative")
  else mret tt.

(** The [while True] loop shared by the four generation methods. [attempt]
    is the body of its [try] block, [url] and [payload] what it posts;
    [retries] is the counter of the source. The loop ends by a [return], by
    [handle_error] raising, or by [time.sleep] raising: the sleep is called
    inside the [except] clause, so its exception leaves the loop as it
    is, not wrapped and not retried. [fuel] bounds the unfolding and [None]
    is a loop that has not ended within it. *)
Fixpoint retry_loop {A} (self : OpenRouterAdapter) (attempt : nat → result A)
    (url : string) (payload : gmap string pyval) (operation model_name : string)
    (fuel : nat) (retries : Z) : option (result A * list event) :=
  match fuel with
  | O => None
  | S fuel' =>
      match attempt (Z.to_nat retries) with
      | Returned a => Some (Returned a, [Post url payload])
      | Raised error =>
          let retries := retries + 1 in
          if retries <=? max_retries self then
            match time_sleep (retry_delay self * Qc_of_Z retries) with
            | Raised e => Some (Raised e, [Post url payload])
            | Returned _ =>
                '(r, events) ← retry_loop self attempt url payload operation
                                  model_name fuel' retries;
                Some (r, Post url payload
                           :: Sleep (retry_delay self * Qc_of_Z retries)
                           :: events)
            end
          else
            Some (Raised (AdapterExn
                            (handle_error self error operation model_name)),
                  [Post url payload])
      end
  end.

(** Unfoldings that always suffice: one per possible attempt. *)
Definition loop_fuel (self : OpenRouterAdapter) : nat :=
  S (Z.to_nat (max_retries self)).

(** The [try] block of [generate_text], after the request; [body] is the
    [result] of the source. *)
Definition extract_completion_text (model_name : option string) (body : pyval)
  : result pyval :=
  has_choices ← py_contains "choices" body;
  nonempty ← (if has_choices : bool
              then (c ← py_getitem body "choices"; n ← py_len c; mret (0 <? n))
              else mret false);
  if has_choices && nonempty then
    c ← py_getitem body "choices";
    first ← py_first c;
    text ← py_get first "text" (PStr empty_str);
    _ ← py_sliceable text;
    mret text
  else
    Raised (AdapterExn (ModelAdapterError
              "Invalid response format from OpenRouter API"
              "generate_text" (model_or "default" model_name))).

(** [{"model": model_name, "prompt": prepared_prompt, **prepared_params}]:
    the prepared parameters come last and win. *)
Definition completion_payload (model_name : option string)
    (prepared_prompt : string) (prepared_params : gmap string pyval)
  : gmap string pyval :=
  prepared_params ∪
    <["model" := model_field model_name]> {["prompt" := PStr prepared_prompt]}.

Definition completion_url (self : OpenRouterAdapter) : string :=
  api_url self +:+ "/api/v1/completions".

Definition generate_text (env : settings) (self : OpenRouterAdapter)
    (net : transport) (prompt : string) (model_name : option string)
    (parameters : option (gmap string pyval))
  : option (result pyval * list event) :=
  let prepared_prompt := prepare_prompt env prompt model_name in
  match prepare_parameters env parameters model_name with
  | Raised e => Some (Raised e, [])
  | Returned prepared_params =>
      let url := completion_url self in
      let payload :=
        completion_payload model_name prepared_prompt prepared_params in
      retry_loop self
        (λ k, body ← net k url payload;
              extract_completion_text model_name body)
        url payload "generate_text" (model_or "default" model_name)
        (loop_fuel self) 0
  end.

(** The [usage] dictionary of [format_response] and [format_chat_response]. *)
Definition format_usage (response : pyval) : result pyval :=
  has_usage ← py_contains "usage" response;
  if has_usage : bool then
    u ← py_getitem response "usage";
    p ← py_get u "prompt_tokens" (PInt 0);
    c ← py_get u "completion_tokens" (PInt 0);
    t ← py_get u "total_tokens" (PInt 0);
    mret (PDict [("prompt_tokens", p); ("completion_tokens", c);
                 ("total_tokens", t)])
  else mret empty_dict.

(** [response.get('choices', [{}])[0].get('finish_reason')] *)
Definition finish_reason (response : pyval) : result pyval :=
  c ← py_get response "choices" (PList [empty_dict]);
  first ← py_first c;
  py_get first "finish_reason" PNone.

Definition format_chat_response (response : pyval) (model_name : option string)
  : result pyval :=
  usage ← format_usage response;
  let message :=
    PDict [("role", PStr "assistant"); ("content", PStr empty_str)] in
  has_choices ← py_contains "choices" response;
  nonempty ← (if has_choices : bool
              then (c ← py_getitem response "choices"; n ← py_len c; mret (0 <? n))
              else mret false);
  message ←
    (if has_choices && nonempty then
       c ← py_getitem response "choices";
       first ← py_first c;
       has_message ← py_contains "message" first;
       if has_message : bool then py_getitem first "message" else mret message
     else mret message);
  model ← py_get response "model" (model_field model_name);
  reason ← finish_reason response;
  mret (PDict [("message", message); ("usage", usage);
               ("metadata", PDict [("model", model);
                                   ("provider", PStr "openrouter");
                                   ("finish_reason", reason)])]).

(** The [try] block of [generate_chat_completion], after the request; the
    last two lines are the accesses of its debug log line. *)
Definition chat_attempt (model_name : option string) (body : pyval)
  : result pyval :=
  formatted_response ← format_chat_response body model_name;
  m ← py_getitem formatted_response "message";
  c ← py_getitem m "content";
  _ ← py_sliceable c;
  mret formatted_response.

Definition generate_chat_completion (env : settings) (self : OpenRouterAdapter)
    (net : transport) (messages : pyval) (model_name : option string)
    (parameters : option (gmap string pyval))
  : option (result pyval * list event) :=
  match prepare_messages env messages model_name with
  | Raised e => Some (Raised e, [])
  | Returned prepared_messages =>
      match prepare_parameters env parameters model_name with
      | Raised e => Some (Raised e, [])
      | Returned prepared_params =>
          let url := api_url self +:+ "/api/v1/chat/completions" in
          let payload :=
            prepared_params ∪
              <["model" := model_field model_name]>
                {["messages" := PList prepared_messages]} in
          retry_loop self
            (λ k, body ← net k url payload; chat_attempt model_name body)
            url payload "generate_chat_completion"
            (model_or "default" model_name) (loop_fuel self) 0
      end
  end.

(** The requests sent and the delays slept, read off a trace. *)
Definition posts (events : list event) : nat :=
  length (List.filter (λ ev, match ev with Post _ _ => true | Sleep _ => false end)
            events).

Definition sleeps (events : list event) : list Qc :=
  omap (λ ev, match ev with Sleep d => Some d | Post _ _ => None end) events.


(* ===================================================================== *)
(** ** utils/data_preprocessing.py and utils/prompt_engineering.py *)
(* ===================================================================== *)

Definition double_quote : ascii := ascii_of_nat 34.
Definition single_quote : ascii := ascii_of_nat 39.

(** The characters the first substitution of [clean_text_data] keeps: word
    characters, white space, and the punctuation marks full stop, comma,
    exclamation mark, question mark, both quotes and the hyphen. Every
    other character is deleted. *)
Definition kept_by_cleaning (c : ascii) : bool :=
  is_word c || is_space c
  || bool_decide (c = "."%char) || bool_decide (c = ","%char)
  || bool_decide (c = "!"%char) || bool_decide (c = "?"%char)
  || bool_decide (c = single_quote) || bool_decide (c = double_quote)
  || bool_decide (c = "-"%char).

(** [re.sub(r'\s+', ' ', s)]; [in_run]: the previous character was white
    space. *)
Fixpoint collapse_spaces (in_run : bool) (s : string) : string :=
  match s with
  | EmptyString => EmptyString
  | String c s' =>
      if is_space c then
        if in_run then collapse_spaces true s'
        else String " "%char (collapse_spaces true s')
      else String c (collapse_spaces false s')
  end.

(** [c.lower()] on the code points below 256: there [lower] maps a
    character to one character, again below 256. Beyond that range it can
    give two (U+0130 becomes [i] and the combining dot U+0307); such texts
    are outside this model of strings. *)
Definition char_lower (c : ascii) : ascii :=
  let n := N_of_ascii c in
  if ((65 <=? n) && (n <=? 90)
      || (192 <=? n) && (n <=? 222) && negb (n =? 215))%N
  then ascii_of_N (n + 32) else c.

Fixpoint str_lower (s : string) : string :=
  match s with
  | EmptyString => EmptyString
  | String c s' => String (char_lower c) (str_lower s')
  end.

Definition clean_text_data (text : string) (lowercase : bool)
    (max_length : option Z) : string :=
  let cleaned_text := str_filter kept_by_cleaning text in
  let cleaned_text := str_strip (collapse_spaces false cleaned_text) in
  let cleaned_text := if lowercase then str_lower cleaned_text else cleaned_text in
  match max_length with
  | Some n =>
      if negb (n =? 0) && (n <? str_len cleaned_text)
      then str_slice_to cleaned_text n else cleaned_text
  | None => cleaned_text
  end.

Definition backtick : ascii := ascii_of_nat 96.
Definition fence : string := String backtick (String backtick (String backtick EmptyString)).

(** Offset of the first occurrence of [needle] in [s]. *)
Fixpoint str_index_of (needle s : string) : option nat :=
  if String.prefix needle s then Some 0%nat
  else match s with
       | EmptyString => None
       | String _ s' => S <$> str_index_of needle s'
       end.

(** First alternative of [json_pattern] at the start of [t]: an opening
    fence, an optional [json], white space, then lazily up to the next
    fence. The value is group 1 and the length of the match. Neither
    [json] nor white space contains a backquote, so the greedy choices
    never have to be undone. *)
Definition match_fenced (t : string) : option (string * nat) :=
  if String.prefix fence t then
    let rest := str_drop 3 t in
    let rest1 := if String.prefix "json" rest then str_drop 4 rest else rest in
    let rest2 := str_lstrip rest1 in
    k ← str_index_of fence rest2;
    Some (str_take k rest2,
          (String.length t - String.length rest2 + k + 3)%nat)
  else None.

(** Second alternative: [opening], then greedily up to the last [closing].
    The value is group 2, which is the whole match. *)
Definition match_bracketed (opening closing : ascii) (t : string) : option string :=
  match t with
  | String c _ =>
      if bool_decide (c = opening) && (1 <=? str_rfind closing t)
      then Some (str_take (Z.to_nat (str_rfind closing t + 1)) t)
      else None
  | EmptyString => None
  end.

(** One match of [json_pattern] at the start of [t]: groups 1 and 2 (the
    group that took no part is the empty string) and the length. *)
Definition match_json_pattern (t : string) : option (string * string * nat) :=
  match match_fenced t with
  | Some (g1, n) => Some (g1, EmptyString, n)
  | None =>
      match match_bracketed "{" "}" t with
      | Some g2 => Some (EmptyString, g2, String.length g2)
      | None =>
          match match_bracketed "[" "]" t with
          | Some g2 => Some (EmptyString, g2, String.length g2)
          | None => None
          end
      end
  end.

(** [re.findall(json_pattern, s)]: matches from left to right, without
    overlap; [skip] characters still belong to the previous match. *)
Fixpoint findall_json (skip : nat) (t : string) : list (string * string) :=
  match t with
  | EmptyString => []
  | String _ t' =>
      match skip with
      | S k => findall_json k t'
      | O =>
          match match_json_pattern t with
          | Some (g1, g2, n) => (g1, g2) :: findall_json (Nat.pred n) t'
          | None => findall_json 0 t'
          end
      end
  end.

(** [group.strip().startswith('{') or group.strip().startswith('[')] *)
Definition starts_like_json (group : string) : bool :=
  match str_strip group with
  | String c _ => bool_decide (c = "{"%char) || bool_decide (c = "["%char)
  | EmptyString => false
  end.

(** The two nested [for] loops over the matches and their groups. *)
Fixpoint first_json_group (matches : list (string * string)) : option string :=
  match matches with
  | [] => None
  | (g1, g2) :: rest =>
      if starts_like_json g1 then Some (str_strip g1)
      else if starts_like_json g2 then Some (str_strip g2)
      else first_json_group rest
  end.

(** The direct search between the first opening and the last closing
    bracket. *)
Definition direct_json (cleaned_response : string) : option string :=
  let start_idx :=
    if str_has "{" cleaned_response then str_find "{" cleaned_response
    else str_find "[" cleaned_response in
  let end_idx :=
    if str_has "}" cleaned_response then str_rfind "}" cleaned_response
    else str_rfind "]" cleaned_response in
  if negb (start_idx =? -1) && negb (end_idx =? -1) && (start_idx <? end_idx)
  then Some (str_slice cleaned_response start_idx (end_idx + 1))
  else None.

(** [json_loads] stands for the standard library's [json.loads]; [None] is
    [JSONDecodeError]. *)
Definition extract_json_from_response (json_loads : string → option pyval)
    (response : string) : pyval :=
  let cleaned_response := clean_text_data response false None in
  let matches := findall_json 0 cleaned_response in
  let json_str := first_json_group matches in
  let json_str :=
    match json_str with
    | Some s => Some s
    | None => direct_json cleaned_response
    end in
  match json_str with
  | Some (String c s) =>
      match json_loads (String c s) with
      | Some v => v
      | None => empty_dict
      end
  | _ => empty_dict
  end.

(* ===================================================================== *)
(** ** services/matching_service.py *)
(* ===================================================================== *)

(** A cache entry: [{'result': ..., 'timestamp': ...}]. *)
Record cache_entry : Type := {
  entry_result : pyval;
  entry_timestamp : Qc
}.

(** The configuration dictionary of the service; [None]: key absent. *)
Record service_config : Type := {
  cfg_cache_enabled : option bool;
  cfg_cache_ttl : option Z;
  cfg_model : option string
}.

(** The state of a [MatchingService]. [_cache = None] is Python's [None].
    [model_calls] records, oldest first, the calls made to the matching
    model, which is what reaches the network. *)
Record MatchingService : Type := {
  _cache_enabled : bool;
  _cache_ttl : Z;
  _cache : option (gmap string cache_entry);
  _default_model : string;
  model_calls : list (string * pyval * pyval)
}.

Definition MatchingService_init (env : settings) (config : service_config)
  : MatchingService :=
  let enabled := default (CACHE_ENABLED env) (cfg_cache_enabled config) in
  {| _cache_enabled := enabled;
     _cache_ttl := default (CACHE_TTL env) (cfg_cache_ttl config);
     _cache := if enabled then Some ∅ else None;
     _default_model := default (DEFAULT_MODEL env) (cfg_model config);
     model_calls := [] |}.

Definition with_cache (self : MatchingService)
    (c : option (gmap string cache_entry)) : MatchingService :=
  {| _cache_enabled := _cache_enabled self;
     _cache_ttl := _cache_ttl self;
     _cache := c;
     _default_model := _default_model self;
     model_calls := model_calls self |}.

Definition with_call (self : MatchingService) (call : string * pyval * pyval)
  : MatchingService :=
  {| _cache_enabled := _cache_enabled self;
     _cache_ttl := _cache_ttl self;
     _cache := _cache self;
     _default_model := _default_model self;
     model_calls := (model_calls self ++ [call])%list |}.

Definition MATCHING_TYPES : list string :=
  ["user_tribe"; "tribe_formation"; "compatibility"].

(** [not self._cache]: true of [None] and of the empty dictionary. *)
Definition cache_is_falsy (c : option (gmap string cache_entry)) : bool :=
  match c with
  | None => true
  | Some m => bool_decide (size m = 0%nat)
  end.

(** [current_time] is the value [time.time()] returns when it is read. The
    result is the returned value ([PNone] for a miss) and the new state. *)
Definition get_cached_result (self : MatchingService) (cache_key : string)
    (current_time : Qc) : pyval * MatchingService :=
  if negb (_cache_enabled self) || cache_is_falsy (_cache self) then (PNone, self)
  else
    match _cache self with
    | Some cache =>
        match cache !! cache_key with
        | Some cache_entry =>
            let timestamp := entry_timestamp cache_entry in
            let result := entry_result cache_entry in
            if bool_decide (Qc_of_Z (_cache_ttl self) < current_time - timestamp)%Qc
            then (PNone, with_cache self (Some (delete cache_key cache)))
            else (result, self)
        | None => (PNone, self)
        end
    | None => (PNone, self)
    end.

Definition cache_result (self : MatchingService) (cache_key : string)
    (result : pyval) (current_time : Qc) : MatchingService :=
  if negb (_cache_enabled self) || cache_is_falsy (_cache self) then self
  else
    match _cache self with
    | Some cache =>
        with_cache self
          (Some (<[cache_key := {| entry_result := result;
                                   entry_timestamp := current_time |}]> cache))
    | None => self
    end.

(** [fingerprint] stands for [json.dumps(_, sort_keys=True)] followed by
    the SHA-256 hex digest, both from the standard library. It is a total
    function of the JSON values [pyval] holds, which [json.dumps] accepts;
    an argument it cannot serialise (a set, an object) makes it raise
    [TypeError], and is outside this model, as it is outside [pyval]. *)
Definition generate_cache_key (fingerprint : pyval → string)
    (matching_type : string) (data options : pyval) (model_name : string)
  : string :=
  fingerprint (PDict [("matching_type", PStr matching_type); ("data", data);
                      ("options", options); ("model_name", PStr model_name)]).

Definition clear_cache (self : MatchingService) : MatchingService :=
  if _cache_enabled self && negb (cache_is_falsy (_cache self))
  then with_cache self (Some ∅) else self.

Definition is_builtin (name : string) (error : exn) : bool :=
  match error with
  | BuiltinExn n _ => bool_decide (n = name)
  | _ => false
  end.

(** [MatchingService.handle_error]: the error response dictionary. *)
Definition service_handle_error (error : exn) (operation : string)
    (current_time : Qc) : pyval :=
  let base ty message extra :=
    PDict [("status", PStr "error");
           ("error", PDict ([("type", PStr ty); ("message", PStr message);
                             ("operation", PStr operation);
                             ("timestamp", PFloat current_time)] ++ extra)%list)] in
  match error with
  | AdapterExn (ModelTimeoutError _ _ _ t) =>
      base "timeout"
        ("The request timed out after " +:+ pretty t +:+ " seconds") []
  | AdapterExn (ModelAuthenticationError _ _ _) =>
      base "authentication" "Authentication failed with the AI model provider" []
  | AdapterExn (ModelRateLimitError _ _ _ retry_after) =>
      base "rate_limit" "Rate limit exceeded for AI model provider"
        (if py_truthy retry_after then [("retry_after", retry_after)] else [])
  | AdapterExn (ModelContentFilterError _ _ _ filter_reason) =>
      base "content_filter" "Content was filtered by the AI model provider"
        (if py_truthy filter_reason then [("filter_reason", filter_reason)] else [])
  | AdapterExn (ModelAdapterError _ _ _) =>
      base "model_error" (exn_str error) []
  | _ =>
      if is_builtin "ValueError" error
      then base "validation_error" (exn_str error) []
      else base (exn_class_name error) (exn_str error) []
  end.

(** The matching model behind the service: given the number of calls made
    so far and the arguments, the result or the exception. Each call goes
    through the adapter to the provider. *)
Definition matching_model : Type := nat → string → pyval → pyval → result pyval.

(** [t_lookup] and [t_after] are the clock readings at the cache lookup and
    after the model has answered. *)
Definition perform_matching (fingerprint : pyval → string)
    (model : matching_model) (self : MatchingService)
    (matching_type : string) (data options : option pyval)
    (model_name : option string) (t_lookup t_after : Qc)
  : result pyval * MatchingService :=
  if negb (bool_decide (matching_type ∈ MATCHING_TYPES)) then
    (Raised (BuiltinExn "ValueError"
               ("Invalid matching type: " +:+ matching_type
                +:+ ". Must be one of: user_tribe, tribe_formation, compatibility")),
     self)
  else
    let data := default empty_dict data in
    let options := default empty_dict options in
    let model_name := default (_default_model self) model_name in
    let cache_key :=
      generate_cache_key fingerprint matching_type data options model_name in
    let '(cached_result, self) := get_cached_result self cache_key t_lookup in
    if py_truthy cached_result then (Returned cached_result, self)
    else
      let outcome :=
        model (length (model_calls self)) matching_type data options in
      let self := with_call self (matching_type, data, options) in
      match outcome with
      | Returned result =>
          (Returned result, cache_result self cache_key result t_after)
      | Raised e =>
          (Returned (service_handle_error e
                       ("perform_matching - " +:+ matching_type) t_after),
           self)
      end.

(* ===================================================================== *)
(** ** Notions used to state the properties *)
(* ===================================================================== *)

(** The [retry-after] header of a response, when it has headers and the
    header is among them. *)
Definition retry_after_header (r : http_response) : option string :=
  headers ← resp_headers r; headers !! "retry-after".



(** A generation parameter, when present, is a number within the range
    the provider accepts: [0 <= temperature <= 2], [0 < top_p <= 1]. *)
Definition temperature_in_range (p : gmap string pyval) : Prop :=
  ∀ v, p !! "temperature" = Some v →
       ∃ q, as_number v = Some q ∧ (Qc_of_Z 0 ≤ q ∧ q ≤ Qc_of_Z 2)%Qc.

Definition top_p_in_range (p : gmap string pyval) : Prop :=
  ∀ v, p !! "top_p" = Some v →
       ∃ q, as_number v = Some q ∧ (Qc_of_Z 0 < q ∧ q ≤ Qc_of_Z 1)%Qc.


(** The messages argument that the validation of [prepare_messages]
    rejects: not a list, or a list with an entry that is not a dictionary
    with both keys. *)
Definition malformed_messages (messages : pyval) : Prop :=
  match messages with
  | PList msgs => ∃ m, In m msgs ∧ well_formed_message m = false
  | _ => True
  end.

(* ===================================================================== *)
(** ** Sample inputs *)
(* ===================================================================== *)

(** An adapter built from [{'api_key': 'test_key'}], as in the tests. *)
Definition sample_adapter : OpenRouterAdapter := {|
  api_key := "test_key";
  api_url := "https://openrouter.ai";
  timeout := 30;
  max_retries := 3;
  retry_delay := 1%Qc
|}.




Definition response_401 : http_response :=
  {| resp_status_code := Some 401; resp_headers := Some ∅; resp_json := Some None |}.


(** The response of the rate-limit test: status 429, [retry-after: 30]. *)
Definition response_429 : http_response :=
  {| resp_status_code := Some 429;
     resp_headers := Some {["retry-after" := "30"]};
     resp_json := Some None |}.

(** A rate-limit response whose [retry-after] header is empty. *)
Definition response_429_empty_header : http_response :=
  {| resp_status_code := Some 429;
     resp_headers := Some {["retry-after" := empty_str]};
     resp_json := Some None |}.

(** The response of the content-filter test: status 400 and the body
    [{'error': {'type': 'content_filter', 'message': ...}}]. *)
Definition response_content_filter : http_response :=
  {| resp_status_code := Some 400;
     resp_headers := Some ∅;
     resp_json := Some (Some (PDict [
       ("error", PDict [("type", PStr "content_filter");
                        ("message", PStr "Content violates usage policies")])])) |}.

Definition sample_entry : cache_entry :=
  {| entry_result := PDict [("score", PInt 87)]; entry_timestamp := 0%Qc |}.

(** A service whose cache holds one entry, written at time 0, with a
    time-to-live of 3600 seconds. *)
Definition sample_service : MatchingService :=
  {| _cache_enabled := true;
     _cache_ttl := 3600;
     _cache := Some {["k" := sample_entry]};
     _default_model := "openai/gpt-4";
     model_calls := [] |}.

Definition dq : string := String double_quote EmptyString.

(** The four model replies of the extraction test: the object with the
    key [a] and the value 1 as bare JSON, inside a fenced block tagged
    [json], and inside a sentence; and a sentence without JSON. *)
Definition json_bare : string := "{" +:+ dq +:+ "a" +:+ dq +:+ ":1}".

Definition json_fenced : string :=
  fence +:+ "json" +:+ newline +:+ json_bare +:+ newline +:+ fence.

Definition json_in_prose : string :=
  "Here is the result: " +:+ json_bare +:+ " I hope it helps.".

Definition plain_prose : string := "I could not produce a result.".

(** Parameters out of range on both counts: [temperature = 5], [top_p = 0]. *)
Definition wild_parameters : gmap string pyval :=
  {["temperature" := PFloat (Qc_of_Z 5); "top_p" := PInt 0]}.

(** A prompt of [n] letters. *)
Fixpoint long_prompt (n : nat) : string :=
  match n with
  | O => EmptyString
  | S n' => String "a"%char (long_prompt n')
  end.

(** The chat completion body of the adapter tests. *)
Definition mock_chat_completion_response : pyval :=
  PDict [("id", PStr "chatcmpl-123"); ("object", PStr "chat.completion");
         ("created", PInt 1598069254); ("model", PStr "gpt-3.5-turbo");
         ("choices", PList [PDict [
            ("message", PDict [("role", PStr "assistant");
                               ("content", PStr "This is a mock chat response")]);
            ("index", PInt 0); ("finish_reason", PStr "stop")]]);
         ("usage", PDict [("prompt_tokens", PInt 10);
                          ("completion_tokens", PInt 8);
                          ("total_tokens", PInt 18)])].

(** A provider that answers every request with that body. *)
Definition net_chat_ok : transport :=
  λ _ _ _, Returned mock_chat_completion_response.

(** A list with an entry that has no [content]. *)
Definition messages_without_content : pyval :=
  PList [PDict [("role", PStr "user")]].

(* ===================================================================== *)
(** ** Further functions of the adapter *)
(* ===================================================================== *)

(** openrouter_adapter.py, [format_response]: the standard form of a text
    completion. *)
Definition format_response (response : pyval) (model_name : option string)
  : result pyval :=
  usage ← format_usage response;
  c ← py_get response "choices" (PList [empty_dict]);
  first ← py_first c;
  text ← py_get first "text" (PStr empty_str);
  model ← py_get response "model" (model_field model_name);
  reason ← finish_reason response;
  mret (PDict [("text", text); ("usage", usage);
               ("metadata", PDict [("model", model);
                                   ("provider", PStr "openrouter");
                                   ("finish_reason", reason)])]).


(** The trace of a call whose first [n] attempts fail and whose next
    attempt ends the loop: [n] times a request and a sleep of
    [retry_delay * k], then one more request. *)
Definition retry_trace (self : OpenRouterAdapter) (url : string)
    (payload : gmap string pyval) (n : Z) : list event :=
  (flat_map (λ k, [Post url payload; Sleep (retry_delay self * Qc_of_Z k)])
     (seqZ 1 n)
   ++ [Post url payload])%list.

(** The time a call spends in [time.sleep]. *)
Definition total_sleep (events : list event) : Qc :=
  foldr Qcplus 0%Qc (sleeps events).

(** The configuration [{'api_key': 'test_key'}] of the tests. *)
Definition test_config : adapter_config :=
  {| cfg_api_key := Some "test_key"; cfg_api_url := None; cfg_timeout := None;
     cfg_max_retries := None; cfg_retry_delay := None |}.

(** The URL and the payload of [generate_chat_completion]:
    [{"model": model_name, "messages": prepared_messages, **prepared_params}]. *)
Definition chat_url (self : OpenRouterAdapter) : string :=
  api_url self +:+ "/api/v1/chat/completions".

Definition chat_payload (model_name : option string)
    (prepared_messages : list pyval) (prepared_params : gmap string pyval)
  : gmap string pyval :=
  prepared_params ∪
    <["model" := model_field model_name]>
      {["messages" := PList prepared_messages]}.

(** Parameters whose temperature is not a number. *)
Definition parameters_with_text_temperature : gmap string pyval :=
  {["temperature" := PStr "hot"]}.

(** One user message, and the same as the [messages] argument. *)
Definition hello_message : pyval :=
  PDict [("role", PStr "user"); ("content", PStr "Hello")].

Definition hello_messages : pyval := PList [hello_message].

(** The messages of a conversation other than the system messages. *)
Definition other_messages (msgs : list pyval) : list pyval :=
  List.filter (λ m, negb (is_system_message m)) msgs.

(** A conversation that does not fit the window of 4096 characters of
    [openai/gpt-3.5-turbo]: a system message, a user message of 4000
    letters and a short one. *)
Definition brief_system_message : pyval :=
  PDict [("role", PStr "system"); ("content", PStr "Be brief.")].

Definition long_message : pyval :=
  PDict [("role", PStr "user"); ("content", PStr (long_prompt 4000))].

Definition long_conversation : list pyval :=
  [long_message; brief_system_message; hello_message].

(** What [prepare_messages] makes of it: the system message first, the
    long message cut to 3672 letters, the short one untouched. *)
Definition truncated_conversation : list pyval :=
  [brief_system_message;
   PDict [("role", PStr "user");
          ("content", PStr (long_prompt 3672 +:+ message_truncation_note))];
   hello_message].

(** Parameters that set a token limit and name a context window. *)
Definition custom_parameters : gmap string pyval :=
  {["max_tokens" := PInt 50; "context_window" := PInt 16]}.

(** The text completion body of the adapter tests. *)
Definition mock_completion_response : pyval :=
  PDict [("id", PStr "cmpl-123"); ("object", PStr "text_completion");
         ("created", PInt 1598069254); ("model", PStr "gpt-3.5-turbo");
         ("choices", PList [PDict [
            ("text", PStr "This is a mock response");
            ("index", PInt 0); ("finish_reason", PStr "length")]]);
         ("usage", PDict [("prompt_tokens", PInt 5);
                          ("completion_tokens", PInt 7);
                          ("total_tokens", PInt 12)])].

(** The provider of the retry test: the connection fails once, then the
    body above is returned. *)
Definition net_flaky : transport :=
  λ k _ _, match k with
           | O => Raised (TransportExn RequestsConnectionError
                            "Connection failed" None None)
           | S _ => Returned mock_completion_response
           end.

(** A provider that answers every request with an empty JSON object. *)
Definition net_empty_body : transport := λ _ _ _, Returned empty_dict.

(** The parameters prepared for the default model when the caller gives
    none. *)
Definition default_parameters : gmap string pyval :=
  delete "capabilities"
    (delete "context_window" (model_config default_settings "openai/gpt-4")).

(* ===================================================================== *)
(** ** utils/prompt_engineering.py: validate_prompt_response *)
(* ===================================================================== *)

Definition is_dict (v : pyval) : bool :=
  match v with PDict _ => true | _ => false end.

Definition is_list (v : pyval) : bool :=
  match v with PList _ => true | _ => false end.

(** The loop over [required_fields]: [False] at the first field that is
    not in [data]. *)
Fixpoint has_fields (required_fields : list string) (data : pyval)
  : result bool :=
  match required_fields with
  | [] => mret true
  | field :: rest =>
      present ← py_contains field data;
      if present : bool then has_fields rest data else mret false
  end.

Definition validate_prompt_response (json_loads : string → option pyval)
    (response expected_format : string) (required_fields : list string)
  : result bool :=
  let data := extract_json_from_response json_loads response in
  if negb (py_truthy data) then mret false
  else if bool_decide (expected_format = "object") && negb (is_dict data)
  then mret false
  else if bool_decide (expected_format = "array") && negb (is_list data)
  then mret false
  else if bool_decide (expected_format = "array") then
    first ← py_first data;
    if negb (is_dict first) then mret false
    else has_fields required_fields first
  else has_fields required_fields data.

(** *** Notions used to state what [clean_text_data] returns *)

Fixpoint str_forall (p : ascii → bool) (s : string) : bool :=
  match s with
  | EmptyString => true
  | String c s' => p c && str_forall p s'
  end.

(** A character [clean_text_data] can return: one the substitution keeps,
    and if white space, the plain space. *)
Definition tidy_char (c : ascii) : bool :=
  kept_by_cleaning c && (negb (is_space c) || bool_decide (c = " "%char)).

(** No two white-space characters in a row; [prev_space]: the character
    before the string was white space. *)
Fixpoint single_spaced_from (prev_space : bool) (s : string) : bool :=
  match s with
  | EmptyString => true
  | String c s' =>
      negb (prev_space && is_space c) && single_spaced_from (is_space c) s'
  end.

Definition single_spaced (s : string) : bool := single_spaced_from false s.

(** The first character is not white space. *)
Definition head_not_space (s : string) : bool :=
  match s with
  | EmptyString => true
  | String c _ => negb (is_space c)
  end.

(* ===================================================================== *)
(** ** adapters/model_adapter.py: the mock adapter *)
(* ===================================================================== *)

Module MockModelAdapter.

(** The state of a [MockModelAdapter]: the predefined responses, keyed by
    the strings [set_response] is given, and the failure mode. *)
Record adapter : Type := {
  _responses : gmap string pyval;
  _should_fail : bool;
  _failure_exception : option exn
}.

(** The configuration dictionary; [None]: key absent. *)
Record config : Type := {
  cfg_responses : option (gmap string pyval);
  cfg_should_fail : option bool;
  cfg_failure_exception : option exn
}.

Definition init (c : config) : adapter :=
  {| _responses := default ∅ (cfg_responses c);
     _should_fail := default false (cfg_should_fail c);
     _failure_exception := cfg_failure_exception c |}.

(** [self._should_fail and self._failure_exception]: the exception the two
    generation methods raise at once, if any. *)
Definition failure (self : adapter) : option exn :=
  if _should_fail self then _failure_exception self else None.

Definition generate_text (env : settings) (self : adapter) (prompt : string)
    (model_name : option string) : result pyval :=
  match failure self with
  | Some e => Raised e
  | None =>
      let optimized_prompt := prepare_prompt env prompt model_name in
      let response :=
        default (PStr ("Mock response for: " +:+ optimized_prompt))
          (_responses self !! optimized_prompt) in
      _ ← py_sliceable response;          (* response[:30] in the log line *)
      mret response
  end.

(** The loop over [reversed(optimized_messages)] that finds the content of
    the last user message; [None] when there is none. *)
Fixpoint last_user_message (reversed_messages : list pyval) : result pyval :=
  match reversed_messages with
  | [] => mret PNone
  | msg :: rest =>
      role ← py_get msg "role" PNone;
      if is_str "user" role then py_get msg "content" PNone
      else last_user_message rest
  end.

(** [self._responses.get(key, default)]: a list or a dictionary cannot be
    hashed, and no other value that is not a string equals a key. *)
Definition responses_get (self : adapter) (key dflt : pyval) : result pyval :=
  match key with
  | PStr s => mret (default dflt (_responses self !! s))
  | PList _ | PDict _ => raise_builtin "TypeError"
  | _ => mret dflt
  end.

Definition chat_response (response_text : pyval) : pyval :=
  PDict [("choices",
          PList [PDict [("message",
                         PDict [("role", PStr "assistant");
                                ("content", response_text)])]])].

Definition generate_chat_completion (env : settings) (self : adapter)
    (messages : pyval) (model_name : option string) : result pyval :=
  match failure self with
  | Some e => Raised e
  | None =>
      optimized_messages ← prepare_messages env messages model_name;
      last_user_message ← last_user_message (rev optimized_messages);
      response_text ←
        responses_get self last_user_message
          (PStr ("Mock response for: " +:+ py_str last_user_message));
      _ ← py_sliceable last_user_message;   (* last_user_message[:30] *)
      _ ← py_sliceable response_text;       (* response_text[:30] *)
      mret (chat_response response_text)
  end.

Definition set_response (self : adapter) (key : string) (response : pyval)
  : adapter :=
  {| _responses := <[key := response]> (_responses self);
     _should_fail := _should_fail self;
     _failure_exception := _failure_exception self |}.

Definition set_failure_mode (self : adapter) (should_fail : bool)
    (exception : option exn) : adapter :=
  {| _responses := _responses self;
     _should_fail := should_fail;
     _failure_exception :=
       match exception with
       | Some e => Some e
       | None => _failure_exception self
       end |}.

Definition close (self : adapter) : adapter :=
  {| _responses := ∅;
     _should_fail := _should_fail self;
     _failure_exception := _failure_exception self |}.

End MockModelAdapter.

(** A mock adapter created from the empty configuration. *)
Definition fresh_mock : MockModelAdapter.adapter :=
  MockModelAdapter.init
    {| MockModelAdapter.cfg_responses := None;
       MockModelAdapter.cfg_should_fail := None;
       MockModelAdapter.cfg_failure_exception := None |}.

(* ===================================================================== *)
(** ** models/matching_model.py *)
(* ===================================================================== *)

Module MatchingModel.

(** [all(field in item for field in required_fields)], as the loops that
    return [False] at the first missing field compute it. *)
Definition has_all_fields (required_fields : list string)
    (item : list (string * pyval)) : bool :=
  forallb (λ field, bool_decide (is_Some (dict_get item field))) required_fields.

Definition valid_match_item (item : pyval) : bool :=
  match item with
  | PDict d =>
      has_all_fields ["tribeId"; "compatibilityScore"; "compatibilityReasoning"] d
  | _ => false
  end.

Definition valid_tribe_item (item : pyval) : bool :=
  match item with
  | PDict d =>
      has_all_fields ["memberIds"; "compatibilityScore"; "formationReasoning"] d
      && match dict_get d "memberIds" with
         | Some (PList _) => true
         | _ => false
         end
  | _ => false
  end.

Definition valid_overall (overall : pyval) : bool :=
  match overall with
  | PDict d => has_all_fields ["score"; "summary"] d
  | _ => false
  end.

Definition valid_dimension (dim_data : pyval) : bool :=
  match dim_data with
  | PDict d => has_all_fields ["score"; "reasoning"] d
  | _ => false
  end.

Definition required_dimensions : list string :=
  ["personality"; "interests"; "communication"; "values"].

(** The inner loop: some [req_dim.lower()] is a part of [dim_name.lower()]. *)
Definition names_required_dimension (dim_name : string) : bool :=
  existsb (λ req_dim, str_contains (str_lower req_dim) (str_lower dim_name))
    required_dimensions.

(** The loop over [dimensions.items()]: [None] is its [return False], the
    number the final value of [found_dimensions]. *)
Fixpoint count_dimensions (items : list (string * pyval)) (found_dimensions : Z)
  : option Z :=
  match items with
  | [] => Some found_dimensions
  | (dim_name, dim_data) :: rest =>
      if negb (valid_dimension dim_data) then None
      else count_dimensions rest
             (if names_required_dimension dim_name
              then found_dimensions + 1 else found_dimensions)
  end.

Definition validate_matching_response (response : pyval) (matching_type : string)
  : bool :=
  if bool_decide (matching_type = "user_tribe") then
    match response with
    | PList items => forallb valid_match_item items
    | _ => false
    end
  else if bool_decide (matching_type = "tribe_formation") then
    match response with
    | PList items => forallb valid_tribe_item items
    | _ => false
    end
  else if bool_decide (matching_type = "compatibility") then
    match response with
    | PDict d =>
        match dict_get d "overall", dict_get d "dimensions" with
        | Some overall, Some dimensions =>
            if negb (valid_overall overall) then false
            else
              match dimensions with
              | PDict items =>
                  match count_dimensions items 0 with
                  | Some found_dimensions => negb (found_dimensions <? 3)
                  | None => false
                  end
              | _ => false
              end
        | _, _ => false
        end
    | _ => false
    end
  else false.

(** The text [extract_json_from_response] works on: [clean_text_data]
    turns a reply that is not a [str] into the empty string. *)
Definition reply_text (response : pyval) : string :=
  match response with
  | PStr s => s
  | _ => empty_str
  end.

(** [[]] for the two list-valued matching types, [{}] otherwise. *)
Definition empty_result (matching_type : string) : pyval :=
  if bool_decide (matching_type = "user_tribe")
     || bool_decide (matching_type = "tribe_formation")
  then PList [] else empty_dict.

Section methods.

(** [json.loads], and [sorted(_, key=lambda x: x.get('compatibilityScore', 0),
    reverse=True)], both of the standard library. *)
Variable json_loads : string → option pyval.
Variable py_sorted : list pyval → result (list pyval).

(** The call [self._model_adapter.generate_text(prompt=prompt,
    model_name=self._default_model)] made by the method. *)
Variable generate_text : string → result pyval.

(** What precedes the [try] block of each method, as a function of the
    arguments: the normalisation of the profiles by
    [data_preprocessing], the defaults taken from the matching
    configuration, and the prompt made by [MatchingPromptGenerator]. The
    prompt, or the exception one of these steps raised. *)
Variable user_tribe_prompt : pyval → pyval → result string.
Variable tribe_formation_prompt : pyval → pyval → pyval → result string.
Variable compatibility_prompt : pyval → pyval → pyval → result string.

Definition match_user_to_tribes (user_profile tribes : pyval) : result pyval :=
  prompt ← user_tribe_prompt user_profile tribes;
  mret match generate_text prompt with
       | Returned response =>
           let match_results :=
             extract_json_from_response json_loads (reply_text response) in
           if negb (validate_matching_response match_results "user_tribe")
           then PList []
           else
             match match_results with
             | PList items =>
                 match py_sorted items with
                 | Returned sorted_items => PList sorted_items
                 | Raised _ => PList []
                 end
             | _ => match_results
             end
       | Raised _ => PList []
       end.

Definition form_tribes (user_profiles min_tribe_size max_tribe_size : pyval)
  : result pyval :=
  prompt ← tribe_formation_prompt user_profiles min_tribe_size max_tribe_size;
  mret match generate_text prompt with
       | Returned response =>
           let tribe_results :=
             extract_json_from_response json_loads (reply_text response) in
           if negb (validate_matching_response tribe_results "tribe_formation")
           then PList []
           else tribe_results
       | Raised _ => PList []
       end.

Definition calculate_compatibility (user_profile target target_type : pyval)
  : result pyval :=
  prompt ← compatibility_prompt user_profile target target_type;
  mret match generate_text prompt with
       | Returned response =>
           let compatibility_result :=
             extract_json_from_response json_loads (reply_text response) in
           if negb (validate_matching_response compatibility_result
                      "compatibility")
           then empty_dict
           else compatibility_result
       | Raised _ => empty_dict
       end.

(** [a not in data or b not in data], with the [or] evaluated lazily. *)
Definition lacks_either (a b : string) (data : pyval) : result bool :=
  has_a ← py_contains a data;
  if has_a : bool then (has_b ← py_contains b data; mret (negb has_b))
  else mret true.

(** The body of the [try] block of [perform_matching]. *)
Definition dispatch (matching_type : string) (data options : pyval)
  : result pyval :=
  if bool_decide (matching_type = "user_tribe") then
    missing ← lacks_either "user_profile" "tribes" data;
    if missing : bool then
      Raised (BuiltinExn "ValueError"
                "user_tribe matching requires 'user_profile' and 'tribes' data")
    else
      user_profile ← py_getitem data "user_profile";
      tribes ← py_getitem data "tribes";
      _ ← py_get options "factor_weights" PNone;
      match_user_to_tribes user_profile tribes
  else if bool_decide (matching_type = "tribe_formation") then
    has_profiles ← py_contains "user_profiles" data;
    if negb has_profiles then
      Raised (BuiltinExn "ValueError"
                "tribe_formation matching requires 'user_profiles' data")
    else
      user_profiles ← py_getitem data "user_profiles";
      min_tribe_size ← py_get options "min_tribe_size" PNone;
      max_tribe_size ← py_get options "max_tribe_size" PNone;
      form_tribes user_profiles min_tribe_size max_tribe_size
  else if bool_decide (matching_type = "compatibility") then
    missing ← lacks_either "user_profile" "target" data;
    if missing : bool then
      Raised (BuiltinExn "ValueError"
                "compatibility matching requires 'user_profile' and 'target' data")
    else
      user_profile ← py_getitem data "user_profile";
      target ← py_getitem data "target";
      target_type ← py_get options "target_type" (PStr "user");
      _ ← py_get options "factor_weights" PNone;
      calculate_compatibility user_profile target target_type
  else mret PNone.

Definition valid_types : list string :=
  ["user_tribe"; "tribe_formation"; "compatibility"].

Definition perform_matching (matching_type : string) (data : pyval)
    (options : option pyval) : result pyval :=
  let options := default empty_dict options in
  if negb (bool_decide (matching_type ∈ valid_types)) then
    Raised (BuiltinExn "ValueError"
              "Matching type must be one of: user_tribe, tribe_formation, compatibility")
  else
    match dispatch matching_type data options with
    | Returned result => Returned result
    | Raised e =>
        if is_builtin "ValueError" e then Raised e     (* except ValueError: raise *)
        else Returned (empty_result matching_type)
    end.

End methods.

(** [batch_perform_matching] for a list [batch_data]; [perform k] is the
    call [self.perform_matching(matching_type, _, options)] made for the
    item at position [k]. *)
Fixpoint batch_perform_matching (perform : nat → pyval → result pyval)
    (matching_type : string) (k : nat) (batch_data : list pyval) : list pyval :=
  match batch_data with
  | [] => []
  | item_data :: rest =>
      match perform k item_data with
      | Returned item_result => item_result
      | Raised _ => empty_result matching_type
      end :: batch_perform_matching perform matching_type (S k) rest
  end.

End MatchingModel.

(* ===================================================================== *)
(** ** The service over its model *)
(* ===================================================================== *)

(** The states of a service: the one [__init__] makes, and those that the
    methods touching the cache lead to, for any arguments and any clock
    readings. *)
Inductive reachable (env : settings) (config : service_config)
    (fingerprint : pyval → string) (model : matching_model)
  : MatchingService → Prop :=
| reachable_init :
    reachable env config fingerprint model (MatchingService_init env config)
| reachable_perform_matching self matching_type data options model_name
    t_lookup t_after :
    reachable env config fingerprint model self →
    reachable env config fingerprint model
      (perform_matching fingerprint model self matching_type data options
         model_name t_lookup t_after).2
| reachable_get_cached_result self cache_key current_time :
    reachable env config fingerprint model self →
    reachable env config fingerprint model
      (get_cached_result self cache_key current_time).2
| reachable_cache_result self cache_key result current_time :
    reachable env config fingerprint model self →
    reachable env config fingerprint model
      (cache_result self cache_key result current_time)
| reachable_clear_cache self :
    reachable env config fingerprint model self →
    reachable env config fingerprint model (clear_cache self).

(** The matching model as the service calls it:
    [self._matching_model.perform_matching(matching_type, data, options)],
    the call number [n] reaching the provider through [generate_text n]. *)
Definition service_matching_model (json_loads : string → option pyval)
    (py_sorted : list pyval → result (list pyval))
    (generate_text : nat → string → result pyval)
    (user_tribe_prompt : pyval → pyval → result string)
    (tribe_formation_prompt compatibility_prompt
       : pyval → pyval → pyval → result string)
  : matching_model :=
  λ n matching_type data options,
    MatchingModel.perform_matching json_loads py_sorted (generate_text n)
      user_tribe_prompt tribe_formation_prompt compatibility_prompt
      matching_type data (Some options).

(** The error response for a [ValueError] with the message [msg]. *)
Definition validation_error_response (msg operation : string)
    (current_time : Qc) : pyval :=
  PDict [("status", PStr "error");
         ("error", PDict [("type", PStr "validation_error");
                          ("message", PStr msg);
                          ("operation", PStr operation);
                          ("timestamp", PFloat current_time)])].

(** A service whose cache holds, under the key [k], an empty list written
    at time 0. *)
Definition service_with_empty_match : MatchingService :=
  {| _cache_enabled := true;
     _cache_ttl := 3600;
     _cache := Some {["k" := {| entry_result := PList [];
                                entry_timestamp := 0%Qc |}]};
     _default_model := "openai/gpt-4";
     model_calls := [] |}.

(** A model that finds one tribe, and a provider reply with a match in it. *)
Definition model_one_match : matching_model :=
  λ _ _ _ _, Returned (PList [PDict [("tribeId", PStr "t1")]]).

Definition reply_with_match : pyval :=
  PStr ("[{" +:+ dq +:+ "tribeId" +:+ dq +:+ ": 1}]").

(** A model whose every call times out. *)
Definition model_timing_out : matching_model :=
  λ _ _ _ _, Raised (AdapterExn (ModelTimeoutError "Request timed out"
                                   "generate_text" "openai/gpt-4" 30)).

(* ===================================================================== *)
(** * Properties *)
(* ===================================================================== *)

(** Unfold the binds of [result] on a value that is known. *)
Ltac result_simpl := cbn [mbind result_bind mret result_ret].

(** ** The result cache *)

Lemma cache_is_falsy_empty :
  cache_is_falsy (Some ∅) = true.
Proof. reflexivity. Qed.

Lemma cache_is_falsy_lookup (cache : gmap string cache_entry) key entry :
  cache !! key = Some entry → cache_is_falsy (Some cache) = false.
Proof.
  intros Hlook. unfold cache_is_falsy.
  apply bool_decide_eq_false. intros Hsize.
  apply map_size_empty_iff in Hsize. subst cache.
  by rewrite lookup_empty in Hlook.
Qed.

(** On a cache that is still empty the lookup misses, and the store that
    follows is skipped by the same guard: the cache stays empty. *)
Lemma get_cached_result_empty (self : MatchingService) key now :
  _cache self = Some ∅ → get_cached_result self key now = (PNone, self).
Proof.
  intros Hc. unfold get_cached_result. rewrite Hc, cache_is_falsy_empty.
  by rewrite orb_true_r.
Qed.

Lemma cache_result_empty (self : MatchingService) key value now :
  _cache self = Some ∅ → cache_result self key value now = self.
Proof.
  intros Hc. unfold cache_result. rewrite Hc, cache_is_falsy_empty.
  by rewrite orb_true_r.
Qed.

Lemma perform_matching_empty_cache fingerprint model (self : MatchingService)
    matching_type data options model_name t_lookup t_after :
  _cache self = Some ∅ →
  matching_type ∈ MATCHING_TYPES →
  let self' := snd (perform_matching fingerprint model self matching_type data
                      options model_name t_lookup t_after) in
  _cache self' = Some ∅
  ∧ model_calls self' =
      (model_calls self
         ++ [(matching_type, default empty_dict data, default empty_dict options)])%list.
Proof.
  intros Hc Hty. unfold perform_matching.
  rewrite (bool_decide_eq_true_2 _ Hty). cbn [negb].
  rewrite get_cached_result_empty by done. cbn [py_truthy].
  destruct (model _ _ _ _) as [v|e]; cbn [snd].
  - rewrite cache_result_empty by done. by split.
  - by split.
Qed.

(** C1 (the code departs from it). A service created with caching enabled
    starts with an empty cache, and [get_cached_result] and [cache_result]
    both treat the empty dictionary as no cache at all. So nothing is ever
    stored: of two identical [perform_matching] calls, whatever the clock
    readings and the time-to-live, the second one calls the model again. *)
Theorem perform_matching_second_call_reaches_model :
  ∀ env fingerprint model data options model_name ttl t1 t1' t2 t2',
    let s0 := MatchingService_init env
                {| cfg_cache_enabled := Some true; cfg_cache_ttl := Some ttl;
                   cfg_model := None |} in
    let s1 := snd (perform_matching fingerprint model s0 "compatibility"
                     data options model_name t1 t1') in
    let s2 := snd (perform_matching fingerprint model s1 "compatibility"
                     data options model_name t2 t2') in
    _cache s1 = Some ∅ ∧ length (model_calls s2) = 2%nat.
Proof.
  intros env fingerprint model data options model_name ttl t1 t1' t2 t2' s0 s1 s2.
  assert (Hty : "compatibility" ∈ MATCHING_TYPES).
  { unfold MATCHING_TYPES. set_solver. }
  destruct (perform_matching_empty_cache fingerprint model s0 "compatibility"
              data options model_name t1 t1') as [Hc1 Hl1]; [done | done |].
  fold s1 in Hc1, Hl1.
  destruct (perform_matching_empty_cache fingerprint model s1 "compatibility"
              data options model_name t2 t2') as [Hc2 Hl2]; [done | done |].
  fold s2 in Hc2, Hl2.
  split; [done |]. rewrite Hl2, Hl1. reflexivity.
Qed.

(** Whatever the state of the service, a lookup that returns something
    returns the stored value of an entry that has not expired, and leaves
    the service as it was. *)
Lemma get_cached_result_hit self key now value self' :
  get_cached_result self key now = (value, self') →
  value ≠ PNone →
  ∃ cache entry,
    _cache self = Some cache ∧ cache !! key = Some entry
    ∧ value = entry_result entry
    ∧ ¬ (Qc_of_Z (_cache_ttl self) < now - entry_timestamp entry)%Qc
    ∧ self' = self.
Proof.
  unfold get_cached_result.
  destruct (negb _ || _); [intros [= <- <-]; done |].
  destruct (_cache self) as [cache|]; [| intros [= <- <-]; done].
  destruct (cache !! key) as [entry|] eqn:Hlook; [| intros [= <- <-]; done].
  case_bool_decide as Hexp; intros [= <- <-]; [done |].
  intros _. by exists cache, entry.
Qed.

(** C6. A lookup never returns an entry once [now - created_at > ttl]:
    what it returns, if anything, is the stored value of an entry that has
    not expired, and then the service is left exactly as it was. For a
    key that is in the cache of a service with caching enabled, the lookup
    of an expired entry is a miss: [None] is returned, and in the service
    after the lookup the cache has no entry for the key, has every other
    entry as before, and nothing else of the service has changed. The
    lookup of an entry that has not expired returns the stored value and
    leaves the service, cache included, unchanged. The statement is about
    the method in every state of the service, the cache being a dictionary
    that may have been filled directly. *)
Theorem get_cached_result_respects_ttl (self : MatchingService) key now :
  (∀ value self',
     get_cached_result self key now = (value, self') → value ≠ PNone →
     ∃ cache entry,
       _cache self = Some cache ∧ cache !! key = Some entry
       ∧ value = entry_result entry
       ∧ ¬ (Qc_of_Z (_cache_ttl self) < now - entry_timestamp entry)%Qc
       ∧ self' = self)
  ∧ (∀ (cache : gmap string cache_entry) entry,
       _cache_enabled self = true →
       _cache self = Some cache →
       cache !! key = Some entry →
       ((Qc_of_Z (_cache_ttl self) < now - entry_timestamp entry)%Qc →
          ∃ self' cache',
            get_cached_result self key now = (PNone, self')
            ∧ _cache self' = Some cache'
            ∧ cache' !! key = None
            ∧ (∀ k, k ≠ key → cache' !! k = cache !! k)
            ∧ _cache_enabled self' = _cache_enabled self
            ∧ _cache_ttl self' = _cache_ttl self
            ∧ _default_model self' = _default_model self
            ∧ model_calls self' = model_calls self)
       ∧ (¬ (Qc_of_Z (_cache_ttl self) < now - entry_timestamp entry)%Qc →
          get_cached_result self key now = (entry_result entry, self))).
Proof.
  split; [intros value self'; apply get_cached_result_hit |].
  intros cache entry Hen Hc Hlook. unfold get_cached_result.
  rewrite Hen, Hc, (cache_is_falsy_lookup _ _ _ Hlook), Hlook. cbn [negb orb].
  split; intros Hexp.
  - rewrite (bool_decide_eq_true_2 _ Hexp).
    exists (with_cache self (Some (delete key cache))), (delete key cache).
    split; [reflexivity |]. split; [reflexivity |].
    split; [apply lookup_delete_eq |].
    split; [intros k Hk; by apply lookup_delete_ne |].
    by repeat split.
  - by rewrite (bool_decide_eq_false_2 _ Hexp).
Qed.

Lemma get_cached_result_respects_ttl_witness :
  (∃ self' cache',
     get_cached_result sample_service "k" (Qc_of_Z 3601) = (PNone, self')
     ∧ _cache self' = Some cache'
     ∧ cache' !! "k" = None
     ∧ (∀ k, k ≠ "k" → cache' !! k = ({["k" := sample_entry]} : gmap _ _) !! k)
     ∧ _cache_enabled self' = _cache_enabled sample_service
     ∧ _cache_ttl self' = _cache_ttl sample_service
     ∧ _default_model self' = _default_model sample_service
     ∧ model_calls self' = model_calls sample_service)
  ∧ get_cached_result sample_service "k" (Qc_of_Z 10)
    = (entry_result sample_entry, sample_service).
Proof.
  destruct (get_cached_result_respects_ttl sample_service "k" (Qc_of_Z 3601))
    as [_ Hlate].
  destruct (get_cached_result_respects_ttl sample_service "k" (Qc_of_Z 10))
    as [_ Hearly].
  split.
  - refine (proj1 (Hlate {["k" := sample_entry]} sample_entry
                     eq_refl eq_refl _) _).
    + apply lookup_singleton_eq.
    + by vm_compute.
  - refine (proj2 (Hearly {["k" := sample_entry]} sample_entry
                     eq_refl eq_refl _) _).
    + apply lookup_singleton_eq.
    + by vm_compute.
Defined.

(** The time-to-live check on the sample service, at both sides of the
    limit. *)
Example sample_lookup_fresh :
  fst (get_cached_result sample_service "k" (Qc_of_Z 3600)) = entry_result sample_entry.
Proof. vm_compute. reflexivity. Qed.

Example sample_lookup_expired :
  get_cached_result sample_service "k" (Qc_of_Z 3601)
  = (PNone, with_cache sample_service (Some ∅)).
Proof. vm_compute. reflexivity. Qed.

(** ** The request loop *)

Lemma posts_failing_steps url payload (delay : Z → Qc) (ks : list Z) :
  posts (flat_map (λ k, [Post url payload; Sleep (delay k)]) ks
         ++ [Post url payload])%list = S (length ks).
Proof.
  induction ks as [|k ks IH]; [reflexivity |].
  unfold posts in *. cbn. by rewrite IH.
Qed.

Lemma sleeps_failing_steps url payload (delay : Z → Qc) (ks : list Z) :
  sleeps (flat_map (λ k, [Post url payload; Sleep (delay k)]) ks
          ++ [Post url payload])%list = delay <$> ks.
Proof.
  induction ks as [|k ks IH]; [reflexivity |].
  unfold sleeps in *. cbn. by rewrite IH.
Qed.





(** The sleep before a retry succeeds exactly when [retry_delay] is not
    negative: the counter it is multiplied with is positive. *)
Lemma time_sleep_returns (delay : Qc) (k : Z) :
  (0 ≤ delay)%Qc → 0 ≤ k → time_sleep (delay * Qc_of_Z k) = Returned tt.
Proof.
  intros Hd Hk. unfold time_sleep. rewrite bool_decide_eq_false_2; [done |].
  apply Qcle_not_lt.
  replace 0%Qc with (0 * Qc_of_Z k)%Qc by ring.
  apply Qcmult_le_mono_nonneg_r; [| done].
  rewrite <-Z2Qc_inj_0. exact (proj1 (Z2Qc_inj_le 0 k) Hk).
Qed.

Lemma time_sleep_raises (delay : Qc) (k : Z) :
  (delay < 0)%Qc → 0 < k →
  time_sleep (delay * Qc_of_Z k)
  = Raised (BuiltinExn "ValueError" "sleep length must be non-negative").
Proof.
  intros Hd Hk. unfold time_sleep. rewrite bool_decide_eq_true_2; [done |].
  replace 0%Qc with (0 * Qc_of_Z k)%Qc by ring.
  apply Qcmult_lt_mono_pos_r; [| done].
  rewrite <-Z2Qc_inj_0. exact (proj1 (Z2Qc_inj_lt 0 k) Hk).
Qed.



Lemma time_sleep_raised (delay : Qc) (k : Z) e :
  0 < k → time_sleep (delay * Qc_of_Z k) = Raised e →
  (delay < 0)%Qc
  ∧ e = BuiltinExn "ValueError" "sleep length must be non-negative".
Proof.
  intros Hk Hsleep. destruct (Qclt_le_dec delay 0) as [Hneg|Hpos].
  - rewrite time_sleep_raises in Hsleep by done. by injection Hsleep as <-.
  - rewrite time_sleep_returns in Hsleep by (done || lia). discriminate.
Qed.

(** The shape of every trace of the loop: some failed attempts, each
    followed by its sleep, then a last request. A raised result means
    either that all the attempts were made, and then it comes from
    [handle_error], or that [time.sleep] refused a negative delay after a
    failed attempt that would have been retried. A negative [retry_delay]
    leaves no room for any sleep. *)
Lemma retry_loop_shape {A} self (attempt : nat → result A) url payload
    operation model_name fuel retries r events :
  0 ≤ retries →
  retry_loop self attempt url payload operation model_name fuel retries
  = Some (r, events) →
  ∃ n, 0 ≤ n ≤ 0 `max` (max_retries self - retries)
       ∧ events
         = (flat_map (λ k, [Post url payload;
                            Sleep (retry_delay self * Qc_of_Z k)])
              (seqZ (retries + 1) n) ++ [Post url payload])%list
       ∧ ((retry_delay self < 0)%Qc → n = 0)
       ∧ (∀ e, r = Raised e →
            (n = 0 `max` (max_retries self - retries)
             ∧ ∃ error, attempt (Z.to_nat (retries + n)) = Raised error
                        ∧ e = AdapterExn (handle_error self error operation
                                            model_name))
            ∨ ((retry_delay self < 0)%Qc
               ∧ retries + n + 1 ≤ max_retries self
               ∧ (∃ error, attempt (Z.to_nat (retries + n)) = Raised error)
               ∧ e = BuiltinExn "ValueError"
                       "sleep length must be non-negative")).
Proof.
  revert retries r events.
  induction fuel as [|fuel IH]; intros retries r events Hpos; [discriminate |].
  cbn [retry_loop]. destruct (attempt (Z.to_nat retries)) as [a|error] eqn:Hatt.
  - intros [= <- <-]. exists 0. split; [lia |].
    split; [by rewrite seqZ_nil |]. split; [done | discriminate].
  - destruct (retries + 1 <=? max_retries self) eqn:Hle.
    + apply Z.leb_le in Hle.
      destruct (time_sleep _) as [[]|e_sleep] eqn:Hsleep.
      * destruct (retry_loop _ _ _ _ _ _ fuel _) as [[r' events']|] eqn:Hloop;
          [| discriminate].
        cbn. intros [= <- <-].
        destruct (IH (retries + 1) r' events' ltac:(lia) Hloop)
          as (n & Hn & -> & Hneg & Hraise).
        exists (n + 1). split; [lia |]. split; [| split].
        -- rewrite (seqZ_cons (retries + 1)) by lia. cbn [flat_map app].
           replace (Z.succ (retries + 1)) with (retries + 1 + 1) by lia.
           by replace (Z.pred (n + 1)) with n by lia.
        -- intros Hd. rewrite time_sleep_raises in Hsleep by (done || lia).
           discriminate.
        -- intros e He.
           replace (retries + (n + 1)) with (retries + 1 + n) by lia.
           destruct (Hraise e He) as [(Hmax & Herr) | (Hd & Hle' & Herr & ->)].
           ++ left. split; [lia | done].
           ++ right. split; [done |]. split; [lia | done].
      * intros [= <- <-].
        destruct (time_sleep_raised (retry_delay self) (retries + 1) e_sleep
                    ltac:(lia) Hsleep) as [Hd ->].
        exists 0. split; [lia |]. split; [by rewrite seqZ_nil |].
        split; [done |]. intros e [= <-]. right.
        replace (retries + 0) with retries by lia.
        split; [done |]. split; [lia |]. split; [by eexists | done].
    + apply Z.leb_gt in Hle. intros [= <- <-]. exists 0.
      split; [lia |]. split; [by rewrite seqZ_nil |]. split; [done |].
      intros e [= <-]. left. split; [lia |]. exists error.
      by replace (retries + 0) with retries by lia.
Qed.








(** ** Error classification *)

Lemma handle_error_timeout self error operation model_name :
  is_timeout error = true →
  handle_error self error operation model_name
  = ModelTimeoutError (exn_str error) operation model_name (timeout self).
Proof. intros H. unfold handle_error. by rewrite H. Qed.

Lemma handle_error_http self error operation model_name :
  is_timeout error = false →
  is_connection_error error = false →
  is_http_error error || has_response_status error = true →
  handle_error self error operation model_name
  = let status_code := read_status_code error in
    if bool_decide (status_code = Some 401) || bool_decide (status_code = Some 403)
    then ModelAuthenticationError ("Authentication error: " +:+ exn_str error)
           operation model_name
    else if bool_decide (status_code = Some 429)
    then ModelRateLimitError ("Rate limit exceeded: " +:+ exn_str error)
           operation model_name (read_retry_after error)
    else ModelAdapterError
           ("HTTP error " +:+ format_status status_code +:+ ": " +:+ exn_str error)
           operation model_name.
Proof.
  intros Ht Hc Hh. unfold handle_error. rewrite Ht, Hc, Hh. cbn zeta.
  repeat case_bool_decide; cbn [orb]; try reflexivity.
  destruct (exn_response error) as [r|]; [| reflexivity].
  by destruct (content_filter_probe r operation model_name).
Qed.

(** Whatever the error, [handle_error] does not raise a
    [ModelContentFilterError]: the one its status-400 branch raises is
    caught by the [except Exception] of the same branch. *)
Lemma handle_error_never_content_filter self error operation model_name :
  kind_of (handle_error self error operation model_name) ≠ ContentFilter.
Proof.
  unfold handle_error.
  destruct (is_timeout error); [done |].
  destruct (is_connection_error error); [done |].
  destruct (is_http_error error || has_response_status error); [| done].
  cbn zeta. repeat case_bool_decide; cbn [orb]; try done.
  destruct (exn_response error) as [r|]; [| done].
  by destruct (content_filter_probe r operation model_name).
Qed.

(** The header value read for a rate-limit error whose response has
    headers. *)
Lemma read_retry_after_headers cls msg sc r headers :
  resp_headers r = Some headers →
  read_retry_after (TransportExn cls msg sc (Some r))
  = match headers !! "retry-after" with
    | None => PNone
    | Some s =>
        if bool_decide (s = empty_str) then PStr s
        else match py_int_of_str s with Some n => PInt n | None => PNone end
    end.
Proof.
  intros Hh. unfold read_retry_after. cbn [exn_response]. rewrite Hh.
  destruct (headers !! "retry-after") as [s|]; [| reflexivity].
  cbn [py_truthy]. by case_bool_decide.
Qed.

Lemma py_int_of_str_nonempty s n : py_int_of_str s = Some n → s ≠ empty_str.
Proof. intros H ->. discriminate H. Qed.

(** [int] reads the digits between the white space it skips; a separator
    such as U+001C is not white space to it. *)
Example py_int_of_str_examples :
  py_int_of_str "30" = Some 30
  ∧ py_int_of_str " 30 " = Some 30
  ∧ py_int_of_str (String (ascii_of_nat 28) "30") = None
  ∧ py_int_of_str "soon" = None
  ∧ py_int_of_str empty_str = None.
Proof. by vm_compute. Qed.

(** C7 (the code departs from it in one row). The classification matrix:
    an exception that is a timeout of either HTTP library is raised as
    [ModelTimeoutError] with the timeout the adapter is configured with;
    an HTTP error with status 401 or 403 as [ModelAuthenticationError];
    one with status 429 as [ModelRateLimitError], whose [retry_after] is 30
    for the header [retry-after: 30] (in general the integer [int] reads
    from the header), [None] when the header is absent, and [None] when
    the header is not empty and [int] rejects it. An empty header value,
    which [int] rejects as well, is not turned into [None]: the test
    [if retry_after] skips the conversion and its fallback, and the empty
    string stays in the field. *)
Theorem handle_error_classification_matrix self operation model_name :
  (∀ error, is_timeout error = true →
     handle_error self error operation model_name
     = ModelTimeoutError (exn_str error) operation model_name (timeout self))
  ∧ (∀ msg r,
       resp_status_code r = Some 401 ∨ resp_status_code r = Some 403 →
       handle_error self (requests_HTTPError msg r) operation model_name
       = ModelAuthenticationError ("Authentication error: " +:+ msg)
           operation model_name)
  ∧ (∀ msg r,
       resp_status_code r = Some 429 →
       ∃ retry_after,
         handle_error self (requests_HTTPError msg r) operation model_name
         = ModelRateLimitError ("Rate limit exceeded: " +:+ msg)
             operation model_name retry_after
         ∧ (retry_after_header r = Some "30" → retry_after = PInt 30)
         ∧ (∀ s n, retry_after_header r = Some s → py_int_of_str s = Some n →
                   retry_after = PInt n)
         ∧ (retry_after_header r = None → retry_after = PNone)
         ∧ (∀ s, retry_after_header r = Some s → s ≠ empty_str →
                 py_int_of_str s = None → retry_after = PNone)
         ∧ (retry_after_header r = Some empty_str →
            py_int_of_str empty_str = None
            ∧ retry_after = PStr empty_str
            ∧ retry_after ≠ PNone)).
Proof.
  split; [intros error; apply handle_error_timeout |].
  split.
  - intros msg r Hsc.
    rewrite handle_error_http by reflexivity.
    unfold read_status_code. cbn.
    destruct Hsc as [-> | ->]; reflexivity.
  - intros msg r Hsc.
    rewrite handle_error_http by reflexivity.
    unfold read_status_code. cbn. rewrite Hsc. cbn.
    eexists. split; [reflexivity |].
    unfold retry_after_header, read_retry_after. cbn [exn_response].
    destruct (resp_headers r) as [headers|]; cbn.
    + destruct (headers !! "retry-after") as [s|] eqn:Hs; cbn.
      * split; [| split; [| split; [| split]]].
        -- intros [= ->]. reflexivity.
        -- intros s' n [= <-] Hn.
           pose proof (py_int_of_str_nonempty _ _ Hn) as Hne.
           rewrite (bool_decide_eq_false_2 _ Hne). cbn. by rewrite Hn.
        -- discriminate.
        -- intros s' [= <-] Hne Hn.
           rewrite (bool_decide_eq_false_2 _ Hne). cbn. by rewrite Hn.
        -- intros [= ->]. done.
      * split; [| split; [| split; [| split]]];
          [discriminate | discriminate | done | | discriminate].
        intros s' [=].
    + split; [| split; [| split; [| split]]];
        [discriminate | discriminate | done | | discriminate].
      intros s' [=].
Qed.

Lemma handle_error_classification_matrix_witness :
  handle_error sample_adapter
    (TransportExn RequestsTimeout "Request timed out" None None)
    "generate_text" "gpt-3.5-turbo"
  = ModelTimeoutError "Request timed out" "generate_text" "gpt-3.5-turbo" 30
  ∧ handle_error sample_adapter (requests_HTTPError "Unauthorized" response_401)
      "generate_text" "gpt-3.5-turbo"
    = ModelAuthenticationError "Authentication error: Unauthorized"
        "generate_text" "gpt-3.5-turbo"
  ∧ (∃ retry_after,
       handle_error sample_adapter
         (requests_HTTPError "Too Many Requests" response_429)
         "generate_text" "gpt-3.5-turbo"
       = ModelRateLimitError "Rate limit exceeded: Too Many Requests"
           "generate_text" "gpt-3.5-turbo" retry_after
       ∧ retry_after = PInt 30)
  ∧ ∃ retry_after,
      handle_error sample_adapter
        (requests_HTTPError "Too Many Requests" response_429_empty_header)
        "generate_text" "gpt-3.5-turbo"
      = ModelRateLimitError "Rate limit exceeded: Too Many Requests"
          "generate_text" "gpt-3.5-turbo" retry_after
      ∧ retry_after = PStr empty_str
      ∧ retry_after ≠ PNone.
Proof.
  destruct (handle_error_classification_matrix sample_adapter
              "generate_text" "gpt-3.5-turbo") as (Htimeout & Hauth & Hrate).
  split; [apply Htimeout; reflexivity |].
  split; [apply Hauth; left; reflexivity |].
  split.
  - destruct (Hrate "Too Many Requests" response_429) as (ra & Heq & H30 & _);
      [reflexivity |].
    exists ra. split; [exact Heq |]. apply H30. vm_compute. reflexivity.
  - destruct (Hrate "Too Many Requests" response_429_empty_header)
      as (ra & Heq & _ & _ & _ & _ & Hempty); [reflexivity |].
    exists ra. split; [exact Heq |].
    destruct Hempty as (_ & Hra & Hne); [vm_compute; reflexivity |].
    by split.
Defined.

(** Every [requests.HTTPError] with status 400 comes out as the generic
    error, whatever the body of the response. *)
Lemma handle_error_status_400 self msg r operation model_name :
  resp_status_code r = Some 400 →
  handle_error self (requests_HTTPError msg r) operation model_name
  = ModelAdapterError ("HTTP error 400: " +:+ msg) operation model_name.
Proof.
  intros Hsc. rewrite handle_error_http by reflexivity.
  unfold read_status_code. cbn. by rewrite Hsc.
Qed.

(** For the input of the repository's own content-filter test, status 400
    with the body [{'error': {'type': 'content_filter', 'message': ...}}],
    the [try] block of the status-400 branch does raise the
    content-filter error with the reason of the provider. *)
Example content_filter_probe_raises :
  content_filter_probe response_content_filter "generate_text" "gpt-3.5-turbo"
  = Raised (AdapterExn (ModelContentFilterError
              "Content filtered: Content violates usage policies"
              "generate_text" "gpt-3.5-turbo"
              (PStr "Content violates usage policies"))).
Proof. vm_compute. reflexivity. Qed.

(** C4 (the code departs from it). For an HTTP 400 error whose JSON body
    has the error type [content_filter], [handle_error] does not raise
    [ModelContentFilterError]: the [raise] stands inside the [try] block
    whose [except Exception: pass] catches it, and what [handle_error]
    raises for the input of the content-filter test is the generic
    [ModelAdapterError] for status 400, without the filter reason. *)
Theorem handle_error_content_filter_is_generic :
  handle_error sample_adapter
    (requests_HTTPError "Bad Request" response_content_filter)
    "generate_text" "gpt-3.5-turbo"
  = ModelAdapterError "HTTP error 400: Bad Request" "generate_text" "gpt-3.5-turbo".
Proof. vm_compute. reflexivity. Qed.

(** ** Errors of the kinds called non-retryable *)






(** ** Extraction of JSON from a reply *)

Lemma str_has_filter keep c s :
  keep c = false → str_has c (str_filter keep s) = false.
Proof.
  intros Hc. induction s as [|a s IH]; [reflexivity |]. cbn [str_filter].
  destruct (keep a) eqn:Ha; [| exact IH]. cbn [str_has]. rewrite IH.
  rewrite bool_decide_eq_false_2; [reflexivity |]. congruence.
Qed.

Lemma str_has_collapse c in_run s :
  is_space c = false → str_has c s = false →
  str_has c (collapse_spaces in_run s) = false.
Proof.
  intros Hc. revert in_run. induction s as [|a s IH]; intros in_run; [reflexivity |].
  cbn [str_has collapse_spaces]. intros [Ha Hs]%orb_false_elim.
  destruct (is_space a) eqn:Hsp.
  - destruct in_run; [by apply IH |]. cbn [str_has]. rewrite IH by done.
    rewrite bool_decide_eq_false_2; [reflexivity |]. intros <-. discriminate Hc.
  - cbn [str_has]. by rewrite Ha, IH.
Qed.

Lemma str_has_lstrip c s : str_has c s = false → str_has c (str_lstrip s) = false.
Proof.
  induction s as [|a s IH]; [reflexivity |]. cbn [str_lstrip].
  destruct (is_space a); [| done].
  cbn [str_has]. intros [_ Hs]%orb_false_elim. by apply IH.
Qed.

Lemma str_has_rstrip c s : str_has c s = false → str_has c (str_rstrip s) = false.
Proof.
  induction s as [|a s IH]; [reflexivity |]. cbn [str_has str_rstrip].
  intros [Ha Hs]%orb_false_elim. specialize (IH Hs).
  destruct (str_rstrip s) as [|b r].
  - destruct (is_space a); [reflexivity |]. cbn [str_has]. by rewrite Ha.
  - cbn [str_has] in IH |- *. by rewrite Ha, IH.
Qed.

(** The cleaning step deletes every character it does not keep: none is
    left in the cleaned reply. *)
Lemma clean_text_data_deletes c text :
  kept_by_cleaning c = false →
  str_has c (clean_text_data text false None) = false.
Proof.
  intros Hc. unfold clean_text_data, str_strip.
  apply str_has_rstrip, str_has_lstrip, str_has_collapse.
  - unfold kept_by_cleaning in Hc. do 7 apply orb_false_elim in Hc as [Hc _].
    apply orb_false_elim in Hc as [_ Hc]. exact Hc.
  - by apply str_has_filter.
Qed.

Lemma match_json_pattern_other c t :
  c ≠ backtick → c ≠ "{"%char → c ≠ "["%char →
  match_json_pattern (String c t) = None.
Proof.
  intros Hb Ho Hs. unfold match_json_pattern, match_fenced, match_bracketed.
  unfold fence. cbn [String.prefix].
  destruct (ascii_dec backtick c) as [Heq|Hne]; [by subst |].
  by rewrite !bool_decide_eq_false_2 by done.
Qed.

(** A text without a backquote, a brace or a bracket has no match of
    [json_pattern] ... *)
Lemma findall_json_none skip s :
  str_has backtick s = false → str_has "{" s = false → str_has "[" s = false →
  findall_json skip s = [].
Proof.
  revert skip. induction s as [|a s IH]; intros skip; [reflexivity |].
  cbn [str_has findall_json].
  intros [Hb Hbs]%orb_false_elim [Ho Hos]%orb_false_elim [Hs Hss]%orb_false_elim.
  apply bool_decide_eq_false in Hb, Ho, Hs.
  destruct skip as [|k]; [| by apply IH].
  rewrite match_json_pattern_other by done. by apply IH.
Qed.

Lemma str_find_absent c s : str_has c s = false → str_find c s = -1.
Proof.
  induction s as [|a s IH]; [reflexivity |]. cbn [str_has str_find].
  intros [Ha Hs]%orb_false_elim. by rewrite Ha, (IH Hs).
Qed.

(** ... and the direct search finds no opening bracket in it. *)
Lemma direct_json_none s :
  str_has "{" s = false → str_has "[" s = false → direct_json s = None.
Proof.
  intros Ho Hs. unfold direct_json. rewrite Ho, (str_find_absent _ _ Hs).
  reflexivity.
Qed.

(** Braces, brackets and backquotes are among the characters the cleaning
    deletes, so the search runs on a text without them:
    [extract_json_from_response] returns the empty dictionary for every
    reply, and never parses anything. *)
Lemma extract_json_from_response_constant json_loads response :
  extract_json_from_response json_loads response = empty_dict.
Proof.
  unfold extract_json_from_response.
  pose proof (clean_text_data_deletes backtick response eq_refl) as Hb.
  pose proof (clean_text_data_deletes "{" response eq_refl) as Ho.
  pose proof (clean_text_data_deletes "[" response eq_refl) as Hs.
  rewrite (findall_json_none 0 _ Hb Ho Hs). cbn [first_json_group].
  by rewrite (direct_json_none _ Ho Hs).
Qed.

(** What the search finds in the three replies when they are not cleaned
    first. *)
Example json_bare_candidate :
  first_json_group (findall_json 0 json_bare) = Some json_bare.
Proof. vm_compute. reflexivity. Qed.

Example json_fenced_candidate :
  first_json_group (findall_json 0 json_fenced) = Some json_bare.
Proof. vm_compute. reflexivity. Qed.

Example json_in_prose_candidate :
  first_json_group (findall_json 0 json_in_prose) = Some json_bare.
Proof. vm_compute. reflexivity. Qed.

(** C5 (the code departs from it). Of the bare JSON object only the text
    of its key and value is left after cleaning, and for each of the three
    replies that contain the object, as for the one that contains none,
    the function returns the empty dictionary, whatever [json.loads] would
    have made of the object. The part of the claim about plain prose
    holds. *)
Theorem extract_json_from_response_loses_object :
  ∀ json_loads,
    clean_text_data json_bare false None = dq +:+ "a" +:+ dq +:+ "1"
    ∧ extract_json_from_response json_loads json_bare = empty_dict
    ∧ extract_json_from_response json_loads json_fenced = empty_dict
    ∧ extract_json_from_response json_loads json_in_prose = empty_dict
    ∧ extract_json_from_response json_loads plain_prose = empty_dict.
Proof.
  intros json_loads. split; [vm_compute; reflexivity |].
  repeat split; vm_compute; reflexivity.
Qed.

(** ** Clamping of the generation parameters *)

Lemma py_le_number a b x y :
  as_number a = Some x → as_number b = Some y →
  py_le a b = Returned (bool_decide (x ≤ y)%Qc).
Proof. intros Ha Hb. unfold py_le. by rewrite Ha, Hb. Qed.

Lemma py_lt_number a b x y :
  as_number a = Some x → as_number b = Some y →
  py_lt a b = Returned (bool_decide (x < y)%Qc).
Proof. intros Ha Hb. unfold py_lt. by rewrite Ha, Hb. Qed.

Lemma float_0_01_pos : (Qc_of_Z 0 < float_0_01)%Qc.
Proof. by vm_compute. Qed.

Lemma float_0_01_le_1 : (float_0_01 ≤ Qc_of_Z 1)%Qc.
Proof. by vm_compute. Qed.

Lemma float_0_01_lt_1 : (float_0_01 < Qc_of_Z 1)%Qc.
Proof. by vm_compute. Qed.

Lemma Qc_0_lt_2 : (Qc_of_Z 0 < Qc_of_Z 2)%Qc.
Proof. by vm_compute. Qed.

Lemma Qc_0_lt_1 : (Qc_of_Z 0 < Qc_of_Z 1)%Qc.
Proof. by vm_compute. Qed.

(** The value of the temperature check on a number [q]. *)
Lemma clamp_temperature_number p t q :
  p !! "temperature" = Some t → as_number t = Some q →
  clamp_temperature p
  = Returned (if decide (Qc_of_Z 0 ≤ q ∧ q ≤ Qc_of_Z 2)%Qc then p
              else if decide (q < Qc_of_Z 0)%Qc
                   then <["temperature" := PInt 0]> p
                   else <["temperature" := PInt 2]> p).
Proof.
  intros Hp Hq. unfold clamp_temperature. rewrite Hp.
  rewrite (py_le_number (PInt 0) t (Qc_of_Z 0) q) by done. cbn [mbind result_bind].
  destruct (decide (Qc_of_Z 0 ≤ q)%Qc) as [Hlo|Hlo].
  - rewrite (bool_decide_eq_true_2 _ Hlo).
    rewrite (py_le_number t (PInt 2) q (Qc_of_Z 2)) by done. cbn [mbind result_bind].
    destruct (decide (q ≤ Qc_of_Z 2)%Qc) as [Hhi|Hhi].
    + rewrite (bool_decide_eq_true_2 _ Hhi). cbn [andb].
      by rewrite decide_True.
    + rewrite (bool_decide_eq_false_2 _ Hhi). cbn [andb].
      rewrite decide_False by tauto.
      rewrite decide_False by (by apply Qcle_not_lt).
      unfold py_min. rewrite (py_lt_number (PInt 2) t (Qc_of_Z 2) q) by done.
      result_simpl.
      rewrite bool_decide_eq_true_2 by (by apply Qcnot_le_lt).
      unfold py_max.
      rewrite (py_lt_number (PInt 0) (PInt 2) (Qc_of_Z 0) (Qc_of_Z 2)) by done.
      result_simpl.
      by rewrite (bool_decide_eq_true_2 _ Qc_0_lt_2).
  - rewrite (bool_decide_eq_false_2 _ Hlo). cbn [mbind result_bind mret result_ret andb].
    rewrite decide_False by tauto.
    apply Qcnot_le_lt in Hlo. rewrite decide_True by done.
    unfold py_min. rewrite (py_lt_number (PInt 2) t (Qc_of_Z 2) q) by done.
    result_simpl.
    rewrite bool_decide_eq_false_2.
    2:{ apply Qcle_not_lt, Qclt_le_weak, (Qclt_trans _ _ _ Hlo Qc_0_lt_2). }
    unfold py_max. rewrite (py_lt_number (PInt 0) t (Qc_of_Z 0) q) by done.
    result_simpl.
    rewrite bool_decide_eq_false_2; [done |].
    by apply Qcle_not_lt, Qclt_le_weak.
Qed.

(** The value of the top-p check on a number [q]. *)
Lemma clamp_top_p_number p t q :
  p !! "top_p" = Some t → as_number t = Some q →
  clamp_top_p p
  = Returned (if decide (Qc_of_Z 0 < q ∧ q ≤ Qc_of_Z 1)%Qc then p
              else if decide (q ≤ Qc_of_Z 0)%Qc
                   then <["top_p" := PFloat float_0_01]> p
                   else <["top_p" := PInt 1]> p).
Proof.
  intros Hp Hq. unfold clamp_top_p. rewrite Hp.
  rewrite (py_lt_number (PInt 0) t (Qc_of_Z 0) q) by done. cbn [mbind result_bind].
  destruct (decide (Qc_of_Z 0 < q)%Qc) as [Hlo|Hlo].
  - rewrite (bool_decide_eq_true_2 _ Hlo).
    rewrite (py_le_number t (PInt 1) q (Qc_of_Z 1)) by done. cbn [mbind result_bind].
    destruct (decide (q ≤ Qc_of_Z 1)%Qc) as [Hhi|Hhi].
    + rewrite (bool_decide_eq_true_2 _ Hhi). cbn [andb].
      by rewrite decide_True.
    + rewrite (bool_decide_eq_false_2 _ Hhi). cbn [andb].
      rewrite decide_False by tauto.
      rewrite decide_False by (by apply Qclt_not_le).
      unfold py_min. rewrite (py_lt_number (PInt 1) t (Qc_of_Z 1) q) by done.
      result_simpl.
      rewrite bool_decide_eq_true_2 by (by apply Qcnot_le_lt).
      unfold py_max.
      rewrite (py_lt_number (PFloat float_0_01) (PInt 1) float_0_01 (Qc_of_Z 1))
        by done.
      result_simpl.
      by rewrite (bool_decide_eq_true_2 _ float_0_01_lt_1).
  - rewrite (bool_decide_eq_false_2 _ Hlo). cbn [mbind result_bind mret result_ret andb].
    rewrite decide_False by tauto.
    apply Qcnot_lt_le in Hlo. rewrite decide_True by done.
    unfold py_min. rewrite (py_lt_number (PInt 1) t (Qc_of_Z 1) q) by done.
    result_simpl.
    rewrite bool_decide_eq_false_2.
    2:{ apply Qcle_not_lt, (Qcle_trans _ _ _ Hlo), Qclt_le_weak, Qc_0_lt_1. }
    unfold py_max.
    rewrite (py_lt_number (PFloat float_0_01) t float_0_01 q) by done.
    result_simpl.
    rewrite bool_decide_eq_false_2; [done |].
    apply Qcle_not_lt, (Qcle_trans _ _ _ Hlo), Qclt_le_weak, float_0_01_pos.
Qed.

Lemma clamp_temperature_not_number p t :
  p !! "temperature" = Some t → as_number t = None →
  clamp_temperature p = raise_builtin "TypeError".
Proof.
  intros Hp Hq. unfold clamp_temperature, py_le. rewrite Hp. cbn [as_number].
  by rewrite Hq.
Qed.

Lemma clamp_top_p_not_number p t :
  p !! "top_p" = Some t → as_number t = None →
  clamp_top_p p = raise_builtin "TypeError".
Proof.
  intros Hp Hq. unfold clamp_top_p, py_lt. rewrite Hp. cbn [as_number].
  by rewrite Hq.
Qed.

Lemma clamp_temperature_returns p p' :
  clamp_temperature p = Returned p' →
  temperature_in_range p' ∧ ∀ k, k ≠ "temperature" → p' !! k = p !! k.
Proof.
  destruct (p !! "temperature") as [t|] eqn:Hp.
  - destruct (as_number t) as [q|] eqn:Hq.
    + rewrite (clamp_temperature_number p t q) by done.
      destruct (decide _) as [Hin|Hout]; [| destruct (decide _)];
        intros [= <-]; (split; [intros v Hv | intros k Hk]).
      * exists q. split; [congruence | done].
      * done.
      * rewrite lookup_insert_eq in Hv. injection Hv as <-.
        exists (Qc_of_Z 0). split; [done |].
        split; [apply Qcle_refl | apply Qclt_le_weak, Qc_0_lt_2].
      * by rewrite lookup_insert_ne.
      * rewrite lookup_insert_eq in Hv. injection Hv as <-.
        exists (Qc_of_Z 2). split; [done |].
        split; [apply Qclt_le_weak, Qc_0_lt_2 | apply Qcle_refl].
      * by rewrite lookup_insert_ne.
    + by rewrite (clamp_temperature_not_number p t).
  - unfold clamp_temperature. rewrite Hp. intros [= <-].
    split; [| done]. intros v Hv. congruence.
Qed.

Lemma clamp_top_p_returns p p' :
  clamp_top_p p = Returned p' →
  top_p_in_range p' ∧ ∀ k, k ≠ "top_p" → p' !! k = p !! k.
Proof.
  destruct (p !! "top_p") as [t|] eqn:Hp.
  - destruct (as_number t) as [q|] eqn:Hq.
    + rewrite (clamp_top_p_number p t q) by done.
      destruct (decide _) as [Hin|Hout]; [| destruct (decide _)];
        intros [= <-]; (split; [intros v Hv | intros k Hk]).
      * exists q. split; [congruence | done].
      * done.
      * rewrite lookup_insert_eq in Hv. injection Hv as <-.
        exists float_0_01. split; [done |].
        split; [apply float_0_01_pos | apply float_0_01_le_1].
      * by rewrite lookup_insert_ne.
      * rewrite lookup_insert_eq in Hv. injection Hv as <-.
        exists (Qc_of_Z 1). split; [done |].
        split; [apply Qc_0_lt_1 | apply Qcle_refl].
      * by rewrite lookup_insert_ne.
    + by rewrite (clamp_top_p_not_number p t).
  - unfold clamp_top_p. rewrite Hp. intros [= <-].
    split; [| done]. intros v Hv. congruence.
Qed.

Lemma clamp_temperature_in_range p :
  temperature_in_range p → clamp_temperature p = Returned p.
Proof.
  intros Hr. destruct (p !! "temperature") as [t|] eqn:Hp.
  - destruct (Hr t Hp) as (q & Hq & Hin).
    rewrite (clamp_temperature_number p t q) by done. by rewrite decide_True.
  - unfold clamp_temperature. by rewrite Hp.
Qed.

Lemma clamp_top_p_in_range p :
  top_p_in_range p → clamp_top_p p = Returned p.
Proof.
  intros Hr. destruct (p !! "top_p") as [t|] eqn:Hp.
  - destruct (Hr t Hp) as (q & Hq & Hin).
    rewrite (clamp_top_p_number p t q) by done. by rewrite decide_True.
  - unfold clamp_top_p. by rewrite Hp.
Qed.



(** Whatever [clamp_parameters] returns is within both ranges. *)
Lemma clamp_parameters_returns p p' :
  clamp_parameters p = Returned p' →
  temperature_in_range p' ∧ top_p_in_range p'.
Proof.
  unfold clamp_parameters.
  destruct (clamp_temperature p) as [p1|e] eqn:H1; [| discriminate].
  intros H2. change (clamp_top_p p1 = Returned p') in H2.
  destruct (clamp_temperature_returns _ _ H1) as [Ht _].
  destruct (clamp_top_p_returns _ _ H2) as [Hp Hsame].
  split; [| done]. intros v Hv. apply Ht. by rewrite <-Hsame.
Qed.

Lemma clamp_parameters_in_range p :
  temperature_in_range p → top_p_in_range p → clamp_parameters p = Returned p.
Proof.
  intros Ht Hp. unfold clamp_parameters.
  rewrite (clamp_temperature_in_range p Ht). cbn [mbind result_bind].
  by apply clamp_top_p_in_range.
Qed.





(** The sample out of range is brought to [temperature = 2] and
    [top_p = 0.01]. *)
Example clamp_wild_parameters :
  clamp_parameters wild_parameters
  = Returned {["temperature" := PInt 2; "top_p" := PFloat float_0_01]}.
Proof. vm_compute. reflexivity. Qed.

(** ** Preparation of the prompt *)

Lemma float_0_9_times_10 : (float_0_9 * Qc_of_Z 10 = Qc_of_Z 9)%Qc.
Proof. apply Qc_is_canon. by vm_compute. Qed.

(** [n > w * 0.9], in integers. *)
Lemma exceeds_window_spec w n : exceeds_window w n = true ↔ 9 * w < 10 * n.
Proof.
  unfold exceeds_window. rewrite bool_decide_eq_true.
  rewrite (Qcmult_lt_mono_pos_r _ _ (Qc_of_Z 10)) by (by vm_compute).
  rewrite <-Qcmult_assoc, float_0_9_times_10, <-!Z2Qc_inj_mul, <-Z2Qc_inj_lt.
  lia.
Qed.

(** [int(w * 0.9)] is the floor of nine tenths of [w]. *)
Lemma window_limit_floor w : 0 ≤ w → window_limit w = 9 * w / 10.
Proof.
  intros Hw. unfold window_limit, float_to_int.
  rewrite bool_decide_eq_true_2.
  - change (Qfloor (Qred (inject_Z w * Qred (9 # 10))) = 9 * w / 10).
    rewrite (Qfloor_comp _ _ (Qred_correct _)).
    change (Qred (9 # 10)) with (9 # 10)%Q.
    unfold Qfloor, Qmult, inject_Z. cbn [Qnum Qden].
    f_equal; lia.
  - rewrite <-(Qcmult_0_l float_0_9).
    apply Qcmult_le_mono_nonneg_r; [by vm_compute |].
    rewrite <-Z2Qc_inj_0. exact (proj1 (Z2Qc_inj_le 0 w) Hw).
Qed.

(** The context windows of the configuration table. *)
Lemma context_window_cases env model :
  context_window env model = 4096
  ∨ context_window env model = 8192
  ∨ context_window env model = 100000.
Proof.
  unfold context_window, model_config, MODEL_CONFIGS.
  cbn [list_to_map foldr uncurry]. rewrite !lookup_insert.
  repeat case_decide; cbn [default]; try (vm_compute; tauto).
Qed.

Lemma context_window_default env model :
  MODEL_CONFIGS env !! model = None → context_window env model = 4096.
Proof.
  intros Hm. unfold context_window, model_config. rewrite Hm. cbn [default].
  by rewrite lookup_empty.
Qed.

Lemma str_len_take n s :
  (n ≤ String.length s)%nat → String.length (str_take n s) = n.
Proof.
  revert s. induction n as [|n IH]; intros s Hn; [by destruct s |].
  destruct s as [|c s]; cbn in Hn; [lia |]. cbn. rewrite IH; [done | lia].
Qed.

(** The context window of each model of the configuration table, and of a
    model the table does not list. *)
Lemma context_window_table env :
  context_window env "openai/gpt-4" = 8192
  ∧ context_window env "openai/gpt-3.5-turbo" = 4096
  ∧ context_window env "anthropic/claude-2" = 100000
  ∧ context_window env "anthropic/claude-instant-1" = 100000.
Proof. by vm_compute. Qed.

Lemma context_window_unlisted env model :
  model ≠ "openai/gpt-4" → model ≠ "openai/gpt-3.5-turbo" →
  model ≠ "anthropic/claude-2" → model ≠ "anthropic/claude-instant-1" →
  context_window env model = 4096.
Proof.
  intros H1 H2 H3 H4. apply context_window_default.
  unfold MODEL_CONFIGS. cbn [list_to_map foldr uncurry].
  rewrite !lookup_insert_ne by done. apply lookup_empty.
Qed.

(** C10. The model is the one named, or [DEFAULT_MODEL] when none is
    named; its context window is 8192 for [openai/gpt-4] (the default
    model when the environment names no other), 4096 for
    [openai/gpt-3.5-turbo], 100000 for the two [anthropic/] models, and
    4096 for a model the configuration does not list. A prompt whose
    stripped length exceeds nine tenths of that window is cut to the first
    floor(0.9 * window) characters of the stripped prompt, followed by the
    truncation note; a prompt within the limit is returned stripped and
    otherwise unchanged. *)
Theorem prepare_prompt_truncates env prompt model_name :
  let model := model_or_default env model_name in
  let window := context_window env model in
  let cleaned := str_strip prompt in
  let limit := 9 * window / 10 in
  (model_name = None → model = DEFAULT_MODEL env)
  ∧ (∀ name, name ≠ empty_str → model_name = Some name → model = name)
  ∧ (model = "openai/gpt-4" → window = 8192 ∧ limit = 7372)
  ∧ (model = "openai/gpt-3.5-turbo" → window = 4096 ∧ limit = 3686)
  ∧ (model = "anthropic/claude-2" ∨ model = "anthropic/claude-instant-1" →
       window = 100000 ∧ limit = 90000)
  ∧ (model ≠ "openai/gpt-4" → model ≠ "openai/gpt-3.5-turbo" →
     model ≠ "anthropic/claude-2" → model ≠ "anthropic/claude-instant-1" →
       window = 4096 ∧ limit = 3686)
  ∧ (9 * window < 10 * str_len cleaned →
       prepare_prompt env prompt model_name
       = str_take (Z.to_nat limit) cleaned +:+ prompt_truncation_note
       ∧ str_len (str_take (Z.to_nat limit) cleaned) = limit)
  ∧ (10 * str_len cleaned ≤ 9 * window →
       prepare_prompt env prompt model_name = cleaned).
Proof.
  intros model window cleaned limit.
  assert (Hw : 0 ≤ window).
  { destruct (context_window_cases env model) as [H | [H | H]];
      unfold window; rewrite H; lia. }
  destruct (context_window_table env) as (Hgpt4 & Hgpt35 & Hclaude & Hinstant).
  split; [by intros -> |].
  split.
  { intros name Hname ->. unfold model. cbn. by destruct name. }
  split.
  { intros Hm. unfold limit, window. by rewrite Hm, Hgpt4. }
  split.
  { intros Hm. unfold limit, window. by rewrite Hm, Hgpt35. }
  split.
  { intros [Hm | Hm]; unfold limit, window; rewrite Hm.
    - by rewrite Hclaude.
    - by rewrite Hinstant. }
  split.
  { intros H1 H2 H3 H4. unfold limit, window.
    by rewrite (context_window_unlisted env model). }
  unfold prepare_prompt. fold model. fold window. fold cleaned.
  split; intros Hlen.
  - rewrite (proj2 (exceeds_window_spec _ _)) by done.
    rewrite window_limit_floor by done. fold limit.
    assert (Hl : 0 ≤ limit < str_len cleaned).
    { unfold limit. split; [apply Z.div_pos; lia |].
      apply Z.div_lt_upper_bound; lia. }
    unfold str_slice_to. rewrite (proj2 (Z.ltb_ge _ _)) by lia.
    split; [reflexivity |].
    unfold str_len in *. rewrite str_len_take by lia. lia.
  - destruct (exceeds_window window (str_len cleaned)) eqn:Hex; [| reflexivity].
    apply exceeds_window_spec in Hex. lia.
Qed.

Lemma prepare_prompt_truncates_witness :
  context_window default_settings (model_or_default default_settings None)
  = 8192
  ∧ prepare_prompt default_settings (long_prompt (Z.to_nat 5000)) None = long_prompt (Z.to_nat 5000)
  ∧ prepare_prompt default_settings (long_prompt (Z.to_nat 8000)) None
    = long_prompt (Z.to_nat 7372) +:+ prompt_truncation_note
  ∧ prepare_prompt default_settings (long_prompt 4000)
      (Some "openai/gpt-3.5-turbo")
    = long_prompt 3686 +:+ prompt_truncation_note
  ∧ prepare_prompt default_settings "  Test prompt  " None = "Test prompt".
Proof.
  split.
  { refine (proj1 (proj1 (proj2 (proj2
              (prepare_prompt_truncates default_settings "x" None))) _)).
    reflexivity. }
  split.
  { refine (eq_trans
              (proj2 (proj2 (proj2 (proj2 (proj2 (proj2 (proj2
                (prepare_prompt_truncates default_settings
                   (long_prompt (Z.to_nat 5000)) None))))))) _) _).
    - vm_compute. discriminate.
    - vm_compute. reflexivity. }
  split.
  { refine (eq_trans
              (proj1 (proj1 (proj2 (proj2 (proj2 (proj2 (proj2 (proj2
                (prepare_prompt_truncates default_settings
                   (long_prompt (Z.to_nat 8000)) None))))))) _)) _).
    - vm_compute. reflexivity.
    - vm_compute. reflexivity. }
  split.
  { refine (eq_trans
              (proj1 (proj1 (proj2 (proj2 (proj2 (proj2 (proj2 (proj2
                (prepare_prompt_truncates default_settings
                   (long_prompt 4000) (Some "openai/gpt-3.5-turbo")))))))) _))
              _).
    - vm_compute. reflexivity.
    - vm_compute. reflexivity. }
  refine (proj2 (proj2 (proj2 (proj2 (proj2 (proj2 (proj2
            (prepare_prompt_truncates default_settings
               "  Test prompt  " None))))))) _).
  vm_compute. discriminate.
Defined.

(** ** Validation of the messages *)

Lemma prepare_messages_rejects env messages model_name :
  malformed_messages messages →
  ∃ msg, prepare_messages env messages model_name
         = Raised (BuiltinExn "ValueError" msg).
Proof.
  intros Hbad. unfold prepare_messages.
  destruct messages as [| | | | |msgs|]; try by eexists.
  destruct Hbad as (m & Hin & Hm).
  destruct (forallb well_formed_message msgs) eqn:Hall; [| by eexists].
  rewrite forallb_forall in Hall. specialize (Hall m Hin). congruence.
Qed.

Lemma exceeds_window_0 env model : exceeds_window (context_window env model) 0 = false.
Proof.
  destruct (exceeds_window _ 0) eqn:Hex; [| reflexivity].
  apply exceeds_window_spec in Hex.
  destruct (context_window_cases env model) as [H | [H | H]]; rewrite H in Hex; lia.
Qed.

(** The empty list passes: nothing is validated, nothing is truncated, and
    for a model of the [anthropic/] family the default system message is
    put in front. *)
Lemma prepare_messages_empty env model_name :
  prepare_messages env (PList []) model_name
  = Returned (if String.prefix "anthropic/" (model_or_default env model_name)
              then [default_system_message] else []).
Proof.
  unfold prepare_messages. cbn [forallb negb sum_content_len mbind result_bind
                                mret result_ret].
  rewrite exceeds_window_0. cbn [mbind result_bind mret result_ret existsb negb andb].
  by destruct (String.prefix _ _).
Qed.

(** C9 (as amended). The messages of a chat completion must be a list of
    dictionaries that each have the keys [role] and [content]: an argument
    that is not a list, or has an entry not of that form, fails validation
    with a [ValueError], and [generate_chat_completion] raises it without
    having sent a request. More generally no request is sent when
    [prepare_messages] raises. The empty list is not rejected. *)
Theorem malformed_messages_fail_before_any_request env self net messages
    model_name parameters :
  (malformed_messages messages →
     ∃ msg, generate_chat_completion env self net messages model_name parameters
            = Some (Raised (BuiltinExn "ValueError" msg), []))
  ∧ (∀ e, prepare_messages env messages model_name = Raised e →
          generate_chat_completion env self net messages model_name parameters
          = Some (Raised e, []))
  ∧ (∃ prepared, prepare_messages env (PList []) model_name = Returned prepared).
Proof.
  split; [| split].
  - intros Hbad.
    destruct (prepare_messages_rejects env messages model_name Hbad) as [msg Hmsg].
    exists msg. unfold generate_chat_completion. by rewrite Hmsg.
  - intros e He. unfold generate_chat_completion. by rewrite He.
  - rewrite prepare_messages_empty. by eexists.
Qed.

Lemma malformed_messages_fail_before_any_request_witness :
  ∃ msg, generate_chat_completion default_settings sample_adapter net_chat_ok
           messages_without_content None None
         = Some (Raised (BuiltinExn "ValueError" msg), []).
Proof.
  refine (proj1 (malformed_messages_fail_before_any_request default_settings
                   sample_adapter net_chat_ok messages_without_content None None)
                _).
  exists (PDict [("role", PStr "user")]). split; [by left | reflexivity].
Defined.

(** C9 as stated fails for the empty sequence: it passes validation, the
    request is sent with an empty list of messages, and the answer of the
    provider is returned. *)
Lemma empty_messages_are_sent :
  ∃ response url payload,
    generate_chat_completion default_settings sample_adapter net_chat_ok
      (PList []) None None
    = Some (Returned response, [Post url payload])
    ∧ payload !! "messages" = Some (PList []).
Proof.
  eexists _, _, _. split.
  - vm_compute. reflexivity.
  - vm_compute. reflexivity.
Qed.

(* ===================================================================== *)
(** * Further properties *)
(* ===================================================================== *)

(** ** The request loop, for any provider *)




Lemma prepare_parameters_default :
  prepare_parameters default_settings None None = Returned default_parameters.
Proof. vm_compute. reflexivity. Qed.





(** ** What [handle_error] raises *)



(** X4. Every exception [handle_error] raises carries the operation and
    the model name it was given. *)
Theorem handle_error_carries_context self error operation model_name :
  adapter_operation (handle_error self error operation model_name) = operation
  ∧ adapter_model_name (handle_error self error operation model_name) = model_name.
Proof.
  unfold handle_error.
  destruct (is_timeout error); [done |].
  destruct (is_connection_error error); [done |].
  destruct (is_http_error error || has_response_status error); [| done].
  cbn zeta. repeat case_bool_decide; cbn [orb]; try done.
  destruct (exn_response error) as [r|]; [| done].
  by destruct (content_filter_probe r operation model_name).
Qed.

Lemma kind_of_handle_error self error operation model_name :
  kind_of (handle_error self error operation model_name)
  = if is_timeout error then Timeout
    else if is_connection_error error then Generic
    else if is_http_error error || has_response_status error then
      if bool_decide (read_status_code error = Some 401)
         || bool_decide (read_status_code error = Some 403) then Authentication
      else if bool_decide (read_status_code error = Some 429) then RateLimit
      else Generic
    else Generic.
Proof.
  unfold handle_error.
  destruct (is_timeout error); [done |].
  destruct (is_connection_error error); [done |].
  destruct (is_http_error error || has_response_status error); [| done].
  cbn zeta.
  destruct (bool_decide (read_status_code error = Some 401)
            || bool_decide (read_status_code error = Some 403)); [done |].
  destruct (bool_decide (read_status_code error = Some 429)); [done |].
  destruct (bool_decide (read_status_code error = Some 400)); [| done].
  destruct (exn_response error) as [r|]; [| done].
  by destruct (content_filter_probe r operation model_name).
Qed.

(** X5. The order of the classification. A timeout is reported as a
    timeout even when it is also a connection error; the authentication
    and rate-limit errors are reported exactly for the exceptions that are
    neither a timeout nor a connection error, reach the HTTP branch and
    have the status 401 or 403, respectively 429; every other exception
    comes out as the generic error, and none as a content-filter error. *)
Theorem handle_error_kind self error operation model_name :
  let kind := kind_of (handle_error self error operation model_name) in
  let http_branch :=
    negb (is_timeout error) && negb (is_connection_error error)
    && (is_http_error error || has_response_status error) in
  (kind = Timeout ↔ is_timeout error = true)
  ∧ (kind = Authentication ↔
       http_branch = true
       ∧ (read_status_code error = Some 401 ∨ read_status_code error = Some 403))
  ∧ (kind = RateLimit ↔ http_branch = true ∧ read_status_code error = Some 429)
  ∧ kind ≠ ContentFilter.
Proof.
  intros kind http_branch. unfold kind, http_branch.
  rewrite kind_of_handle_error.
  destruct (is_timeout error); cbn [negb andb];
    [by repeat split; try intros [? _] |].
  destruct (is_connection_error error); cbn [negb andb];
    [by repeat split; try intros [? _] |].
  destruct (is_http_error error || has_response_status error);
    [| by repeat split; try intros [? _]].
  repeat case_bool_decide; cbn [orb];
    (split; [done |]); (split; [| split; [| done]]);
    (split; [intros Hk; first [done | split; [done | auto]] | intros [_ Hs]]);
    try done; try congruence; try (destruct Hs; congruence).
Qed.

(** ** What is sent *)

(** Every event of the loop is a request with the URL and the payload the
    loop was given, or a sleep. *)
Lemma retry_loop_events {A} self (attempt : nat → result A) url payload
    operation model_name fuel retries r events :
  retry_loop self attempt url payload operation model_name fuel retries
  = Some (r, events) →
  ∀ u p, In (Post u p) events → u = url ∧ p = payload.
Proof.
  revert retries r events.
  induction fuel as [|fuel IH]; intros retries r events; [discriminate |].
  cbn [retry_loop]. destruct (attempt (Z.to_nat retries)) as [a|error].
  - intros [= <- <-] u p [[= <- <-] | []]. done.
  - destruct (retries + 1 <=? max_retries self).
    + destruct (time_sleep _);
        [| intros [= <- <-] u p [[= <- <-] | []]; done].
      destruct (retry_loop _ _ _ _ _ _ fuel _) as [[r' events']|] eqn:Hloop;
        [| discriminate].
      cbn. intros [= <- <-] u p [[= <- <-] | [[=] | Hin]]; [done |].
      by apply (IH _ _ _ Hloop).
    + intros [= <- <-] u p [[= <- <-] | []]. done.
Qed.

Lemma lookup_request_payload (params base : gmap string pyval) k :
  base !! k = None → (params ∪ base) !! k = params !! k.
Proof.
  intros Hbase. destruct (params !! k) as [v|] eqn:Hk.
  - by apply lookup_union_Some_l.
  - apply lookup_union_None. done.
Qed.

Lemma prepare_parameters_in_range env parameters model_name p :
  prepare_parameters env parameters model_name = Returned p →
  temperature_in_range p ∧ top_p_in_range p.
Proof. unfold prepare_parameters. apply clamp_parameters_returns. Qed.

(** X6. Every request [generate_text] or [generate_chat_completion] sends,
    the first one and each retry, goes to the endpoint of the method and
    carries a payload whose [temperature], when present, is a number in
    [0, 2] and whose [top_p], when present, is a number in (0, 1],
    whatever the caller passed as parameters. *)
Theorem requests_carry_parameters_in_range env self net model_name parameters
    r events u payload :
  In (Post u payload) events →
  (∀ prompt,
     generate_text env self net prompt model_name parameters = Some (r, events) →
     u = completion_url self
     ∧ temperature_in_range payload ∧ top_p_in_range payload)
  ∧ (∀ messages,
       generate_chat_completion env self net messages model_name parameters
       = Some (r, events) →
       u = chat_url self
       ∧ temperature_in_range payload ∧ top_p_in_range payload).
Proof.
  intros Hin. split.
  - intros prompt Hout. unfold generate_text in Hout.
    destruct (prepare_parameters env parameters model_name) as [p|e] eqn:Hp.
    + destruct (retry_loop_events _ _ _ _ _ _ _ _ _ _ Hout u payload Hin)
        as [-> ->].
      destruct (prepare_parameters_in_range _ _ _ _ Hp) as [Ht Htp].
      split; [done |].
      unfold temperature_in_range, top_p_in_range, completion_payload.
      rewrite !lookup_request_payload; done.
    + injection Hout as <- <-. destruct Hin.
  - intros messages Hout. unfold generate_chat_completion in Hout.
    destruct (prepare_messages env messages model_name) as [msgs|e];
      [| injection Hout as <- <-; destruct Hin].
    destruct (prepare_parameters env parameters model_name) as [p|e] eqn:Hp.
    + destruct (retry_loop_events _ _ _ _ _ _ _ _ _ _ Hout u payload Hin)
        as [-> ->].
      destruct (prepare_parameters_in_range _ _ _ _ Hp) as [Ht Htp].
      split; [done |].
      unfold temperature_in_range, top_p_in_range.
      rewrite !lookup_request_payload; done.
    + injection Hout as <- <-. destruct Hin.
Qed.

Lemma prepare_parameters_wild :
  prepare_parameters default_settings (Some wild_parameters) None
  = Returned (<["top_p" := PFloat float_0_01]>
                (<["temperature" := PInt 2]>
                   (wild_parameters ∪ default_parameters))).
Proof.
  unfold prepare_parameters.
  change (model_config default_settings (model_or_default default_settings None))
    with (model_config default_settings "openai/gpt-4").
  fold default_parameters.
  rewrite bool_decide_eq_false_2 by (by vm_compute).
  unfold clamp_parameters.
  rewrite (clamp_temperature_number _ (PFloat (Qc_of_Z 5)) (Qc_of_Z 5))
    by (done || by vm_compute).
  rewrite decide_False by (intros [_ H]; by vm_compute in H).
  rewrite decide_False by (intros H; by vm_compute in H).
  cbn [mbind result_bind].
  rewrite (clamp_top_p_number _ (PInt 0) (Qc_of_Z 0))
    by (done || by vm_compute).
  rewrite decide_False by (intros [H _]; by vm_compute in H).
  rewrite decide_True by (by vm_compute).
  reflexivity.
Qed.

Lemma generate_text_wild_trace :
  generate_text default_settings sample_adapter net_flaky "Test prompt" None
    (Some wild_parameters)
  = Some (Returned (PStr "This is a mock response"),
          retry_trace sample_adapter (completion_url sample_adapter)
            (completion_payload None
               (prepare_prompt default_settings "Test prompt" None)
               (<["top_p" := PFloat float_0_01]>
                  (<["temperature" := PInt 2]>
                     (wild_parameters ∪ default_parameters)))) 1).
Proof. unfold generate_text. rewrite prepare_parameters_wild. reflexivity. Qed.

Lemma requests_carry_parameters_in_range_witness :
  temperature_in_range
    (completion_payload None
       (prepare_prompt default_settings "Test prompt" None)
       (<["top_p" := PFloat float_0_01]>
          (<["temperature" := PInt 2]>
             (wild_parameters ∪ default_parameters)))).
Proof.
  refine (proj1 (proj2 (proj1
    (requests_carry_parameters_in_range default_settings sample_adapter
       net_flaky None (Some wild_parameters) _ _
       (completion_url sample_adapter) _ _)
    "Test prompt" generate_text_wild_trace))).
  unfold retry_trace. cbn. left. reflexivity.
Defined.

(** ** Parameters that are not numbers *)

Lemma clamp_temperature_raises p e :
  clamp_temperature p = Raised e → e = BuiltinExn "TypeError" empty_str.
Proof.
  destruct (p !! "temperature") as [t|] eqn:Hp.
  - destruct (as_number t) as [q|] eqn:Hq.
    + by rewrite (clamp_temperature_number p t q).
    + rewrite (clamp_temperature_not_number p t) by done. by intros [= <-].
  - unfold clamp_temperature. by rewrite Hp.
Qed.

Lemma clamp_parameters_not_number p k t :
  k = "temperature" ∨ k = "top_p" →
  p !! k = Some t → as_number t = None →
  clamp_parameters p = raise_builtin "TypeError".
Proof.
  intros [-> | ->] Hp Hq; unfold clamp_parameters.
  - by rewrite (clamp_temperature_not_number p t).
  - destruct (clamp_temperature p) as [p1|e] eqn:H1.
    + cbn [mbind result_bind].
      destruct (clamp_temperature_returns _ _ H1) as [_ Hsame].
      apply (clamp_top_p_not_number p1 t); [| done].
      by rewrite Hsame.
    + by rewrite (clamp_temperature_raises _ _ H1).
Qed.

Lemma prepare_parameters_not_number env user model_name k t :
  k = "temperature" ∨ k = "top_p" →
  user !! k = Some t → as_number t = None →
  prepare_parameters env (Some user) model_name = raise_builtin "TypeError".
Proof.
  intros Hk Hu Hq. unfold prepare_parameters.
  rewrite bool_decide_eq_false_2.
  - apply (clamp_parameters_not_number _ k t); [done | | done].
    by apply lookup_union_Some_l.
  - intros Hsize. apply map_size_empty_iff in Hsize. subst user.
    by rewrite lookup_empty in Hu.
Qed.

(** X7. The range checks compare with numbers, so a [temperature] or a
    [top_p] given by the caller that is not a number (a string, [None], a
    list) makes the comparison raise [TypeError]: [generate_text] ends with
    that [TypeError], not wrapped by [handle_error], and
    [generate_chat_completion] with it or with the [ValueError] of its
    messages; in both cases no request is sent and nothing is retried. *)
Theorem non_numeric_parameter_raises_before_any_request env self net model_name
    user k t :
  k = "temperature" ∨ k = "top_p" →
  user !! k = Some t → as_number t = None →
  (∀ prompt,
     generate_text env self net prompt model_name (Some user)
     = Some (raise_builtin "TypeError", []))
  ∧ (∀ messages,
       ∃ e, generate_chat_completion env self net messages model_name (Some user)
            = Some (Raised e, [])
            ∧ (e = BuiltinExn "TypeError" empty_str
               ∨ prepare_messages env messages model_name = Raised e)).
Proof.
  intros Hk Hu Hq.
  pose proof (prepare_parameters_not_number env user model_name k t Hk Hu Hq)
    as Hp.
  split.
  - intros prompt. unfold generate_text. by rewrite Hp.
  - intros messages. unfold generate_chat_completion.
    destruct (prepare_messages env messages model_name) as [msgs|e].
    + rewrite Hp. eexists. split; [reflexivity | by left].
    + exists e. split; [reflexivity | by right].
Qed.

Lemma non_numeric_parameter_raises_before_any_request_witness :
  generate_text default_settings sample_adapter net_chat_ok "Test prompt" None
    (Some parameters_with_text_temperature)
  = Some (raise_builtin "TypeError", []).
Proof.
  refine (proj1 (non_numeric_parameter_raises_before_any_request
                   default_settings sample_adapter net_chat_ok None
                   parameters_with_text_temperature "temperature" (PStr "hot")
                   _ _ _) "Test prompt").
  - by left.
  - reflexivity.
  - reflexivity.
Defined.

(** ** Chat completions *)


Lemma prepare_messages_hello :
  prepare_messages default_settings hello_messages None
  = Returned [hello_message].
Proof. vm_compute. reflexivity. Qed.


(** ** Bodies without choices *)

Lemma format_usage_dict d :
  (∃ usage, format_usage (PDict d) = Returned usage)
  ∨ (∃ u, dict_get d "usage" = Some u
          ∧ format_usage (PDict d) = raise_builtin "AttributeError").
Proof.
  unfold format_usage. cbn [py_contains mbind result_bind py_getitem].
  destruct (dict_get d "usage") as [u|] eqn:Hu.
  - rewrite bool_decide_eq_true_2 by done. cbn [mbind result_bind].
    destruct u; cbn; eauto.
  - rewrite bool_decide_eq_false_2 by (by intros [? ?]). cbn. eauto.
Qed.

(** X9. The two formatters read [choices] with the default [[{}]], which
    covers an absent key only. A body without the key is formatted with
    the defaults: the empty text, respectively the empty assistant
    message, the model name of the call unless the body names one, and no
    finish reason. A body whose [choices] is the empty list makes both
    raise, [IndexError] unless the usage already failed, although
    [format_chat_response] guards the message against that very case. *)
Theorem format_response_choices_edge d model_name :
  (dict_get d "choices" = None →
   ∀ usage, format_usage (PDict d) = Returned usage →
     let metadata :=
       PDict [("model", default (model_field model_name) (dict_get d "model"));
              ("provider", PStr "openrouter"); ("finish_reason", PNone)] in
     format_response (PDict d) model_name
     = Returned (PDict [("text", PStr empty_str); ("usage", usage);
                        ("metadata", metadata)])
     ∧ format_chat_response (PDict d) model_name
       = Returned (PDict [("message",
                           PDict [("role", PStr "assistant");
                                  ("content", PStr empty_str)]);
                          ("usage", usage); ("metadata", metadata)]))
  ∧ (dict_get d "choices" = Some (PList []) →
     (∃ e, format_response (PDict d) model_name = Raised e)
     ∧ (∃ e, format_chat_response (PDict d) model_name = Raised e)
     ∧ ∀ usage, format_usage (PDict d) = Returned usage →
         format_response (PDict d) model_name = raise_builtin "IndexError"
         ∧ format_chat_response (PDict d) model_name
           = raise_builtin "IndexError").
Proof.
  split.
  - intros Hc usage Hu metadata. unfold format_response, format_chat_response,
      finish_reason.
    rewrite Hu. cbn [mbind result_bind py_get py_contains py_getitem].
    rewrite Hc. rewrite bool_decide_eq_false_2 by (by intros [? ?]).
    cbn. done.
  - intros Hc.
    assert (Hidx : ∀ usage, format_usage (PDict d) = Returned usage →
              format_response (PDict d) model_name = raise_builtin "IndexError"
              ∧ format_chat_response (PDict d) model_name
                = raise_builtin "IndexError").
    { intros usage Hu. unfold format_response, format_chat_response,
        finish_reason.
      rewrite Hu. cbn [mbind result_bind py_get py_contains py_getitem].
      rewrite Hc. rewrite bool_decide_eq_true_2 by done. cbn. done. }
    destruct (format_usage_dict d) as [[usage Hu] | (u & _ & Hu)].
    + destruct (Hidx usage Hu) as [H1 H2].
      split; [rewrite H1; by eexists |].
      split; [rewrite H2; by eexists |]. exact Hidx.
    + split; [unfold format_response; rewrite Hu; by eexists |].
      split; [unfold format_chat_response; rewrite Hu; by eexists |].
      exact Hidx.
Qed.

Lemma format_response_choices_edge_witness :
  format_response (PDict [("choices", PList [])]) None
  = raise_builtin "IndexError"
  ∧ format_chat_response (PDict [("choices", PList [])]) None
    = raise_builtin "IndexError".
Proof.
  refine (proj2 (proj2 (proj2 (format_response_choices_edge
                                 [("choices", PList [])] None) _)) empty_dict _).
  - reflexivity.
  - reflexivity.
Defined.

(** X10. The two generation methods treat a body without [choices]
    differently. [generate_text] counts it as a failure and retries;
    [generate_chat_completion] accepts it: when the first answer is a
    dictionary without [choices] whose usage can be read, the call returns
    after that single request, with the empty assistant message. *)
Theorem generate_chat_completion_accepts_body_without_choices env self net
    messages model_name parameters msgs p d usage :
  let url := chat_url self in
  let payload := chat_payload model_name msgs p in
  prepare_messages env messages model_name = Returned msgs →
  prepare_parameters env parameters model_name = Returned p →
  net 0%nat url payload = Returned (PDict d) →
  dict_get d "choices" = None →
  format_usage (PDict d) = Returned usage →
  generate_chat_completion env self net messages model_name parameters
  = Some (Returned
            (PDict [("message", PDict [("role", PStr "assistant");
                                       ("content", PStr empty_str)]);
                    ("usage", usage);
                    ("metadata",
                     PDict [("model",
                             default (model_field model_name)
                               (dict_get d "model"));
                            ("provider", PStr "openrouter");
                            ("finish_reason", PNone)])]),
          [Post url payload]).
Proof.
  intros url payload Hm Hp Hnet Hc Hu. unfold generate_chat_completion.
  rewrite Hm, Hp. fold (chat_url self). fold (chat_payload model_name msgs p).
  fold url. fold payload. unfold loop_fuel. cbn [retry_loop].
  change (Z.to_nat 0) with 0%nat. rewrite Hnet. cbn [mbind result_bind].
  unfold chat_attempt, format_chat_response, finish_reason.
  rewrite Hu. cbn [mbind result_bind py_get py_contains py_getitem].
  rewrite Hc. rewrite bool_decide_eq_false_2 by (by intros [? ?]).
  cbn. done.
Qed.

Lemma generate_chat_completion_accepts_body_without_choices_witness :
  generate_chat_completion default_settings sample_adapter net_empty_body
    hello_messages None None
  = Some (Returned
            (PDict [("message", PDict [("role", PStr "assistant");
                                       ("content", PStr empty_str)]);
                    ("usage", empty_dict);
                    ("metadata",
                     PDict [("model", PNone);
                            ("provider", PStr "openrouter");
                            ("finish_reason", PNone)])]),
          [Post (chat_url sample_adapter)
             (chat_payload None [hello_message] default_parameters)]).
Proof.
  apply (generate_chat_completion_accepts_body_without_choices
           default_settings sample_adapter net_empty_body hello_messages None
           None [hello_message] default_parameters [] empty_dict).
  - exact prepare_messages_hello.
  - exact prepare_parameters_default.
  - reflexivity.
  - reflexivity.
  - reflexivity.
Defined.

(** ** Conversations that do not fit the window *)

Lemma dict_get_set_ne d k k' v :
  k ≠ k' → dict_get (dict_set d k v) k' = dict_get d k'.
Proof.
  intros Hne. induction d as [|[k0 v0] d IH]; cbn [dict_set dict_get].
  - by rewrite bool_decide_eq_false_2.
  - destruct (decide (k0 = k)) as [->|Hk].
    + rewrite bool_decide_eq_true_2 by done. cbn [dict_get].
      by rewrite !bool_decide_eq_false_2.
    + rewrite (bool_decide_eq_false_2 (k0 = k)) by done. cbn [dict_get].
      by rewrite IH.
Qed.

Lemma is_system_message_set_content d v :
  is_system_message (PDict (dict_set d "content" v))
  = is_system_message (PDict d).
Proof. unfold is_system_message. by rewrite dict_get_set_ne. Qed.

Lemma drop_oldest_suffix limit system_length others remaining others' remaining' :
  drop_oldest limit system_length others remaining
  = Returned (others', remaining') →
  ∃ dropped, others = (dropped ++ others')%list.
Proof.
  revert remaining.
  induction others as [|m rest IH]; intros remaining; cbn [drop_oldest].
  - intros [= <- <-]. by exists [].
  - destruct (remaining <=? 0).
    + destruct (sum_content_len rest) as [n|e]; cbn [mbind result_bind];
        [| discriminate].
      intros Hdrop. destruct (IH _ Hdrop) as [dropped ->].
      by exists (m :: dropped).
    + intros [= <- <-]. by exists [].
Qed.

Lemma truncate_oldest_head others remaining others' :
  truncate_oldest others remaining = Returned others' →
  others' = others
  ∨ ∃ d s rest,
      others = PDict d :: rest
      ∧ others' = PDict (dict_set d "content"
                           (PStr (s +:+ message_truncation_note))) :: rest.
Proof.
  destruct others as [|m rest]; [intros [= <-]; by left |].
  unfold truncate_oldest.
  destruct (sum_content_len (m :: rest)) as [total|e];
    cbn [mbind result_bind]; [| discriminate].
  destruct (remaining <? total); [| intros [= <-]; by left].
  destruct (py_getitem m "content") as [content|e];
    cbn [mbind result_bind]; [| discriminate].
  destruct (sum_content_len rest) as [rest_len|e];
    cbn [mbind result_bind]; [| discriminate].
  destruct m as [| | | | | | d]; try discriminate.
  destruct content as [| | | | s | |]; try discriminate.
  intros [= <-]. right. by eexists d, _, rest.
Qed.

Lemma filter_filter_negb {A} (f : A → bool) l :
  List.filter (λ x, negb (f x)) (List.filter f l) = [].
Proof.
  induction l as [|x l IH]; [done |]. cbn [List.filter].
  destruct (f x) eqn:Hx; [| done]. cbn [List.filter]. by rewrite Hx.
Qed.

Lemma filter_negb_filter {A} (f : A → bool) l :
  List.filter f (List.filter (λ x, negb (f x)) l) = [].
Proof.
  induction l as [|x l IH]; [done |]. cbn [List.filter].
  destruct (f x) eqn:Hx; [done |]. cbn [List.filter negb]. by rewrite Hx.
Qed.

Lemma filter_idem {A} (f : A → bool) l :
  List.filter f (List.filter f l) = List.filter f l.
Proof.
  induction l as [|x l IH]; [done |]. cbn [List.filter].
  destruct (f x) eqn:Hx; [| done]. cbn [List.filter]. by rewrite Hx, IH.
Qed.

Lemma existsb_filter {A} (f : A → bool) l :
  existsb f l = match List.filter f l with [] => false | _ => true end.
Proof.
  induction l as [|x l IH]; [done |]. cbn [existsb List.filter].
  by destruct (f x).
Qed.

(** The list assembled in the branch of [prepare_messages] for a
    conversation that exceeds the window. *)
Lemma optimized_messages_parts msgs limit system_length r0 others r1 truncated :
    drop_oldest limit system_length (other_messages msgs) r0
    = Returned (others, r1) →
    truncate_oldest others r1 = Returned truncated →
    List.filter is_system_message
      (List.filter is_system_message msgs ++ truncated)
    = List.filter is_system_message msgs
    ∧ ∃ dropped kept,
        other_messages msgs = (dropped ++ kept)%list
        ∧ (other_messages
             (List.filter is_system_message msgs ++ truncated) = kept
           ∨ ∃ d s rest,
               kept = PDict d :: rest
               ∧ other_messages
                   (List.filter is_system_message msgs ++ truncated)
                 = PDict (dict_set d "content"
                            (PStr (s +:+ message_truncation_note))) :: rest).
Proof.
  intros Hdrop Htrunc.
  destruct (drop_oldest_suffix _ _ _ _ _ _ Hdrop) as [dropped Hsplit].
  assert (Hall : Forall (λ m, is_system_message m = false) others).
  { assert (Forall (λ m, is_system_message m = false) (other_messages msgs))
      as Hall.
    { apply List.Forall_forall. intros m Hm.
      apply List.filter_In in Hm as [_ Hm].
      by apply negb_true_iff. }
    rewrite Hsplit in Hall. by apply Forall_app in Hall as [_ Hall]. }
  assert (Hothers : other_messages others = others
                    ∧ List.filter is_system_message others = []).
  { clear -Hall. unfold other_messages.
    induction Hall as [|m l Hm _ [IH1 IH2]]; [done |].
    cbn [List.filter]. rewrite Hm. cbn [negb]. by rewrite IH1, IH2. }
  destruct Hothers as [Hkeep Hnone].
  unfold other_messages in *. rewrite !List.filter_app.
  rewrite filter_idem, filter_filter_negb. cbn [app].
  destruct (truncate_oldest_head _ _ _ Htrunc)
    as [-> | (d & s & rest & -> & ->)].
  - rewrite Hnone, Hkeep, app_nil_r. split; [done |].
    exists dropped, others. split; [done | by left].
  - cbn [List.filter] in *. rewrite is_system_message_set_content.
    destruct (is_system_message (PDict d)) eqn:Hd; cbn [negb] in *.
    + apply Forall_cons in Hall as [Hall _]. congruence.
    + injection Hkeep as Hkeep. rewrite Hnone, Hkeep, app_nil_r.
      split; [done |]. exists dropped, (PDict d :: rest).
      split; [done |]. right. by exists d, s, rest.
Qed.

(** The last step of [prepare_messages]: the default system message. *)
Lemma default_system_message_added optimized model out :
  (if negb (existsb is_system_message optimized)
      && String.prefix "anthropic/" model
   then Returned (default_system_message :: optimized)
   else Returned optimized) = Returned out →
  List.filter is_system_message out
  = (if existsb is_system_message optimized
     then List.filter is_system_message optimized
     else if String.prefix "anthropic/" model
          then [default_system_message] else [])
  ∧ other_messages out = other_messages optimized
  ∧ (out = optimized ∨ out = default_system_message :: optimized).
Proof.
  rewrite (existsb_filter _ optimized).
  destruct (List.filter is_system_message optimized) as [|m l] eqn:Hsys;
    cbn [negb andb].
  - destruct (String.prefix "anthropic/" model); intros [= <-].
    + cbn [List.filter]. change (is_system_message default_system_message)
        with true. cbn [negb]. rewrite Hsys.
      split; [done |]. split; [done | by right].
    + rewrite Hsys. split; [done |]. split; [done | by left].
  - intros [= <-]. rewrite Hsys. split; [done |]. split; [done | by left].
Qed.

(** X11. What [prepare_messages] does to an accepted conversation. The
    system messages are all kept, unchanged and in their order; when there
    is none, the default system message is added for the models of
    [anthropic/] and only for those. Of the other messages only the
    oldest ones are dropped: what is returned is a suffix of them, whose
    first message may have had its content cut and the truncation note
    appended; every later message is returned as it was. A conversation
    within the window is returned whole, in its order; one that exceeds it
    is returned with the system messages moved to the front. *)
Theorem prepare_messages_keeps_system_and_drops_oldest env msgs model_name out :
  prepare_messages env (PList msgs) model_name = Returned out →
  List.filter is_system_message out
  = (if existsb is_system_message msgs
     then List.filter is_system_message msgs
     else if String.prefix "anthropic/" (model_or_default env model_name)
          then [default_system_message] else [])
  ∧ (∃ dropped kept,
       other_messages msgs = (dropped ++ kept)%list
       ∧ (other_messages out = kept
          ∨ ∃ d s rest,
              kept = PDict d :: rest
              ∧ other_messages out
                = PDict (dict_set d "content"
                           (PStr (s +:+ message_truncation_note))) :: rest))
  ∧ (∀ total, sum_content_len msgs = Returned total →
       if exceeds_window
            (context_window env (model_or_default env model_name)) total
       then out = (List.filter is_system_message out ++ other_messages out)%list
       else out = msgs ∨ out = default_system_message :: msgs).
Proof.
  intros Hprep. unfold prepare_messages in Hprep.
  destruct (forallb well_formed_message msgs); cbn [negb] in Hprep;
    [| discriminate].
  destruct (sum_content_len msgs) as [total|e]; cbn [mbind result_bind] in Hprep;
    [| discriminate].
  destruct (exceeds_window _ total) eqn:Hex.
  - destruct (sum_content_len (List.filter is_system_message msgs))
      as [system_length|e]; cbn [mbind result_bind] in Hprep; [| discriminate].
    fold (other_messages msgs) in Hprep.
    destruct (drop_oldest _ _ _ _) as [[others r1]|e] eqn:Hdrop;
      cbn [mbind result_bind] in Hprep; [| discriminate].
    destruct (truncate_oldest others r1) as [truncated|e] eqn:Htrunc;
      cbn [mbind result_bind mret result_ret] in Hprep; [| discriminate].
    destruct (optimized_messages_parts _ _ _ _ _ _ _ Hdrop Htrunc)
      as (Hsys & dropped & kept & Hsplit & Hkept).
    apply default_system_message_added in Hprep as (Hout & Hother & Hshape).
    rewrite (existsb_filter _ (_ ++ _)), Hsys, <-existsb_filter in Hout.
    rewrite <-Hother in Hkept.
    split; [exact Hout |]. split; [by exists dropped, kept |].
    intros total' [= <-]. rewrite Hex. rewrite Hother.
    assert (Htr : other_messages
                    (List.filter is_system_message msgs ++ truncated)
                  = truncated).
    { unfold other_messages. rewrite List.filter_app, filter_filter_negb.
      cbn [app]. fold (other_messages truncated).
      assert (List.filter is_system_message truncated = []) as Hnone.
      { rewrite List.filter_app, filter_idem in Hsys.
        rewrite <-(app_nil_r (List.filter is_system_message msgs)) in Hsys
          at 2.
        by apply app_inv_head in Hsys. }
      clear -Hnone. unfold other_messages.
      induction truncated as [|m l IH]; [done |]. cbn [List.filter] in *.
      destruct (is_system_message m); [discriminate |]. cbn [negb].
      by rewrite IH. }
    rewrite Htr. destruct Hshape as [-> | ->].
    + by rewrite Hsys.
    + cbn [List.filter]. change (is_system_message default_system_message)
        with true. rewrite Hsys.
      by destruct (List.filter is_system_message msgs).
  - cbn [mbind result_bind mret result_ret] in Hprep.
    apply default_system_message_added in Hprep as (Hout & Hother & Hshape).
    split; [exact Hout |]. split.
    + exists [], (other_messages msgs). split; [done | by left].
    + intros total' [= <-]. by rewrite Hex.
Qed.

Lemma prepare_messages_long_conversation :
  prepare_messages default_settings (PList long_conversation)
    (Some "openai/gpt-3.5-turbo")
  = Returned truncated_conversation.
Proof. vm_compute. reflexivity. Qed.

Lemma prepare_messages_keeps_system_and_drops_oldest_witness :
  List.filter is_system_message truncated_conversation
  = (if existsb is_system_message long_conversation
     then List.filter is_system_message long_conversation
     else if String.prefix "anthropic/"
               (model_or_default default_settings (Some "openai/gpt-3.5-turbo"))
          then [default_system_message] else []).
Proof.
  exact (proj1 (prepare_messages_keeps_system_and_drops_oldest default_settings
                  long_conversation (Some "openai/gpt-3.5-turbo")
                  truncated_conversation prepare_messages_long_conversation)).
Defined.

(** ** Defaults and overrides of the parameters *)

(** X12. The parameters [prepare_parameters] returns are the defaults of
    the model with the caller's parameters laid over them: apart from
    [temperature] and [top_p], which the range checks may replace, a key
    the caller gives has the caller's value, and a key the caller does not
    give has the default of the model. The entries [context_window] and
    [capabilities] of the configuration are never among the defaults, so
    they are returned only when the caller passes them. *)
Theorem prepare_parameters_overrides_defaults env user model_name p :
  prepare_parameters env (Some user) model_name = Returned p →
  ∀ k, k ≠ "temperature" → k ≠ "top_p" →
    (∀ v, user !! k = Some v → p !! k = Some v)
    ∧ (user !! k = None →
       p !! k = if bool_decide (k = "context_window")
                   || bool_decide (k = "capabilities") then None
                else model_config env (model_or_default env model_name) !! k).
Proof.
  unfold prepare_parameters, clamp_parameters. intros Hprep k Ht Hp.
  set (defaults := delete "capabilities" (delete "context_window" _)) in *.
  set (merged := if bool_decide (size user = 0%nat) then defaults
                 else user ∪ defaults) in *.
  destruct (clamp_temperature merged) as [p1|e] eqn:H1; [| discriminate].
  cbn [mbind result_bind] in Hprep.
  destruct (clamp_temperature_returns _ _ H1) as [_ Hsame1].
  destruct (clamp_top_p_returns _ _ Hprep) as [_ Hsame2].
  rewrite Hsame2, Hsame1 by done.
  assert (Hdef : defaults !! k
                 = if bool_decide (k = "context_window")
                      || bool_decide (k = "capabilities") then None
                   else model_config env (model_or_default env model_name) !! k).
  { unfold defaults. repeat case_bool_decide; subst; cbn [orb].
    - by rewrite lookup_delete_ne, lookup_delete_eq.
    - by rewrite lookup_delete_ne, lookup_delete_eq.
    - by rewrite lookup_delete_eq.
    - by rewrite !lookup_delete_ne. }
  unfold merged. destruct (bool_decide (size user = 0%nat)) eqn:Hsize.
  - apply bool_decide_eq_true, map_size_empty_iff in Hsize. subst user. split.
    + intros v Hv. by rewrite lookup_empty in Hv.
    + done.
  - split.
    + intros v Hv. by apply lookup_union_Some_l.
    + intros Hnone. rewrite <-Hdef. by apply lookup_union_r.
Qed.

Lemma prepare_parameters_custom :
  prepare_parameters default_settings (Some custom_parameters) None
  = Returned (custom_parameters ∪ default_parameters).
Proof.
  unfold prepare_parameters.
  change (model_config default_settings (model_or_default default_settings None))
    with (model_config default_settings "openai/gpt-4").
  fold default_parameters.
  rewrite bool_decide_eq_false_2 by (by vm_compute).
  apply clamp_parameters_in_range.
  - intros v Hv. rewrite lookup_union_r in Hv by done.
    vm_compute in Hv. injection Hv as <-. eexists. split; [reflexivity |].
    split; by vm_compute.
  - intros v Hv. rewrite lookup_union_r in Hv by done.
    vm_compute in Hv. injection Hv as <-. eexists. split; [reflexivity |].
    split; by vm_compute.
Qed.

Lemma prepare_parameters_overrides_defaults_witness :
  (custom_parameters ∪ default_parameters) !! "max_tokens" = Some (PInt 50).
Proof.
  refine (proj1 (prepare_parameters_overrides_defaults default_settings
                   custom_parameters None _ prepare_parameters_custom
                   "max_tokens" _ _) (PInt 50) _).
  - done.
  - done.
  - reflexivity.
Defined.

(** ** The mock adapter *)

(** X13. A response registered with [set_response] is found through the
    prepared prompt, not the prompt as given: while the adapter is not in
    failure mode, [generate_text] returns the registered response exactly
    for the prompts whose prepared form (stripped, cut to the window) is
    the key, and answers every other prompt as before; after [close] no
    response is registered and every prompt gets the text made from the
    prepared prompt. *)
Theorem mock_set_response_round_trip env self key response prompt model_name :
  MockModelAdapter.failure self = None →
  MockModelAdapter.generate_text env
    (MockModelAdapter.set_response self key response) prompt model_name
  = (if bool_decide (prepare_prompt env prompt model_name = key)
     then (_ ← py_sliceable response; mret response)
     else MockModelAdapter.generate_text env self prompt model_name)
  ∧ MockModelAdapter.generate_text env (MockModelAdapter.close self)
      prompt model_name
    = Returned (PStr ("Mock response for: "
                      +:+ prepare_prompt env prompt model_name)).
Proof.
  intros Hfail. unfold MockModelAdapter.generate_text.
  change (MockModelAdapter.failure (MockModelAdapter.set_response self key response))
    with (MockModelAdapter.failure self).
  change (MockModelAdapter.failure (MockModelAdapter.close self))
    with (MockModelAdapter.failure self).
  rewrite Hfail. cbn [MockModelAdapter.set_response MockModelAdapter.close
                      MockModelAdapter._responses].
  split.
  - case_bool_decide as Hkey.
    + by rewrite <-Hkey, lookup_insert_eq.
    + by rewrite lookup_insert_ne.
  - by rewrite lookup_empty.
Qed.

Lemma mock_set_response_round_trip_witness :
  MockModelAdapter.generate_text default_settings
    (MockModelAdapter.set_response fresh_mock "Hello" (PStr "Hi there"))
    "  Hello  " None
  = (if bool_decide (prepare_prompt default_settings "  Hello  " None = "Hello")
     then (_ ← py_sliceable (PStr "Hi there"); mret (PStr "Hi there"))
     else MockModelAdapter.generate_text default_settings fresh_mock
            "  Hello  " None).
Proof.
  refine (proj1 (mock_set_response_round_trip default_settings fresh_mock
                   "Hello" (PStr "Hi there") "  Hello  " None _)).
  reflexivity.
Defined.

(** X14. The failure mode needs both the flag and an exception. Once
    [set_failure_mode] has been given an exception with the flag on, both
    generation methods raise it for every input, before looking at the
    input; the exception is remembered when the mode is switched off and
    on again without one; and switching the flag on when no exception was
    ever given changes nothing. *)
Theorem mock_failure_mode env self e prompt messages model_name :
  let failing := MockModelAdapter.set_failure_mode self true (Some e) in
  let resumed :=
    MockModelAdapter.set_failure_mode
      (MockModelAdapter.set_failure_mode failing false None) true None in
  MockModelAdapter.generate_text env failing prompt model_name = Raised e
  ∧ MockModelAdapter.generate_chat_completion env failing messages model_name
    = Raised e
  ∧ MockModelAdapter.generate_text env resumed prompt model_name = Raised e
  ∧ (MockModelAdapter._failure_exception self = None →
     MockModelAdapter.generate_text env
       (MockModelAdapter.set_failure_mode self true None) prompt model_name
     = MockModelAdapter.generate_text env
         (MockModelAdapter.set_failure_mode self false None) prompt model_name).
Proof.
  intros failing resumed. repeat split; try reflexivity.
  intros Hnone. unfold MockModelAdapter.generate_text, MockModelAdapter.failure.
  cbn. by rewrite Hnone.
Qed.

Lemma mock_failure_mode_witness :
  MockModelAdapter.generate_text default_settings
    (MockModelAdapter.set_failure_mode fresh_mock true None) "Hello" None
  = MockModelAdapter.generate_text default_settings
      (MockModelAdapter.set_failure_mode fresh_mock false None) "Hello" None.
Proof.
  refine (proj2 (proj2 (proj2
    (mock_failure_mode default_settings fresh_mock
       (BuiltinExn "RuntimeError" "down") "Hello" hello_messages None))) _).
  reflexivity.
Defined.

Lemma last_user_message_returns msgs v :
  MockModelAdapter.last_user_message msgs = Returned v →
  v = PNone ∨ ∃ d, In (PDict d) msgs
                   ∧ dict_get d "role" = Some (PStr "user")
                   ∧ v = default PNone (dict_get d "content").
Proof.
  induction msgs as [|msg rest IH]; cbn [MockModelAdapter.last_user_message].
  - intros [= <-]. by left.
  - destruct msg as [| | | | | | d]; try discriminate.
    cbn [py_get mbind result_bind].
    destruct (dict_get d "role") as [role|] eqn:Hrole;
      cbn [default from_option id].
    + destruct (is_str "user" role) eqn:Huser.
      * intros [= <-]. right. exists d. split; [by left |].
        destruct role; try discriminate. cbn in Huser.
        apply bool_decide_eq_true in Huser. by subst.
      * intros Hrest. destruct (IH Hrest) as [-> | (d' & Hin & Hd)];
          [by left |]. right. exists d'. split; [by right | done].
    + cbn [is_str]. intros Hrest.
      destruct (IH Hrest) as [-> | (d' & Hin & Hd)]; [by left |].
      right. exists d'. split; [by right | done].
Qed.

(** X15. The mock chat completion answers only a conversation that has a
    user message whose content is a string: whenever it returns, the
    accepted conversation contains a message with the role [user] and a
    string content, and the returned assistant message is the response
    registered for that string, or the default text made from it. A
    conversation without a user message makes it raise, because the log
    line slices the missing content. *)
Theorem mock_chat_needs_user_text env self messages model_name r :
  MockModelAdapter.generate_chat_completion env self messages model_name
  = Returned r →
  ∃ optimized d s,
    prepare_messages env messages model_name = Returned optimized
    ∧ In (PDict d) optimized
    ∧ dict_get d "role" = Some (PStr "user")
    ∧ dict_get d "content" = Some (PStr s)
    ∧ r = MockModelAdapter.chat_response
            (default (PStr ("Mock response for: " +:+ s))
               (MockModelAdapter._responses self !! s)).
Proof.
  unfold MockModelAdapter.generate_chat_completion.
  destruct (MockModelAdapter.failure self); [discriminate |].
  destruct (prepare_messages env messages model_name) as [optimized|e];
    cbn [mbind result_bind]; [| discriminate].
  destruct (MockModelAdapter.last_user_message (rev optimized)) as [v|e] eqn:Hlast;
    cbn [mbind result_bind]; [| discriminate].
  destruct v as [| | | | s | |]; try discriminate.
  cbn [MockModelAdapter.responses_get mbind result_bind mret result_ret
       py_sliceable].
  intros Hr. exists optimized.
  destruct (last_user_message_returns _ _ Hlast) as [[=] | (d & Hin & Hrole & Hc)].
  exists d, s. split; [done |]. split; [by apply in_rev |]. split; [done |].
  split.
  - destruct (dict_get d "content") as [c|]; cbn in Hc; [by subst c | done].
  - change (py_str (PStr s)) with s in Hr.
    destruct (py_sliceable _); cbn in Hr; [| discriminate].
    by injection Hr as <-.
Qed.

Lemma mock_chat_needs_user_text_witness :
  ∃ optimized d s,
    prepare_messages default_settings hello_messages None = Returned optimized
    ∧ In (PDict d) optimized
    ∧ dict_get d "role" = Some (PStr "user")
    ∧ dict_get d "content" = Some (PStr s)
    ∧ MockModelAdapter.chat_response (PStr "Mock response for: Hello")
      = MockModelAdapter.chat_response
          (default (PStr ("Mock response for: " +:+ s))
             (MockModelAdapter._responses fresh_mock !! s)).
Proof.
  apply (mock_chat_needs_user_text default_settings fresh_mock hello_messages
           None).
  reflexivity.
Defined.

(** ** Validation of a reply *)

(** X16. [validate_prompt_response] validates what
    [extract_json_from_response] extracts, and that is the empty dictionary
    for every reply: the function returns [False] for every response,
    every expected format and every list of required fields, whatever
    [json.loads] would make of the text. *)
Theorem validate_prompt_response_rejects_everything json_loads response
    expected_format required_fields :
  validate_prompt_response json_loads response expected_format required_fields
  = Returned false.
Proof.
  unfold validate_prompt_response.
  by rewrite extract_json_from_response_constant.
Qed.

(** ** The text [clean_text_data] returns *)

Lemma str_forall_impl (p q : ascii → bool) s :
  (∀ c, p c = true → q c = true) → str_forall p s = true → str_forall q s = true.
Proof.
  intros Hpq. induction s as [|c s IH]; [done |]. cbn [str_forall].
  intros [Hc Hs]%andb_true_iff. by rewrite (Hpq c Hc), IH.
Qed.

Lemma str_forall_filter keep s : str_forall keep (str_filter keep s) = true.
Proof.
  induction s as [|c s IH]; [done |]. cbn [str_filter].
  destruct (keep c) eqn:Hc; [| done]. cbn [str_forall]. by rewrite Hc, IH.
Qed.

Lemma str_filter_all keep s : str_forall keep s = true → str_filter keep s = s.
Proof.
  induction s as [|c s IH]; [done |]. cbn [str_forall str_filter].
  intros [Hc Hs]%andb_true_iff. by rewrite Hc, IH.
Qed.

Lemma str_len_cons c s : str_len (String c s) = 1 + str_len s.
Proof. unfold str_len. cbn [String.length]. lia. Qed.

Lemma str_len_nonneg s : 0 ≤ str_len s.
Proof. unfold str_len. lia. Qed.

Lemma str_len_filter keep s : str_len (str_filter keep s) ≤ str_len s.
Proof.
  induction s as [|c s IH]; [done |]. cbn [str_filter].
  destruct (keep c); rewrite ?str_len_cons; lia.
Qed.

Lemma tidy_space : tidy_char " " = true.
Proof. by vm_compute. Qed.

Lemma tidy_char_kept c : tidy_char c = true → kept_by_cleaning c = true.
Proof. unfold tidy_char. by intros [? _]%andb_true_iff. Qed.

Lemma tidy_char_space c : tidy_char c = true → is_space c = true → c = " "%char.
Proof.
  unfold tidy_char. intros [_ Hc]%andb_true_iff Hs. rewrite Hs in Hc.
  by apply bool_decide_eq_true in Hc.
Qed.

Lemma str_forall_collapse in_run s :
  str_forall kept_by_cleaning s = true →
  str_forall tidy_char (collapse_spaces in_run s) = true.
Proof.
  revert in_run. induction s as [|c s IH]; intros in_run; [done |].
  cbn [str_forall collapse_spaces]. intros [Hc Hs]%andb_true_iff.
  destruct (is_space c) eqn:Hsp.
  - destruct in_run; [by apply IH |]. cbn [str_forall].
    by rewrite tidy_space, IH.
  - cbn [str_forall]. rewrite IH by done. unfold tidy_char.
    by rewrite Hc, Hsp.
Qed.

Lemma single_spaced_collapse in_run s :
  single_spaced_from in_run (collapse_spaces in_run s) = true.
Proof.
  revert in_run. induction s as [|c s IH]; intros in_run; [done |].
  cbn [collapse_spaces]. destruct (is_space c) eqn:Hsp.
  - destruct in_run; [apply IH |]. cbn [single_spaced_from andb negb].
    change (is_space " ") with true. apply IH.
  - cbn [single_spaced_from]. rewrite Hsp, andb_false_r. apply IH.
Qed.

Lemma str_len_collapse in_run s :
  str_len (collapse_spaces in_run s) ≤ str_len s.
Proof.
  revert in_run. induction s as [|c s IH]; intros in_run; [done |].
  cbn [collapse_spaces]. rewrite str_len_cons.
  destruct (is_space c); [destruct in_run |]; rewrite ?str_len_cons.
  - specialize (IH true). lia.
  - specialize (IH true). lia.
  - specialize (IH false). lia.
Qed.

Lemma collapse_spaces_tidy in_run s :
  str_forall tidy_char s = true → single_spaced_from in_run s = true →
  collapse_spaces in_run s = s.
Proof.
  revert in_run. induction s as [|c s IH]; intros in_run; [done |].
  cbn [str_forall single_spaced_from collapse_spaces].
  intros [Hc Hs]%andb_true_iff [Hrun Hss]%andb_true_iff.
  destruct (is_space c) eqn:Hsp.
  - rewrite andb_true_r in Hrun. apply negb_true_iff in Hrun. subst in_run.
    rewrite (tidy_char_space c Hc Hsp). by rewrite IH.
  - by rewrite IH.
Qed.

Lemma single_spaced_from_weaken b s :
  single_spaced_from b s = true → single_spaced_from false s = true.
Proof. destruct s as [|c s]; [done |]. cbn. by intros [_ ?]%andb_true_iff. Qed.

Lemma str_lstrip_head s : head_not_space (str_lstrip s) = true.
Proof.
  induction s as [|c s IH]; [done |]. cbn [str_lstrip].
  destruct (is_space c) eqn:Hsp; [done |]. cbn. by rewrite Hsp.
Qed.

Lemma str_lstrip_fixed s : head_not_space s = true → str_lstrip s = s.
Proof.
  destruct s as [|c s]; [done |]. cbn. by intros ->%negb_true_iff.
Qed.

Lemma str_forall_lstrip p s :
  str_forall p s = true → str_forall p (str_lstrip s) = true.
Proof.
  induction s as [|c s IH]; [done |]. cbn [str_lstrip].
  destruct (is_space c); [| done]. cbn [str_forall].
  intros [_ Hs]%andb_true_iff. by apply IH.
Qed.

Lemma single_spaced_lstrip b s :
  single_spaced_from b s = true → single_spaced (str_lstrip s) = true.
Proof.
  revert b. induction s as [|c s IH]; intros b; [done |]. cbn [str_lstrip].
  destruct (is_space c) eqn:Hsp.
  - cbn [single_spaced_from]. intros [_ Hs]%andb_true_iff. by apply (IH _ Hs).
  - apply single_spaced_from_weaken.
Qed.

Lemma str_len_lstrip s : str_len (str_lstrip s) ≤ str_len s.
Proof.
  induction s as [|c s IH]; [done |]. cbn [str_lstrip].
  destruct (is_space c); rewrite ?str_len_cons; lia.
Qed.

Lemma str_rstrip_cons c s :
  str_rstrip (String c s)
  = match str_rstrip s with
    | EmptyString => if is_space c then EmptyString else String c EmptyString
    | r => String c r
    end.
Proof. reflexivity. Qed.

Lemma str_forall_rstrip p s :
  str_forall p s = true → str_forall p (str_rstrip s) = true.
Proof.
  induction s as [|c s IH]; [done |]. rewrite str_rstrip_cons.
  cbn [str_forall]. intros [Hc Hs]%andb_true_iff. specialize (IH Hs).
  destruct (str_rstrip s) as [|c' r].
  - destruct (is_space c); [done |]. cbn. by rewrite Hc.
  - cbn [str_forall] in *. by rewrite Hc, IH.
Qed.

Lemma single_spaced_rstrip b s :
  single_spaced_from b s = true → single_spaced_from b (str_rstrip s) = true.
Proof.
  revert b. induction s as [|c s IH]; intros b; [done |].
  rewrite str_rstrip_cons. cbn [single_spaced_from].
  intros [Hc Hs]%andb_true_iff. specialize (IH _ Hs).
  destruct (str_rstrip s) as [|c' r].
  - destruct (is_space c) eqn:Hsp; [done |]. cbn [single_spaced_from].
    by rewrite Hsp, Hc.
  - cbn [single_spaced_from] in *. by rewrite Hc, IH.
Qed.

Lemma str_len_rstrip s : str_len (str_rstrip s) ≤ str_len s.
Proof.
  induction s as [|c s IH]; [done |]. rewrite str_rstrip_cons.
  destruct (str_rstrip s) as [|c' r].
  - destruct (is_space c); rewrite ?str_len_cons;
      pose proof (str_len_nonneg s); cbn; lia.
  - rewrite !str_len_cons in *. lia.
Qed.

Lemma str_rstrip_head s :
  head_not_space s = true → head_not_space (str_rstrip s) = true.
Proof.
  destruct s as [|c s]; [done |]. rewrite str_rstrip_cons. cbn [head_not_space].
  intros Hc. destruct (str_rstrip s); [| done].
  apply negb_true_iff in Hc. rewrite Hc. cbn. by rewrite Hc.
Qed.

Lemma str_rstrip_idem s : str_rstrip (str_rstrip s) = str_rstrip s.
Proof.
  induction s as [|c s IH]; [done |]. rewrite str_rstrip_cons.
  destruct (str_rstrip s) as [|c' r] eqn:Hr.
  - destruct (is_space c) eqn:Hsp; [done |]. cbn. by rewrite Hsp.
  - rewrite str_rstrip_cons, IH. done.
Qed.

Lemma str_strip_fixed s : str_strip (str_strip s) = str_strip s.
Proof.
  unfold str_strip.
  rewrite (str_lstrip_fixed (str_rstrip _))
    by apply str_rstrip_head, str_lstrip_head.
  apply str_rstrip_idem.
Qed.

(** Lower-casing keeps a character of the cleaned text one, and never
    makes or unmakes white space. *)
Lemma char_lower_tidy c : tidy_char c = true → tidy_char (char_lower c) = true.
Proof. destruct c as [[] [] [] [] [] [] [] []]; by vm_compute. Qed.

Lemma char_lower_space c : is_space (char_lower c) = is_space c.
Proof. destruct c as [[] [] [] [] [] [] [] []]; by vm_compute. Qed.

Lemma char_lower_idem c : char_lower (char_lower c) = char_lower c.
Proof. destruct c as [[] [] [] [] [] [] [] []]; by vm_compute. Qed.

Lemma str_forall_lower s :
  str_forall tidy_char s = true → str_forall tidy_char (str_lower s) = true.
Proof.
  induction s as [|c s IH]; [done |]. cbn [str_forall str_lower].
  intros [Hc Hs]%andb_true_iff. by rewrite char_lower_tidy, IH.
Qed.

Lemma single_spaced_lower b s :
  single_spaced_from b (str_lower s) = single_spaced_from b s.
Proof.
  revert b. induction s as [|c s IH]; intros b; [done |].
  cbn [single_spaced_from str_lower]. by rewrite char_lower_space, IH.
Qed.

Lemma str_lower_idem s : str_lower (str_lower s) = str_lower s.
Proof.
  induction s as [|c s IH]; [done |]. cbn [str_lower].
  by rewrite char_lower_idem, IH.
Qed.

Lemma str_len_lower s : str_len (str_lower s) = str_len s.
Proof.
  induction s as [|c s IH]; [done |]. cbn [str_lower].
  by rewrite !str_len_cons, IH.
Qed.

Lemma str_lstrip_lower s : str_lstrip (str_lower s) = str_lower (str_lstrip s).
Proof.
  induction s as [|c s IH]; [done |]. cbn [str_lower str_lstrip].
  rewrite char_lower_space. by destruct (is_space c).
Qed.

Lemma str_rstrip_lower s : str_rstrip (str_lower s) = str_lower (str_rstrip s).
Proof.
  induction s as [|c s IH]; [done |]. cbn [str_lower]. rewrite !str_rstrip_cons.
  rewrite IH, char_lower_space. destruct (str_rstrip s); [| done].
  cbn [str_lower]. by destruct (is_space c).
Qed.

Lemma str_strip_lower s : str_strip (str_lower s) = str_lower (str_strip s).
Proof. unfold str_strip. by rewrite str_lstrip_lower, str_rstrip_lower. Qed.

Lemma str_forall_take p n s :
  str_forall p s = true → str_forall p (str_take n s) = true.
Proof.
  revert n. induction s as [|c s IH]; intros [|n]; try done.
  cbn [str_forall str_take]. intros [Hc Hs]%andb_true_iff. by rewrite Hc, IH.
Qed.

Lemma single_spaced_take b n s :
  single_spaced_from b s = true → single_spaced_from b (str_take n s) = true.
Proof.
  revert b n. induction s as [|c s IH]; intros b [|n]; try done.
  cbn [single_spaced_from str_take]. intros [Hc Hs]%andb_true_iff.
  by rewrite Hc, IH.
Qed.

Lemma head_not_space_take n s :
  head_not_space s = true → head_not_space (str_take n s) = true.
Proof. by destruct s, n. Qed.

Lemma str_len_take_le n s :
  str_len (str_take n s) ≤ str_len s ∧ str_len (str_take n s) ≤ Z.of_nat n.
Proof.
  revert n. induction s as [|c s IH]; intros [|n]; cbn [str_take];
    rewrite ?str_len_cons; try (unfold str_len; cbn; lia).
  destruct (IH n). lia.
Qed.

(** The text before the optional lower-casing and truncation. *)
Lemma clean_text_data_core text :
  let core := str_strip (collapse_spaces false (str_filter kept_by_cleaning text)) in
  str_forall tidy_char core = true
  ∧ single_spaced core = true
  ∧ head_not_space core = true
  ∧ str_rstrip core = core
  ∧ str_len core ≤ str_len text.
Proof.
  intros core. unfold core, str_strip.
  split; [| split; [| split; [| split]]].
  - apply str_forall_rstrip, str_forall_lstrip, str_forall_collapse,
      str_forall_filter.
  - apply single_spaced_rstrip, (single_spaced_lstrip false),
      single_spaced_collapse.
  - apply str_rstrip_head, str_lstrip_head.
  - apply str_rstrip_idem.
  - etrans; [apply str_len_rstrip |]. etrans; [apply str_len_lstrip |].
    etrans; [apply str_len_collapse |]. apply str_len_filter.
Qed.

(** X17. What [clean_text_data] returns when it is not asked to
    lower-case, for every text and every [max_length]: only characters
    its substitution keeps, no white space other than the plain space,
    never two spaces in a row and none at the start; it is never longer
    than the text; without [max_length] it has no space at the end
    either; with a positive [max_length] it has at most that many
    characters. *)
Theorem clean_text_data_normal_form text max_length :
  let out := clean_text_data text false max_length in
  str_forall tidy_char out = true
  ∧ single_spaced out = true
  ∧ str_lstrip out = out
  ∧ str_len out ≤ str_len text
  ∧ (max_length = None → str_strip out = out)
  ∧ (∀ n, max_length = Some n → 0 < n → str_len out ≤ n).
Proof.
  intros out. unfold out, clean_text_data.
  destruct (clean_text_data_core text) as (Hall & Hss & Hhead & Hr & Hlen).
  set (core := str_strip _) in *. clearbody core.
  destruct max_length as [n|].
  - destruct (negb (n =? 0) && (n <? str_len core)) eqn:Hcut.
    + apply andb_true_iff in Hcut as [_ Hn%Z.ltb_lt].
      unfold str_slice_to.
      set (k := if n <? 0 then Z.to_nat (str_len core + n) else Z.to_nat n).
      replace (if n <? 0 then str_take (Z.to_nat (str_len core + n)) core
               else str_take (Z.to_nat n) core)
        with (str_take k core) by (unfold k; by destruct (n <? 0)).
      destruct (str_len_take_le k core) as [Hle1 Hle2].
      split; [by apply str_forall_take |].
      split; [by apply single_spaced_take |].
      split; [by apply str_lstrip_fixed, head_not_space_take |].
      split; [lia |]. split; [done |].
      intros n' [= <-] Hpos. subst k.
      rewrite (proj2 (Z.ltb_ge n 0)) in * by lia. lia.
    + split; [done |]. split; [done |].
      split; [by apply str_lstrip_fixed |]. split; [done |]. split; [done |].
      intros n' [= <-] Hpos. apply andb_false_iff in Hcut as [Hz | Hn].
      * apply negb_false_iff, Z.eqb_eq in Hz. lia.
      * apply Z.ltb_ge in Hn. lia.
  - split; [done |]. split; [done |].
    split; [by apply str_lstrip_fixed |]. split; [done |]. split; [| done].
    intros _. unfold str_strip. by rewrite (str_lstrip_fixed core Hhead).
Qed.

Lemma clean_text_data_normal_form_witness :
  str_len (clean_text_data "  Hello,   {world}  " false (Some 5)) ≤ 5.
Proof.
  refine (proj2 (proj2 (proj2 (proj2 (proj2
    (clean_text_data_normal_form "  Hello,   {world}  " (Some 5))))))
    5 _ _).
  - reflexivity.
  - lia.
Defined.

(** The text returned when no [max_length] is given. *)
Lemma clean_text_data_unbounded text lowercase :
  let out := clean_text_data text lowercase None in
  str_forall tidy_char out = true
  ∧ single_spaced out = true
  ∧ str_strip out = out.
Proof.
  intros out. unfold out, clean_text_data.
  destruct (clean_text_data_core text) as (Hall & Hss & Hhead & Hr & _).
  set (core := str_strip _) in *.
  assert (Hstrip : str_strip core = core).
  { unfold str_strip at 1. by rewrite (str_lstrip_fixed core Hhead). }
  destruct lowercase; [| done].
  split; [by apply str_forall_lower |].
  split; [unfold single_spaced; by rewrite single_spaced_lower |].
  by rewrite str_strip_lower, Hstrip.
Qed.

(** A text in the form [clean_text_data] returns is left as it is by the
    two substitutions and the strip. *)
Lemma clean_text_data_fixed out :
  str_forall tidy_char out = true → single_spaced out = true →
  str_strip out = out →
  clean_text_data out false None = out.
Proof.
  intros Hall Hss Hstrip. unfold clean_text_data.
  rewrite str_filter_all.
  - by rewrite collapse_spaces_tidy.
  - apply (str_forall_impl tidy_char); [apply tidy_char_kept | done].
Qed.

(** X18. Cleaning without lower-casing is idempotent when no [max_length]
    is given: a text that [clean_text_data] returned is returned unchanged
    when cleaned again. *)
Theorem clean_text_data_idempotent text :
  let out := clean_text_data text false None in
  clean_text_data out false None = out.
Proof.
  intros out.
  destruct (clean_text_data_unbounded text false) as (Hall & Hss & Hstrip).
  by apply clean_text_data_fixed.
Qed.

(** X29. Lower-casing, for a text of code points below 256, where
    [lower] maps each character to one character: the text returned with
    [lowercase] is the lower-cased text returned without it, so of the
    same length; it is in the same form (only kept characters, single
    plain spaces, none at either end), lower-casing it again changes
    nothing, and cleaning it again, with or without [lowercase], returns
    it unchanged. *)
Theorem clean_text_data_lowercase text :
  let out := clean_text_data text true None in
  out = str_lower (clean_text_data text false None)
  ∧ str_len out = str_len (clean_text_data text false None)
  ∧ str_forall tidy_char out = true
  ∧ single_spaced out = true
  ∧ str_strip out = out
  ∧ str_lower out = out
  ∧ clean_text_data out true None = out
  ∧ clean_text_data out false None = out.
Proof.
  intros out.
  destruct (clean_text_data_unbounded text true) as (Hall & Hss & Hstrip).
  fold out in Hall, Hss, Hstrip.
  assert (Hlower : str_lower out = out).
  { unfold out, clean_text_data. apply str_lower_idem. }
  assert (Hfixed : clean_text_data out false None = out)
    by (by apply clean_text_data_fixed).
  split; [reflexivity |].
  split; [unfold out, clean_text_data; apply str_len_lower |].
  do 4 (split; [done |]). split; [| done].
  change (clean_text_data out true None)
    with (str_lower (clean_text_data out false None)).
  by rewrite Hfixed.
Qed.

(** ** The matching model *)

Lemma count_dimensions_spec items found :
  MatchingModel.count_dimensions items found
  = if forallb (λ entry, MatchingModel.valid_dimension entry.2) items
    then Some (found
               + Z.of_nat (length (List.filter
                                     (λ entry, MatchingModel.names_required_dimension
                                                 entry.1) items)))
    else None.
Proof.
  revert found. induction items as [|[name data] items IH]; intros found.
  - cbn. f_equal. lia.
  - cbn [MatchingModel.count_dimensions forallb List.filter fst snd].
    destruct (MatchingModel.valid_dimension data); cbn [negb andb]; [| done].
    rewrite IH. destruct (forallb _ items); [| done].
    destruct (MatchingModel.names_required_dimension name); cbn [length];
      f_equal; lia.
Qed.

(** X19. What [validate_matching_response] accepts, exactly. For
    [user_tribe]: a list whose items are all dictionaries with [tribeId],
    [compatibilityScore] and [compatibilityReasoning]; for
    [tribe_formation]: a list whose items are all dictionaries with
    [compatibilityScore], [formationReasoning] and a list [memberIds]; for
    [compatibility]: a dictionary whose [overall] is a dictionary with
    [score] and [summary] and whose [dimensions] is a dictionary of
    dictionaries with [score] and [reasoning], at least three of them
    under a name that contains one of the four required dimension names,
    whatever the case of the letters. Nothing is accepted for any other
    matching type; so the empty list passes for the two list types, and
    the empty dictionary for none. *)
Theorem validate_matching_response_accepts response matching_type :
  MatchingModel.validate_matching_response response matching_type = true ↔
  (matching_type = "user_tribe"
   ∧ ∃ items, response = PList items
       ∧ Forall (λ item, ∃ d, item = PDict d
                   ∧ is_Some (dict_get d "tribeId")
                   ∧ is_Some (dict_get d "compatibilityScore")
                   ∧ is_Some (dict_get d "compatibilityReasoning")) items)
  ∨ (matching_type = "tribe_formation"
     ∧ ∃ items, response = PList items
         ∧ Forall (λ item, ∃ d members, item = PDict d
                     ∧ dict_get d "memberIds" = Some (PList members)
                     ∧ is_Some (dict_get d "compatibilityScore")
                     ∧ is_Some (dict_get d "formationReasoning")) items)
  ∨ (matching_type = "compatibility"
     ∧ ∃ d overall dimensions,
         response = PDict d
         ∧ dict_get d "overall" = Some (PDict overall)
         ∧ is_Some (dict_get overall "score")
         ∧ is_Some (dict_get overall "summary")
         ∧ dict_get d "dimensions" = Some (PDict dimensions)
         ∧ Forall (λ entry, ∃ dim, entry.2 = PDict dim
                     ∧ is_Some (dict_get dim "score")
                     ∧ is_Some (dict_get dim "reasoning")) dimensions
         ∧ (3 ≤ length (List.filter
                          (λ entry, MatchingModel.names_required_dimension entry.1)
                          dimensions))%nat).
Proof.
  unfold MatchingModel.validate_matching_response.
  destruct (decide (matching_type = "user_tribe")) as [->|Hut].
  { rewrite bool_decide_eq_true_2 by done. split.
    - intros Hv. left. split; [done |].
      destruct response as [| | | | | items |]; try discriminate.
      exists items. split; [done |]. apply List.Forall_forall. intros item Hin.
      rewrite forallb_forall in Hv. specialize (Hv item Hin).
      destruct item as [| | | | | | d]; try discriminate. exists d.
      cbn in Hv. rewrite andb_true_r in Hv.
      apply andb_true_iff in Hv as [H1 [H2 H3]%andb_true_iff].
      by repeat case_bool_decide.
    - intros [(_ & items & -> & Hall) | [[[=] _] | [[=] _]]].
      apply forallb_forall. intros item Hin.
      rewrite List.Forall_forall in Hall.
      destruct (Hall item Hin) as (d & -> & H1 & H2 & H3). cbn.
      by rewrite !bool_decide_eq_true_2. }
  rewrite (bool_decide_eq_false_2 (matching_type = "user_tribe")) by done.
  destruct (decide (matching_type = "tribe_formation")) as [->|Htf].
  { rewrite bool_decide_eq_true_2 by done. split.
    - intros Hv. right. left. split; [done |].
      destruct response as [| | | | | items |]; try discriminate.
      exists items. split; [done |]. apply List.Forall_forall. intros item Hin.
      rewrite forallb_forall in Hv. specialize (Hv item Hin).
      destruct item as [| | | | | | d]; try discriminate.
      cbn in Hv. rewrite andb_true_r in Hv.
      apply andb_true_iff in Hv
        as [[H1 [H2 H3]%andb_true_iff]%andb_true_iff Hm].
      destruct (dict_get d "memberIds") as [[| | | | | members |]|] eqn:Hmem;
        try discriminate.
      exists d, members.
      apply bool_decide_eq_true in H2, H3.
      split; [reflexivity |]. split; [exact Hmem |]. by split.
    - intros [[[=] _] | [(_ & items & -> & Hall) | [[=] _]]].
      apply forallb_forall. intros item Hin.
      rewrite List.Forall_forall in Hall.
      destruct (Hall item Hin) as (d & members & -> & H1 & H2 & H3). cbn.
      rewrite H1. by rewrite !bool_decide_eq_true_2. }
  rewrite (bool_decide_eq_false_2 (matching_type = "tribe_formation")) by done.
  destruct (decide (matching_type = "compatibility")) as [->|Hc].
  { rewrite bool_decide_eq_true_2 by done. split.
    - intros Hv. right. right. split; [done |].
      destruct response as [| | | | | | d]; try discriminate.
      destruct (dict_get d "overall") as [overall|] eqn:Ho; [| discriminate].
      destruct (dict_get d "dimensions") as [dimensions|] eqn:Hd;
        [| discriminate].
      destruct (MatchingModel.valid_overall overall) eqn:Hvo;
        cbn [negb] in Hv; [| discriminate].
      destruct overall as [| | | | | | overall]; try discriminate.
      destruct dimensions as [| | | | | | dimensions]; try discriminate.
      rewrite count_dimensions_spec in Hv.
      destruct (forallb _ dimensions) eqn:Hall; [| discriminate].
      apply negb_true_iff, Z.ltb_ge in Hv.
      exists d, overall, dimensions. split; [done |]. split; [done |].
      cbn in Hvo. rewrite andb_true_r in Hvo.
      apply andb_true_iff in Hvo as [H1 H2].
      apply bool_decide_eq_true in H1, H2.
      split; [exact H1 |]. split; [exact H2 |].
      split; [exact Hd |]. split; [| lia].
      apply List.Forall_forall. intros [name data] Hin.
      rewrite forallb_forall in Hall. specialize (Hall _ Hin). cbn in Hall.
      destruct data as [| | | | | | dim]; try discriminate. exists dim.
      cbn in Hall. rewrite andb_true_r in Hall.
      apply andb_true_iff in Hall as [H3 H4].
      apply bool_decide_eq_true in H3, H4. by split.
    - intros [[[=] _] | [[[=] _] | (_ & d & overall & dimensions & -> & Ho
                                     & H1 & H2 & Hd & Hall & Hcount)]].
      rewrite Ho, Hd. cbn [MatchingModel.valid_overall
                           MatchingModel.has_all_fields forallb].
      rewrite !bool_decide_eq_true_2 by done. cbn [andb negb].
      rewrite count_dimensions_spec.
      assert (forallb (λ entry, MatchingModel.valid_dimension entry.2)
                dimensions = true) as ->.
      { apply forallb_forall. intros entry Hin.
        rewrite List.Forall_forall in Hall.
        destruct (Hall entry Hin) as (dim & -> & H3 & H4). cbn.
        by rewrite !bool_decide_eq_true_2. }
      apply negb_true_iff, Z.ltb_ge. lia. }
  rewrite (bool_decide_eq_false_2 (matching_type = "compatibility")) by done.
  split; [done |]. by intros [[? _] | [[? _] | [? _]]].
Qed.

Lemma validate_matching_response_empty_dict matching_type :
  MatchingModel.validate_matching_response empty_dict matching_type = false.
Proof.
  unfold MatchingModel.validate_matching_response, empty_dict.
  by repeat case_bool_decide.
Qed.

Section matching_model.

Variable json_loads : string → option pyval.
Variable py_sorted : list pyval → result (list pyval).
Variable user_tribe_prompt : pyval → pyval → result string.
Variable tribe_formation_prompt : pyval → pyval → pyval → result string.
Variable compatibility_prompt : pyval → pyval → pyval → result string.

Lemma match_user_to_tribes_returns generate_text user_profile tribes r :
  MatchingModel.match_user_to_tribes json_loads py_sorted generate_text
    user_tribe_prompt user_profile tribes = Returned r →
  r = PList [].
Proof.
  unfold MatchingModel.match_user_to_tribes.
  destruct (user_tribe_prompt user_profile tribes) as [prompt|e];
    cbn [mbind result_bind mret result_ret]; [| discriminate].
  intros [= <-]. destruct (generate_text prompt) as [response|e]; [| done].
  rewrite extract_json_from_response_constant.
  by rewrite validate_matching_response_empty_dict.
Qed.

Lemma form_tribes_returns generate_text user_profiles lo hi r :
  MatchingModel.form_tribes json_loads generate_text tribe_formation_prompt
    user_profiles lo hi = Returned r →
  r = PList [].
Proof.
  unfold MatchingModel.form_tribes.
  destruct (tribe_formation_prompt user_profiles lo hi) as [prompt|e];
    cbn [mbind result_bind mret result_ret]; [| discriminate].
  intros [= <-]. destruct (generate_text prompt) as [response|e]; [| done].
  rewrite extract_json_from_response_constant.
  by rewrite validate_matching_response_empty_dict.
Qed.

Lemma calculate_compatibility_returns generate_text user_profile target
    target_type r :
  MatchingModel.calculate_compatibility json_loads generate_text
    compatibility_prompt user_profile target target_type = Returned r →
  r = empty_dict.
Proof.
  unfold MatchingModel.calculate_compatibility.
  destruct (compatibility_prompt user_profile target target_type) as [prompt|e];
    cbn [mbind result_bind mret result_ret]; [| discriminate].
  intros [= <-]. destruct (generate_text prompt) as [response|e]; [| done].
  rewrite extract_json_from_response_constant.
  by rewrite validate_matching_response_empty_dict.
Qed.

Lemma dispatch_returns generate_text matching_type data options r :
  matching_type ∈ MatchingModel.valid_types →
  MatchingModel.dispatch json_loads py_sorted generate_text user_tribe_prompt
    tribe_formation_prompt compatibility_prompt matching_type data options
  = Returned r →
  r = MatchingModel.empty_result matching_type.
Proof.
  intros Hty Hd. unfold MatchingModel.dispatch in Hd.
  destruct (decide (matching_type = "user_tribe")) as [->|H1].
  { rewrite bool_decide_eq_true_2 in Hd by done.
    change (MatchingModel.empty_result "user_tribe") with (PList []).
    destruct (MatchingModel.lacks_either _ _ data) as [[]|e];
      cbn [mbind result_bind] in Hd; try discriminate.
    destruct (py_getitem data "user_profile") as [user_profile|e];
      cbn [mbind result_bind] in Hd; [| discriminate].
    destruct (py_getitem data "tribes") as [tribes|e];
      cbn [mbind result_bind] in Hd; [| discriminate].
    destruct (py_get options "factor_weights" PNone) as [w|e];
      cbn [mbind result_bind] in Hd; [| discriminate].
    by apply match_user_to_tribes_returns in Hd. }
  rewrite (bool_decide_eq_false_2 (matching_type = "user_tribe")) in Hd by done.
  destruct (decide (matching_type = "tribe_formation")) as [->|H2].
  { rewrite bool_decide_eq_true_2 in Hd by done.
    change (MatchingModel.empty_result "tribe_formation") with (PList []).
    destruct (py_contains "user_profiles" data) as [[]|e];
      cbn [mbind result_bind negb] in Hd; try discriminate.
    destruct (py_getitem data "user_profiles") as [user_profiles|e];
      cbn [mbind result_bind] in Hd; [| discriminate].
    destruct (py_get options "min_tribe_size" PNone) as [lo|e];
      cbn [mbind result_bind] in Hd; [| discriminate].
    destruct (py_get options "max_tribe_size" PNone) as [hi|e];
      cbn [mbind result_bind] in Hd; [| discriminate].
    by apply form_tribes_returns in Hd. }
  rewrite (bool_decide_eq_false_2 (matching_type = "tribe_formation")) in Hd
    by done.
  assert (matching_type = "compatibility") as ->.
  { unfold MatchingModel.valid_types in Hty.
    apply elem_of_cons in Hty as [? | Hty]; [done |].
    apply elem_of_cons in Hty as [? | Hty]; [done |].
    apply elem_of_cons in Hty as [? | Hty]; [done |].
    by apply elem_of_nil in Hty. }
  rewrite bool_decide_eq_true_2 in Hd by done.
  change (MatchingModel.empty_result "compatibility") with empty_dict.
  destruct (MatchingModel.lacks_either _ _ data) as [[]|e];
    cbn [mbind result_bind] in Hd; try discriminate.
  destruct (py_getitem data "user_profile") as [user_profile|e];
    cbn [mbind result_bind] in Hd; [| discriminate].
  destruct (py_getitem data "target") as [target|e];
    cbn [mbind result_bind] in Hd; [| discriminate].
  destruct (py_get options "target_type" (PStr "user")) as [target_type|e];
    cbn [mbind result_bind] in Hd; [| discriminate].
  destruct (py_get options "factor_weights" PNone) as [w|e];
    cbn [mbind result_bind] in Hd; [| discriminate].
  by apply calculate_compatibility_returns in Hd.
Qed.

Lemma model_perform_matching_outcome generate_text matching_type data options :
  match MatchingModel.perform_matching json_loads py_sorted generate_text
          user_tribe_prompt tribe_formation_prompt compatibility_prompt
          matching_type data options with
  | Returned r =>
      matching_type ∈ MatchingModel.valid_types
      ∧ r = MatchingModel.empty_result matching_type
  | Raised e => is_builtin "ValueError" e = true
  end.
Proof.
  unfold MatchingModel.perform_matching.
  case_bool_decide as Hty; cbn [negb]; [| by vm_compute].
  destruct (MatchingModel.dispatch _ _ _ _ _ _ _ _ _) as [r|e] eqn:Hd.
  - split; [done |]. by apply (dispatch_returns _ _ _ _ _ Hty Hd).
  - by destruct (is_builtin "ValueError" e) eqn:He.
Qed.

(** X20. The matching model never returns a match. Each of
    [match_user_to_tribes], [form_tribes] and [calculate_compatibility]
    parses the reply with [extract_json_from_response], which yields the
    empty dictionary for every reply, and the validation rejects that: so
    whatever the provider answers, whatever the profiles and the prompt
    made from them, a method that returns gives the empty list,
    respectively the empty dictionary. [perform_matching] therefore
    returns the empty result of its matching type or raises a
    [ValueError], and nothing else. *)
Theorem matching_model_never_returns_a_match generate_text :
  (∀ user_profile tribes r,
     MatchingModel.match_user_to_tribes json_loads py_sorted generate_text
       user_tribe_prompt user_profile tribes = Returned r → r = PList [])
  ∧ (∀ user_profiles lo hi r,
       MatchingModel.form_tribes json_loads generate_text tribe_formation_prompt
         user_profiles lo hi = Returned r → r = PList [])
  ∧ (∀ user_profile target target_type r,
       MatchingModel.calculate_compatibility json_loads generate_text
         compatibility_prompt user_profile target target_type = Returned r →
       r = empty_dict)
  ∧ (∀ matching_type data options,
       match MatchingModel.perform_matching json_loads py_sorted generate_text
               user_tribe_prompt tribe_formation_prompt compatibility_prompt
               matching_type data options with
       | Returned r =>
           matching_type ∈ MatchingModel.valid_types
           ∧ r = MatchingModel.empty_result matching_type
       | Raised e => is_builtin "ValueError" e = true
       end).
Proof.
  split; [apply match_user_to_tribes_returns |].
  split; [apply form_tribes_returns |].
  split; [apply calculate_compatibility_returns |].
  apply model_perform_matching_outcome.
Qed.

Lemma batch_perform_matching_results perform matching_type k batch_data :
  (∀ i item r, perform i item = Returned r →
               r = MatchingModel.empty_result matching_type) →
  MatchingModel.batch_perform_matching perform matching_type k batch_data
  = List.map (λ _, MatchingModel.empty_result matching_type) batch_data.
Proof.
  intros Hperform. revert k.
  induction batch_data as [|item rest IH]; intros k; [done |].
  cbn [MatchingModel.batch_perform_matching List.map]. rewrite IH. f_equal.
  destruct (perform k item) as [r|e] eqn:Hr; [| done].
  by apply (Hperform k item).
Qed.

(** X21. [batch_perform_matching] of the model never raises and answers
    item by item: whatever each call of the provider does, and also for a
    matching type that is not valid, the result has one entry for each
    item of the batch, and every entry is the empty result of the
    matching type. *)
Theorem model_batch_perform_matching_is_empty
    (generate_text : nat → string → result pyval) matching_type options
    batch_data :
  let results :=
    MatchingModel.batch_perform_matching
      (λ k item_data,
         MatchingModel.perform_matching json_loads py_sorted (generate_text k)
           user_tribe_prompt tribe_formation_prompt compatibility_prompt
           matching_type item_data options)
      matching_type 0 batch_data in
  length results = length batch_data
  ∧ Forall (λ r, r = MatchingModel.empty_result matching_type) results.
Proof.
  intros results. unfold results.
  rewrite batch_perform_matching_results.
  - split; [by rewrite length_map |].
    apply List.Forall_forall. intros r Hin.
    apply in_map_iff in Hin as (item & <- & _). done.
  - intros i item r Hr.
    pose proof (model_perform_matching_outcome (generate_text i) matching_type
                  item options) as Hout.
    rewrite Hr in Hout. by destruct Hout.
Qed.

End matching_model.

Lemma matching_model_never_returns_a_match_witness :
  MatchingModel.match_user_to_tribes (λ _, None) (λ l, Returned l)
    (λ _, Returned reply_with_match) (λ _ _, Returned "prompt") PNone PNone
  = Returned (PList [])
  ∧ PList [] = PList [].
Proof.
  split; [by vm_compute |].
  refine (proj1 (matching_model_never_returns_a_match (λ _, None)
                   (λ l, Returned l) (λ _ _, Returned "prompt")
                   (λ _ _ _, Returned "prompt") (λ _ _ _, Returned "prompt")
                   (λ _, Returned reply_with_match))
            PNone PNone (PList []) _).
  by vm_compute.
Defined.

(** ** The service and its cache *)

Lemma get_cached_result_falsy self key now :
  cache_is_falsy (_cache self) = true →
  get_cached_result self key now = (PNone, self).
Proof.
  intros Hc. unfold get_cached_result. by rewrite Hc, orb_true_r.
Qed.

Lemma cache_result_falsy self key value now :
  cache_is_falsy (_cache self) = true → cache_result self key value now = self.
Proof. intros Hc. unfold cache_result. by rewrite Hc, orb_true_r. Qed.

Lemma clear_cache_falsy self :
  cache_is_falsy (_cache self) = true → clear_cache self = self.
Proof. intros Hc. unfold clear_cache. by rewrite Hc, andb_false_r. Qed.

Lemma perform_matching_falsy_cache fingerprint model self matching_type data
    options model_name t_lookup t_after :
  cache_is_falsy (_cache self) = true →
  matching_type ∈ MATCHING_TYPES →
  perform_matching fingerprint model self matching_type data options model_name
    t_lookup t_after
  = (match model (length (model_calls self)) matching_type
             (default empty_dict data) (default empty_dict options) with
     | Returned r => Returned r
     | Raised e =>
         Returned (service_handle_error e
                     ("perform_matching - " +:+ matching_type) t_after)
     end,
     with_call self (matching_type, default empty_dict data,
                     default empty_dict options)).
Proof.
  intros Hc Hty. unfold perform_matching.
  rewrite (bool_decide_eq_true_2 _ Hty). cbn [negb].
  rewrite get_cached_result_falsy by done. cbn [py_truthy].
  destruct (model _ _ _ _) as [v|e]; [| done].
  by rewrite cache_result_falsy.
Qed.

Lemma reachable_cache_falsy env config fingerprint model self :
  reachable env config fingerprint model self →
  cache_is_falsy (_cache self) = true.
Proof.
  induction 1 as [|self ty data options mn t1 t2 _ IH|self key now _ IH
                  |self key v now _ IH|self _ IH].
  - unfold MatchingService_init. cbn [_cache]. by destruct (default _ _).
  - destruct (decide (ty ∈ MATCHING_TYPES)) as [Hty|Hty].
    + by rewrite perform_matching_falsy_cache.
    + unfold perform_matching. by rewrite (bool_decide_eq_false_2 _ Hty).
  - by rewrite get_cached_result_falsy.
  - by rewrite cache_result_falsy.
  - by rewrite clear_cache_falsy.
Qed.

(** X22. The cache of a service never fills. In every state reached from
    [__init__] through [perform_matching], [get_cached_result],
    [cache_result] and [clear_cache], with any configuration, arguments
    and clock readings, the cache is [None] or still the empty
    dictionary; so every [perform_matching] call with a valid type, however
    often it was made before, calls the model once more and returns what
    the model returns (or the error response for what it raises). *)
Theorem every_valid_call_reaches_the_model env config fingerprint model self
    matching_type data options model_name t_lookup t_after :
  reachable env config fingerprint model self →
  matching_type ∈ MATCHING_TYPES →
  let out := perform_matching fingerprint model self matching_type data options
               model_name t_lookup t_after in
  cache_is_falsy (_cache self) = true
  ∧ cache_is_falsy (_cache out.2) = true
  ∧ model_calls out.2
    = (model_calls self
       ++ [(matching_type, default empty_dict data, default empty_dict options)])%list
  ∧ out.1 = match model (length (model_calls self)) matching_type
                    (default empty_dict data) (default empty_dict options) with
            | Returned r => Returned r
            | Raised e =>
                Returned (service_handle_error e
                            ("perform_matching - " +:+ matching_type) t_after)
            end.
Proof.
  intros Hreach Hty out.
  pose proof (reachable_cache_falsy _ _ _ _ _ Hreach) as Hc.
  unfold out. rewrite perform_matching_falsy_cache by done. cbn [fst snd].
  by repeat split.
Qed.

Lemma every_valid_call_reaches_the_model_witness :
  let s0 := MatchingService_init default_settings
              {| cfg_cache_enabled := Some true; cfg_cache_ttl := None;
                 cfg_model := None |} in
  let s1 := (perform_matching (λ _, "k") model_one_match s0 "user_tribe"
               None None None 0%Qc 1%Qc).2 in
  let out := perform_matching (λ _, "k") model_one_match s1 "user_tribe"
               None None None (Qc_of_Z 2) (Qc_of_Z 3) in
  length (model_calls out.2) = 2%nat.
Proof.
  intros s0 s1 out.
  destruct (every_valid_call_reaches_the_model default_settings
              {| cfg_cache_enabled := Some true; cfg_cache_ttl := None;
                 cfg_model := None |}
              (λ _, "k") model_one_match s1 "user_tribe" None None None
              (Qc_of_Z 2) (Qc_of_Z 3)) as (_ & _ & Hcalls & _).
  - apply reachable_perform_matching, reachable_init.
  - unfold MATCHING_TYPES. apply elem_of_cons. by left.
  - fold out in Hcalls. rewrite Hcalls. reflexivity.
Defined.

(** The lookup leaves the record of the calls made as it is. *)
Lemma get_cached_result_calls self key now :
  model_calls (get_cached_result self key now).2 = model_calls self.
Proof.
  unfold get_cached_result.
  destruct (negb _ || _); [done |].
  destruct (_cache self) as [cache|]; [| done].
  destruct (cache !! key) as [entry|]; [| done].
  by destruct (bool_decide _).
Qed.

(** X23. The two error paths of [perform_matching] of the service, for
    arguments that are JSON values. For a matching type that is not one of
    the three it raises the [ValueError] at once: no key is computed, the
    model is not called and the service is left as it was. For a valid
    type, when the cache serves nothing and the model raises, the
    exception does not leave the method: the call returns the error
    response [handle_error] builds from it, the call is on record, and
    nothing is stored. *)
Theorem perform_matching_error_paths fingerprint model self matching_type
    data options model_name t_lookup t_after :
  let out := perform_matching fingerprint model self matching_type data options
               model_name t_lookup t_after in
  let data' := default empty_dict data in
  let options' := default empty_dict options in
  let key := generate_cache_key fingerprint matching_type data' options'
               (default (_default_model self) model_name) in
  let lookup := get_cached_result self key t_lookup in
  (matching_type ∉ MATCHING_TYPES →
     out = (Raised (BuiltinExn "ValueError"
                      ("Invalid matching type: " +:+ matching_type
                       +:+ ". Must be one of: user_tribe, tribe_formation, compatibility")),
            self))
  ∧ (matching_type ∈ MATCHING_TYPES → py_truthy lookup.1 = false →
     ∀ e, model (length (model_calls self)) matching_type data' options'
          = Raised e →
       out.1 = Returned (service_handle_error e
                           ("perform_matching - " +:+ matching_type) t_after)
       ∧ out.2 = with_call lookup.2 (matching_type, data', options')
       ∧ model_calls out.2
         = (model_calls self ++ [(matching_type, data', options')])%list
       ∧ _cache out.2 = _cache lookup.2).
Proof.
  intros out data' options' key lookup. split.
  - intros Hty. unfold out, perform_matching.
    by rewrite (bool_decide_eq_false_2 _ Hty).
  - intros Hty Hmiss e He. unfold out, perform_matching.
    rewrite (bool_decide_eq_true_2 _ Hty). cbn [negb].
    fold data' options' key.
    pose proof (get_cached_result_calls self key t_lookup) as Hcalls.
    fold lookup in Hcalls. change (get_cached_result self key t_lookup) with lookup.
    destruct lookup as [cached self1]. cbn [fst snd] in *.
    rewrite Hmiss, Hcalls, He. cbn [fst snd].
    split; [done |]. split; [done |].
    unfold with_call. cbn. by rewrite Hcalls.
Qed.

Lemma perform_matching_error_paths_witness :
  perform_matching (λ _, "k") model_one_match sample_service "friendship"
    None None None 0%Qc 1%Qc
  = (Raised (BuiltinExn "ValueError"
       "Invalid matching type: friendship. Must be one of: user_tribe, tribe_formation, compatibility"),
     sample_service)
  ∧ (perform_matching (λ _, "other") model_timing_out sample_service
       "user_tribe" None None None 0%Qc 1%Qc).1
    = Returned (service_handle_error
                  (AdapterExn (ModelTimeoutError "Request timed out"
                                 "generate_text" "openai/gpt-4" 30))
                  "perform_matching - user_tribe" 1%Qc).
Proof.
  split.
  - refine (proj1 (perform_matching_error_paths (λ _, "k") model_one_match
                     sample_service "friendship" None None None 0%Qc 1%Qc) _).
    vm_compute. intros H. inversion H as [| ? ? ? H1]; subst.
    inversion H1 as [| ? ? ? H2]; subst.
    inversion H2 as [| ? ? ? H3]; subst. inversion H3.
  - refine (proj1 (proj2 (perform_matching_error_paths (λ _, "other")
                            model_timing_out sample_service "user_tribe"
                            None None None 0%Qc 1%Qc) _ _ _ _)).
    + apply elem_of_cons. by left.
    + vm_compute. reflexivity.
    + reflexivity.
Defined.

(** X24. What a populated cache serves. When the cache holds an entry for
    the key of the call that has not expired, [perform_matching] returns
    the stored result without calling the model and without changing the
    service, but only if that result is truthy: a stored empty list or
    empty dictionary, which is what the model returns when it finds
    nothing, is never served, and the model is called again. *)
Theorem cached_result_served_only_if_truthy fingerprint model self matching_type
    data options model_name t_lookup t_after cache entry :
  let cache_key :=
    generate_cache_key fingerprint matching_type (default empty_dict data)
      (default empty_dict options) (default (_default_model self) model_name) in
  let out := perform_matching fingerprint model self matching_type data options
               model_name t_lookup t_after in
  matching_type ∈ MATCHING_TYPES →
  _cache_enabled self = true →
  _cache self = Some cache →
  cache !! cache_key = Some entry →
  (t_lookup - entry_timestamp entry ≤ Qc_of_Z (_cache_ttl self))%Qc →
  if py_truthy (entry_result entry)
  then out = (Returned (entry_result entry), self)
  else model_calls out.2
       = (model_calls self
          ++ [(matching_type, default empty_dict data,
               default empty_dict options)])%list.
Proof.
  intros cache_key out Hty Hen Hc Hk Hfresh. unfold out, perform_matching.
  rewrite (bool_decide_eq_true_2 _ Hty). cbn [negb]. fold cache_key.
  assert (Hget : get_cached_result self cache_key t_lookup
                 = (entry_result entry, self)).
  { unfold get_cached_result. rewrite Hen, Hc.
    rewrite (cache_is_falsy_lookup cache cache_key entry Hk). cbn [negb orb].
    rewrite Hk. rewrite bool_decide_eq_false_2; [done |].
    by apply Qcle_not_lt. }
  rewrite Hget. destruct (py_truthy (entry_result entry)); [done |].
  destruct (model _ _ _ _) as [r|e]; cbn [snd]; [| done].
  unfold cache_result. cbn [with_call _cache_enabled _cache].
  rewrite Hen, Hc, (cache_is_falsy_lookup cache cache_key entry Hk).
  done.
Qed.

Lemma cached_result_served_only_if_truthy_witness :
  model_calls
    (perform_matching (λ _, "k") model_one_match service_with_empty_match
       "user_tribe" None None None 1%Qc 1%Qc).2
  = [("user_tribe", empty_dict, empty_dict)].
Proof.
  refine (cached_result_served_only_if_truthy (λ _, "k") model_one_match
            service_with_empty_match "user_tribe" None None None 1%Qc 1%Qc
            {["k" := {| entry_result := PList []; entry_timestamp := 0%Qc |}]}
            {| entry_result := PList []; entry_timestamp := 0%Qc |}
            _ _ _ _ _).
  - unfold MATCHING_TYPES. apply elem_of_cons. by left.
  - reflexivity.
  - reflexivity.
  - reflexivity.
  - by vm_compute.
Defined.

(** X25. A stored result is read back only from a cache that already held
    something. On a service with caching enabled, [cache_result] followed
    by [get_cached_result] for the same key, within the time-to-live,
    gives back the stored value when the cache was not empty; when the
    cache was empty (or caching is off) the store is skipped, the lookup
    returns [None] and the service is unchanged by both. *)
Theorem cache_result_round_trip self cache_key result t_store t_read :
  (t_read - t_store ≤ Qc_of_Z (_cache_ttl self))%Qc →
  let stored := cache_result self cache_key result t_store in
  get_cached_result stored cache_key t_read
  = if _cache_enabled self && negb (cache_is_falsy (_cache self))
    then (result, stored) else (PNone, self).
Proof.
  intros Hfresh stored. unfold stored, cache_result.
  destruct (_cache_enabled self) eqn:Hen; cbn [negb orb andb].
  - destruct (cache_is_falsy (_cache self)) eqn:Hc; cbn [negb].
    + unfold get_cached_result. by rewrite Hen, Hc.
    + destruct (_cache self) as [cache|] eqn:Hcache; [| done].
      unfold get_cached_result. cbn [with_cache _cache_enabled _cache _cache_ttl].
      rewrite Hen.
      rewrite (cache_is_falsy_lookup _ cache_key _ (lookup_insert_eq _ _ _)).
      cbn [negb orb]. rewrite lookup_insert_eq. cbn [entry_timestamp entry_result].
      rewrite bool_decide_eq_false_2; [done |]. by apply Qcle_not_lt.
  - unfold get_cached_result. by rewrite Hen.
Qed.

Lemma cache_result_round_trip_witness :
  get_cached_result (cache_result sample_service "j" (PInt 1) 1%Qc) "j" 1%Qc
  = if _cache_enabled sample_service
       && negb (cache_is_falsy (_cache sample_service))
    then (PInt 1, cache_result sample_service "j" (PInt 1) 1%Qc)
    else (PNone, sample_service).
Proof.
  apply (cache_result_round_trip sample_service "j" (PInt 1) 1%Qc 1%Qc).
  by vm_compute.
Defined.

(** X26. The service over the matching model. From any state reached from
    [__init__], a [perform_matching] call with a valid type calls the
    model, and what comes back is the empty result of the matching type,
    or the [validation_error] response for a [ValueError] the model
    raised: never a match, and never an error response of another type,
    since the model turns every failure of the provider into an empty
    result. *)
Theorem service_over_matching_model_outcome env config fingerprint json_loads
    py_sorted generate_text user_tribe_prompt tribe_formation_prompt
    compatibility_prompt self matching_type data options model_name
    t_lookup t_after :
  let model :=
    service_matching_model json_loads py_sorted generate_text user_tribe_prompt
      tribe_formation_prompt compatibility_prompt in
  let out := perform_matching fingerprint model self matching_type data options
               model_name t_lookup t_after in
  reachable env config fingerprint model self →
  matching_type ∈ MATCHING_TYPES →
  out.1 = Returned (MatchingModel.empty_result matching_type)
  ∨ ∃ msg, out.1 = Returned (validation_error_response msg
                               ("perform_matching - " +:+ matching_type)
                               t_after).
Proof.
  intros model out Hreach Hty.
  pose proof (reachable_cache_falsy _ _ _ _ _ Hreach) as Hc.
  unfold out. rewrite perform_matching_falsy_cache by done. cbn [fst].
  clear Hreach out. subst model. unfold service_matching_model. cbv beta.
  pose proof (model_perform_matching_outcome json_loads py_sorted
                user_tribe_prompt tribe_formation_prompt compatibility_prompt
                (generate_text (length (model_calls self))) matching_type
                (default empty_dict data) (Some (default empty_dict options)))
    as Hout.
  destruct (MatchingModel.perform_matching _ _ _ _ _ _ _ _ _) as [r|e].
  - left. by destruct Hout as [_ ->].
  - right. destruct e as [| name msg |]; try discriminate.
    cbn in Hout. apply bool_decide_eq_true in Hout. subst name.
    exists msg. reflexivity.
Qed.

Lemma service_over_matching_model_outcome_witness :
  (perform_matching (λ _, "k")
     (service_matching_model (λ _, None) (λ l, Returned l)
        (λ _ _, Returned reply_with_match) (λ _ _, Returned "prompt")
        (λ _ _ _, Returned "prompt") (λ _ _ _, Returned "prompt"))
     (MatchingService_init default_settings
        {| cfg_cache_enabled := None; cfg_cache_ttl := None; cfg_model := None |})
     "user_tribe" None None None 0%Qc 1%Qc).1
  = Returned (MatchingModel.empty_result "user_tribe")
  ∨ ∃ msg,
      (perform_matching (λ _, "k")
         (service_matching_model (λ _, None) (λ l, Returned l)
            (λ _ _, Returned reply_with_match) (λ _ _, Returned "prompt")
            (λ _ _ _, Returned "prompt") (λ _ _ _, Returned "prompt"))
         (MatchingService_init default_settings
            {| cfg_cache_enabled := None; cfg_cache_ttl := None;
               cfg_model := None |})
         "user_tribe" None None None 0%Qc 1%Qc).1
      = Returned (validation_error_response msg
                    ("perform_matching - " +:+ "user_tribe") 1%Qc).
Proof.
  apply (service_over_matching_model_outcome default_settings
           {| cfg_cache_enabled := None; cfg_cache_ttl := None;
              cfg_model := None |}).
  - apply reachable_init.
  - unfold MATCHING_TYPES. apply elem_of_cons. by left.
Defined.

(** ** An adapter made with the defaults *)

(** X27. The request budget of an adapter made without [max_retries] and
    [retry_delay] in its configuration. [__init__] makes an adapter only
    from a key that is not empty; the adapter then retries three times
    with a delay of one second, so that a call of [generate_text], whatever
    the provider does, sends at most 4 requests and sleeps at most
    1 + 2 + 3 = 6 seconds in all. *)
Theorem default_adapter_request_budget env config self net prompt model_name
    parameters r events :
  OpenRouterAdapter_init env config = Returned self →
  cfg_max_retries config = None →
  cfg_retry_delay config = None →
  generate_text env self net prompt model_name parameters = Some (r, events) →
  api_key self ≠ empty_str
  ∧ (posts events ≤ 4)%nat
  ∧ (total_sleep events ≤ Qc_of_Z 6)%Qc.
Proof.
  intros Hinit Hretries Hdelay Hout. unfold OpenRouterAdapter_init in Hinit.
  case_bool_decide as Hkey; [discriminate |].
  rewrite Hretries, Hdelay in Hinit. cbn [default from_option id] in Hinit.
  injection Hinit as <-. split; [exact Hkey |].
  unfold generate_text in Hout.
  destruct (prepare_parameters env parameters model_name) as [p|e].
  - destruct (retry_loop_shape _ _ _ _ _ _ _ 0 _ _ ltac:(lia) Hout)
      as (n & Hn & -> & _).
    cbn [max_retries retry_delay] in *. unfold total_sleep.
    rewrite (posts_failing_steps _ _ (λ k, 1 * Qc_of_Z k)%Qc).
    rewrite (sleeps_failing_steps _ _ (λ k, 1 * Qc_of_Z k)%Qc).
    rewrite length_seqZ.
    assert (n = 0 ∨ n = 1 ∨ n = 2 ∨ n = 3) as [-> | [-> | [-> | ->]]] by lia;
      (split; [cbn; lia | by vm_compute]).
  - injection Hout as <- <-. split; [cbn; lia | by vm_compute].
Qed.

Lemma default_adapter_request_budget_witness :
  api_key sample_adapter ≠ empty_str
  ∧ (posts (retry_trace sample_adapter (completion_url sample_adapter)
              (completion_payload None
                 (prepare_prompt default_settings "Test prompt" None)
                 default_parameters) 1) ≤ 4)%nat
  ∧ (total_sleep (retry_trace sample_adapter (completion_url sample_adapter)
                    (completion_payload None
                       (prepare_prompt default_settings "Test prompt" None)
                       default_parameters) 1) ≤ Qc_of_Z 6)%Qc.
Proof.
  apply (default_adapter_request_budget default_settings test_config
           sample_adapter net_flaky "Test prompt" None None
           (Returned (PStr "This is a mock response"))).
  - reflexivity.
  - reflexivity.
  - reflexivity.
  - vm_compute. reflexivity.
Defined.
